(** * Parallel-Processing-System-Simulation: the Master/Worker protocol

    A shallow embedding of [task.py], [worker.py] and [master.py].

    - Python integers are [Z]; wall-clock readings and durations are
      rationals ([Q]), an idealisation of Python floats.
    - A Python [dict] with string keys is an association list when it is
      data ([payload], workload results) and a [gmap] when it is used as a
      lookup table ([task_functions]).
    - Exceptions are values of type [exn]; the type stands for the
      instances of Python's [Exception] class, which is what the handlers
      [except Exception] of the source range over.  Code that may raise
      returns [exn + A].
    - The queues are the only objects shared between the master and its
      workers.  The whole system is one record ([Master]) holding the two
      queues and the pool; the workers run interleaved with the master:
      at each point where the master may be preempted the workers listed
      by the schedule take one atomic step each. *)

From Stdlib Require Import QArith.
From stdpp Require Import gmap strings list pretty.

Local Open Scope Z_scope.

(** ** Python values *)

#[warnings="-register-all"]
Inductive pyval : Type :=
  | PInt (z : Z)
  | PStr (s : string)
  | PDict (d : list (string * pyval)).

Definition dict : Type := list (string * pyval).

(** Instances of [Exception]: the class name and [str(e)]. *)
Record exn : Type := Exn { exn_class : string; exn_msg : string }.

Definition Empty : exn := Exn "Empty" "".
Definition ValueError (msg : string) : exn := Exn "ValueError" msg.
Definition RuntimeError (msg : string) : exn := Exn "RuntimeError" msg.
Definition TypeError (msg : string) : exn := Exn "TypeError" msg.
Definition ZeroDivisionError (msg : string) : exn := Exn "ZeroDivisionError" msg.
Definition NotImplementedError (msg : string) : exn := Exn "NotImplementedError" msg.
Definition AssertionError (msg : string) : exn := Exn "AssertionError" msg.

(** ** task.py *)

(** The dataclass [Task]; [result] is [None] until a worker fills it. *)
Record Task : Type := mkTask {
  id : Z;
  task_type : string;
  payload : dict;
  result : option pyval;
  processing_time : Q
}.

(** What a call of a workload function does: [return d] or [raise e]. *)
Inductive outcome : Type :=
  | Returns (d : dict)
  | Raises (e : exn).

(** One call of [generate_random_task] draws from [random] once for the
    type and up to three times for the payload. *)
Record draw : Type := mkDraw { pick : nat; r1 : Z; r2 : Z; r3 : Z }.

(** [random.randint(a, b)], from a raw draw [r]. *)
Definition randint (r a b : Z) : Z := a + r `mod` (b - a + 1).

(** [random.choice(l)], from a raw draw [k]. *)
Definition choice {A} (k : nat) (l : list A) (d : A) : A :=
  default d (l !! (k `mod` length l)%nat).

Definition generate_random_task (rnd : draw) (task_id : Z) : Task :=
  let task_types := ["io"; "cpu"; "mixed"] in
  let task_type := choice (pick rnd) task_types "io" in
  let payload :=
    if String.eqb task_type "io" then
      [("filename", PStr ("file_" +:+ pretty task_id +:+ ".txt"));
       ("content", PStr ("Content for task " +:+ pretty task_id));
       ("size", PInt (randint (r1 rnd) 512 2048))]
    else if String.eqb task_type "cpu" then
      [("iterations", PInt (randint (r1 rnd) 100000 1000000));
       ("complexity", PInt (randint (r2 rnd) 1 2))]
    else
      [("filename", PStr ("mixed_" +:+ pretty task_id +:+ ".txt"));
       ("iterations", PInt (randint (r1 rnd) 50000 500000));
       ("complexity", PInt (randint (r2 rnd) 1 2));
       ("size", PInt (randint (r3 rnd) 256 1024))] in
  mkTask task_id task_type payload None 0%Q.

(** ** Queues ([queue.Queue] and [multiprocessing.Queue])

    [pending] lists what the coming calls of [get] produce, head first:
    an item that was put, or an exception raised by the queue itself (a
    broken pipe, an item that cannot be deserialised).  On an empty
    queue a non-blocking [get], and a blocking one whose timeout has
    expired, raise [Empty].  [unfinished_tasks] is the counter behind
    [task_done]; only [queue.Queue] has that method ([joinable]).
    [history] is a ghost field: every item ever put, in order. *)
Record Queue (A : Type) : Type := mkQueue {
  joinable : bool;
  pending : list (exn + A);
  unfinished_tasks : nat;
  history : list A
}.
Arguments mkQueue {A}.
Arguments joinable {A}.
Arguments pending {A}.
Arguments unfinished_tasks {A}.
Arguments history {A}.

Definition new_queue {A} (j : bool) : Queue A := mkQueue j [] 0 [].

Definition put {A} (x : A) (q : Queue A) : Queue A :=
  mkQueue (joinable q) (pending q ++ [inr x]) (S (unfinished_tasks q))
          (history q ++ [x]).

Definition get {A} (q : Queue A) : (exn + A) * Queue A :=
  match pending q with
  | [] => (inl Empty, q)
  | o :: rest =>
      (o, mkQueue (joinable q) rest (unfinished_tasks q) (history q))
  end.

Definition task_done {A} (q : Queue A) : (exn + unit) * Queue A :=
  match unfinished_tasks q with
  | O => (inl (ValueError "task_done() called too many times"), q)
  | S n => (inr tt, mkQueue (joinable q) (pending q) n (history q))
  end.

(** The items waiting in a queue, and the tasks among optional items
    ([None] is the poison pill). *)
Definition items {A} (q : Queue A) : list A :=
  omap (λ o, match o with inr x => Some x | inl _ => None end) (pending q).

Definition tasks_of (l : list (option Task)) : list Task := omap (λ o, o) l.

(** ** worker.py *)

Inductive flavour : Type := ThreadW | ProcessW.

(** Where a worker stands in [run]: not started, at the head of the
    loop, holding a processed task it has yet to put, after the put and
    before [task_done] (thread workers only), or out of the loop. *)
Inductive wpc : Type :=
  | Created
  | AwaitTask
  | Processed (t : Task)
  | PutDone
  | Stopped.

Record Worker : Type := mkWorker {
  worker_id : Z;
  worker_type : flavour;
  wk_running : bool;
  pc : wpc
}.

Definition ThreadWorker (worker_id : Z) : Worker :=
  mkWorker worker_id ThreadW true Created.

Definition ProcessWorker (worker_id : Z) : Worker :=
  mkWorker worker_id ProcessW true Created.

Definition set_pc (w : Worker) (p : wpc) : Worker :=
  mkWorker (worker_id w) (worker_type w) (wk_running w) p.


(** One activation of a worker: which pool member runs, and the two
    clock readings it takes should it process a task. *)
Record tick : Type := mkTick { who : nat; t_start : Q; t_end : Q }.

(** ** master.py *)

(** A [Master] object together with the objects it shares with its pool:
    the two queues and the workers.  [perf_start] and [perf_end] are the
    two fields of its [PerformanceMonitor].  [now] is a ghost field, the
    logical time: the number of preemption points passed so far. *)
Record Master : Type := mkMaster {
  name : string;
  num_workers : Z;
  workers : list Worker;
  task_queue : Queue (option Task);
  result_queue : Queue Task;
  perf_start : option Q;
  perf_end : option Q;
  running : bool;
  tasks_submitted : Z;
  tasks_completed : Z;
  now : nat
}.

Definition set_workers (m : Master) (ws : list Worker) : Master :=
  mkMaster (name m) (num_workers m) ws (task_queue m) (result_queue m)
           (perf_start m) (perf_end m) (running m)
           (tasks_submitted m) (tasks_completed m) (now m).

Definition set_task_queue (m : Master) (q : Queue (option Task)) : Master :=
  mkMaster (name m) (num_workers m) (workers m) q (result_queue m)
           (perf_start m) (perf_end m) (running m)
           (tasks_submitted m) (tasks_completed m) (now m).

Definition set_result_queue (m : Master) (q : Queue Task) : Master :=
  mkMaster (name m) (num_workers m) (workers m) (task_queue m) q
           (perf_start m) (perf_end m) (running m)
           (tasks_submitted m) (tasks_completed m) (now m).

Definition set_perf_start (m : Master) (t : option Q) : Master :=
  mkMaster (name m) (num_workers m) (workers m) (task_queue m) (result_queue m)
           t (perf_end m) (running m)
           (tasks_submitted m) (tasks_completed m) (now m).

Definition set_perf_end (m : Master) (t : option Q) : Master :=
  mkMaster (name m) (num_workers m) (workers m) (task_queue m) (result_queue m)
           (perf_start m) t (running m)
           (tasks_submitted m) (tasks_completed m) (now m).

Definition set_running (m : Master) (b : bool) : Master :=
  mkMaster (name m) (num_workers m) (workers m) (task_queue m) (result_queue m)
           (perf_start m) (perf_end m) b
           (tasks_submitted m) (tasks_completed m) (now m).

Definition set_tasks_submitted (m : Master) (n : Z) : Master :=
  mkMaster (name m) (num_workers m) (workers m) (task_queue m) (result_queue m)
           (perf_start m) (perf_end m) (running m)
           n (tasks_completed m) (now m).

Definition set_tasks_completed (m : Master) (n : Z) : Master :=
  mkMaster (name m) (num_workers m) (workers m) (task_queue m) (result_queue m)
           (perf_start m) (perf_end m) (running m)
           (tasks_submitted m) n (now m).

Definition set_now (m : Master) (k : nat) : Master :=
  mkMaster (name m) (num_workers m) (workers m) (task_queue m) (result_queue m)
           (perf_start m) (perf_end m) (running m)
           (tasks_submitted m) (tasks_completed m) k.

(** The dictionary returned by [run_benchmark]. *)
Record BenchmarkResult : Type := mkBenchmarkResult {
  master_type : string;
  res_num_workers : Z;
  num_tasks : Z;
  total_time : Q;
  tasks_per_second : Q;
  avg_task_time : Q;
  avg_by_type : list (string * Q);
  memory_mb : Q
}.

(** Code of the master: a state and exception monad over [Master]. *)
Definition M (A : Type) : Type := Master → (exn + A) * Master.

Definition ret {A} (a : A) : M A := λ m, (inr a, m).
Definition raise {A} (e : exn) : M A := λ m, (inl e, m).
Definition gets {A} (f : Master → A) : M A := λ m, (inr (f m), m).
Definition modify (f : Master → Master) : M unit := λ m, (inr tt, f m).
Definition bind {A B} (c : M A) (k : A → M B) : M B :=
  λ m, match c m with
       | (inl e, m') => (inl e, m')
       | (inr a, m') => k a m'
       end.

#[global] Instance M_ret : MRet M := @ret.
#[global] Instance M_bind : MBind M := λ A B k c, bind c k.

(** [for x in l: body(x)] *)
Fixpoint for_each {A} (l : list A) (body : A → M unit) : M unit :=
  match l with
  | [] => ret tt
  | x :: rest => body x;; for_each rest body
  end.

(** Python's true division, which raises on a zero divisor. *)
Definition py_div (a b : Q) : exn + Q :=
  if Qeq_bool b 0 then inl (ZeroDivisionError "division by zero")
  else inr (a / b)%Q.

Definition py_sum (l : list Q) : Q := foldl Qplus 0%Q l.

(** [if k not in g: g[k] = []] followed by [g[k].append(v)], on an
    insertion-ordered dictionary. *)
Fixpoint group_add (k : string) (v : Q) (g : list (string * list Q))
    : list (string * list Q) :=
  match g with
  | [] => [(k, [v])]
  | (k', vs) :: rest =>
      if String.eqb k k' then (k', vs ++ [v]) :: rest
      else (k', vs) :: group_add k v rest
  end.

Fixpoint averages (g : list (string * list Q)) : exn + list (string * Q) :=
  match g with
  | [] => inr []
  | (k, times) :: rest =>
      match py_div (py_sum times) (inject_Z (Z.of_nat (length times))) with
      | inl e => inl e
      | inr a =>
          match averages rest with
          | inl e => inl e
          | inr l => inr ((k, a) :: l)
          end
      end
  end.

(** The statistics of [run_benchmark] (between the two clock readings
    and the [return]). *)
Definition benchmark_statistics (name : string) (num_workers num_tasks : Z)
    (start_time end_time memory : Q) (results : list Task)
    : exn + BenchmarkResult :=
  let total_time := (end_time - start_time)%Q in
  match (if Qlt_le_dec 0 total_time
         then py_div (inject_Z num_tasks) total_time else inr 0%Q) with
  | inl e => inl e
  | inr tasks_per_second =>
      let task_times := processing_time <$> results in
      match (match task_times with
             | [] => inr 0%Q
             | _ => py_div (py_sum task_times)
                           (inject_Z (Z.of_nat (length task_times)))
             end) with
      | inl e => inl e
      | inr avg_task_time =>
          let task_types :=
            foldl (λ g task, group_add (task_type task) (processing_time task) g)
                  [] results in
          match averages task_types with
          | inl e => inl e
          | inr avg_by_type =>
              inr (mkBenchmarkResult name num_workers num_tasks total_time
                     tasks_per_second avg_task_time avg_by_type memory)
          end
      end
  end.

(** The three concrete classes, and the abstract base class. *)
Inductive backend : Type := Base | SingleProcess | Threaded | Multiprocess.

Definition create_queues (b : backend)
    : exn + (Queue (option Task) * Queue Task) :=
  match b with
  | Base => inl (NotImplementedError "Subclasses must implement create_queues")
  | SingleProcess | Threaded => inr (new_queue true, new_queue true)
  | Multiprocess => inr (new_queue false, new_queue false)
  end.

Definition create_workers (b : backend) (self : Master) : exn + Master :=
  match b with
  | Base => inl (NotImplementedError "Subclasses must implement create_workers")
  | SingleProcess => inr (set_workers self [ThreadWorker 1])
  | Threaded =>
      inr (set_workers self
             ((λ i, ThreadWorker (i + 1)) <$> seqZ 0 (num_workers self)))
  | Multiprocess =>
      inr (set_workers self
             ((λ i, ProcessWorker (i + 1)) <$> seqZ 0 (num_workers self)))
  end.

(** [Master.__init__] *)
Definition Master_init (b : backend) (name : string) (num_workers : Z)
    : exn + Master :=
  match create_queues b with
  | inl e => inl e
  | inr (tq, rq) =>
      inr (mkMaster name num_workers [] tq rq None None false 0 0 0%nat)
  end.

(** [__init__] of a subclass: [super().__init__(...)], then
    [self.create_workers()]. *)
Definition subclass_init (b : backend) (name : string) (num_workers : Z)
    : exn + Master :=
  match Master_init b name num_workers with
  | inl e => inl e
  | inr self => create_workers b self
  end.

Definition SingleProcessMaster (num_workers : Z) : exn + Master :=
  subclass_init SingleProcess "single_process" 1.

Definition ThreadedMaster (num_workers : Z) : exn + Master :=
  subclass_init Threaded "threaded" num_workers.

Definition MultiprocessMaster (num_workers : Z) : exn + Master :=
  subclass_init Multiprocess "multiprocess" num_workers.

(** ** A concrete environment

    Used to run the model on examples: three workloads of which the
    mixed one fails, a round-robin schedule, a clock that advances by one
    second per preemption point. *)

Definition demo_io_task (payload : dict) : outcome :=
  Returns [("filepath", PStr "temp_files/file.txt"); ("size", PInt 1032)].

Definition demo_cpu_task (payload : dict) : outcome :=
  Returns [("iterations_completed", PInt 100000); ("result", PInt 0)].

Definition demo_mixed_task (payload : dict) : outcome :=
  Raises (Exn "OSError" "No space left on device").

Definition round_robin (pool : nat) (k : nat) : list tick :=
  (λ i, mkTick i 0 1) <$> seq 0 pool.

Definition demo_clock (k : nat) : Q := inject_Z (Z.of_nat k).

Definition demo_rng (k : nat) : draw := mkDraw k 7 8 9.

Definition demo_memory (k : nat) : Q := 42.

(** A threaded master with two workers, as [start_workers] leaves it. *)
Definition demo_started : Master :=
  mkMaster "threaded" 2
    [mkWorker 1 ThreadW true AwaitTask; mkWorker 2 ThreadW true AwaitTask]
    (new_queue true) (new_queue true) None None true 0 0 2%nat.

Definition demo_task : Task :=
  mkTask 3 "mixed" [("filename", PStr "mixed_3.txt")] None 0.

(** ** The CPU workload of [task.py]

    [cpu_task] is the one workload that neither touches the file system
    nor reads the clock or the random generator: it is a function of its
    payload.  Payload values are the integers, strings and dictionaries
    of [pyval], the kinds of value that [generate_random_task] and the
    workloads themselves produce; a payload holding a float ([2.0] as a
    complexity, say) is outside the model. *)
Module Workload.

(** [type(v).__name__] *)
Definition type_name (v : pyval) : string :=
  match v with PInt _ => "int" | PStr _ => "str" | PDict _ => "dict" end.

(** [d.get(key, default)] on a dictionary given by its items. *)
Fixpoint dict_get (d : dict) (key : string) (default : pyval) : pyval :=
  match d with
  | [] => default
  | (k, v) :: rest => if String.eqb k key then v else dict_get rest key default
  end.

(** [i ** complexity % (i + 1 if i > 0 else 1)], for an exponent that is
    not negative. *)
Definition cpu_term (i complexity : Z) : Z :=
  (i ^ complexity) `mod` (if 0 <? i then i + 1 else 1).

(** [cpu_task].  [range(iterations)] raises unless [iterations] is an
    integer.  The loop body runs for [i = 0] first: there [i ** complexity]
    raises [TypeError] when [complexity] is a string or a dictionary and
    [ZeroDivisionError] when it is a negative integer, which ends the
    call; otherwise every term is an integer. *)
Definition cpu_task (payload : dict) : outcome :=
  let iterations := dict_get payload "iterations" (PInt 1000000) in
  let complexity := dict_get payload "complexity" (PInt 1) in
  match iterations with
  | PInt n =>
      if n <=? 0 then
        Returns [("iterations_completed", PInt n); ("result", PInt 0)]
      else
        match complexity with
        | PInt c =>
            if c <? 0 then
              Raises (ZeroDivisionError
                        "0.0 cannot be raised to a negative power")
            else
              Returns [("iterations_completed", PInt n);
                       ("result",
                        PInt (foldl (λ result i, result + cpu_term i c) 0
                                (seqZ 0 n)))]
        | _ =>
            Raises (TypeError
                      ("unsupported operand type(s) for ** or pow(): "
                       +:+ "'int' and '" +:+ type_name complexity +:+ "'"))
        end
  | _ =>
      Raises (TypeError
                ("'" +:+ type_name iterations
                 +:+ "' object cannot be interpreted as an integer"))
  end.

(** [mixed_task]: the CPU workload first, then the I/O workload on a
    content that quotes the CPU result.  [io_task] writes and reads a
    file: it is a parameter here, as is the number [r] drawn for the
    default file name.  The dictionary of [cpu_task] always holds an
    integer under "result" (lemma [cpu_task_result_int]), so only the
    first case of the match on it is ever taken. *)
Definition mixed_task (io_task : dict → outcome) (r : Z) (payload : dict)
    : outcome :=
  match cpu_task [("iterations", dict_get payload "iterations" (PInt 500000));
                  ("complexity", dict_get payload "complexity" (PInt 1))] with
  | Raises e => Raises e
  | Returns cpu_result =>
      let filename :=
        dict_get payload "filename"
          (PStr ("mixed_" +:+ pretty (randint r 1000 9999) +:+ ".txt")) in
      let content :=
        match dict_get cpu_result "result" (PInt 0) with
        | PInt z => "Result: " +:+ pretty z
        | PStr s => "Result: " +:+ s
        | PDict _ => "Result: {}"
        end in
      match io_task [("filename", filename); ("content", PStr content);
                     ("size", dict_get payload "size" (PInt 512))] with
      | Raises e => Raises e
      | Returns io_result =>
          Returns [("cpu_result", PDict cpu_result);
                   ("io_result", PDict io_result)]
      end
  end.

End Workload.


(** ** The configurations of [benchmark.py] *)

(** [os.cpu_count() or 4]: [None] and 0 both give 4. *)
Definition get_cpu_count (os_cpu_count : option Z) : Z :=
  match os_cpu_count with
  | None => 4
  | Some c => if c =? 0 then 4 else c
  end.

Definition default_task_counts : list Z := [10; 50; 100].

Definition default_worker_counts (os_cpu_count : option Z) : list Z :=
  let cpu_count := get_cpu_count os_cpu_count in
  [1; cpu_count `div` 2; cpu_count; cpu_count * 2].

(** The dictionary [results] of [run_comprehensive_benchmark], with its
    three fixed keys. *)
Record Results := mkResults {
  single : list BenchmarkResult;
  threaded : list BenchmarkResult;
  multiprocess : list BenchmarkResult
}.

(** The configuration a record belongs to: backend, worker count and
    task count. *)
Definition label (r : BenchmarkResult) : string * Z * Z :=
  (master_type r, res_num_workers r, num_tasks r).

(** ** Queues at rest and sentinels *)

(** A queue as it is created: nothing to get, nothing unfinished, nothing
    ever put. *)
Definition empty_queue {A} (q : Queue A) : Prop :=
  pending q = [] ∧ unfinished_tasks q = 0%nat ∧ history q = [].

Definition is_sentinel (o : exn + option Task) : bool :=
  match o with inr None => true | _ => false end.

(** The sentinels that wait in a task queue. *)
Definition sentinels (q : Queue (option Task)) : nat :=
  sum_list ((λ o, if is_sentinel o then 1%nat else 0%nat) <$> pending q).

Definition has_stopped (w : Worker) : nat :=
  match pc w with Stopped => 1 | _ => 0 end.

(** The workers of a pool that have left their loop. *)
Definition stopped_workers (ws : list Worker) : nat :=
  sum_list (has_stopped <$> ws).

(** A clock that is set back by one second at every preemption point. *)
Definition falling_clock (k : nat) : Q := inject_Z (100 - Z.of_nat k).

Section Workloads.

(** The three workload bodies of [task.py].  They write files, read the
    clock and draw random numbers; the protocol only depends on whether
    a call returns a dictionary or raises. *)
Variables io_task cpu_task mixed_task : dict → outcome.

Definition task_functions : gmap string (dict → outcome) :=
  <["io" := io_task]> (<["cpu" := cpu_task]> (<["mixed" := mixed_task]> ∅)).

Definition get_task_function (task_type : string) : dict → outcome :=
  default cpu_task (task_functions !! task_type).

(** The [try] block of [Worker.process_task]. *)
Definition process_task_try (start_time now : Q) (task : Task) : exn + Task :=
  let task_func := get_task_function (task_type task) in
  match task_func (payload task) with
  | Returns d =>
      inr (mkTask (id task) (task_type task) (payload task)
                  (Some (PDict d)) (now - start_time)%Q)
  | Raises e => inl e
  end.

Definition process_task (start_time now : Q) (task : Task) : Task :=
  match process_task_try start_time now task with
  | inr t => t
  | inl e =>
      mkTask (id task) (task_type task) (payload task)
             (Some (PStr ("Error: " +:+ exn_msg e))) (now - start_time)%Q
  end.

(** One atomic step of [ThreadWorker.run] / [ProcessWorker.run].  An
    exception of [get] leaves the worker in its loop: [queue.Empty] by
    [continue], any other by the handler that logs it. *)
Definition worker_step (tk : tick) (w : Worker)
    (task_queue : Queue (option Task)) (result_queue : Queue Task)
    : Worker * Queue (option Task) * Queue Task :=
  match pc w with
  | Created => (w, task_queue, result_queue)
  | AwaitTask =>
      if negb (wk_running w) then (set_pc w Stopped, task_queue, result_queue)
      else
        match get task_queue with
        | (inl e, tq) => (w, tq, result_queue)
        | (inr None, tq) => (set_pc w Stopped, tq, result_queue)
        | (inr (Some task), tq) =>
            (set_pc w (Processed (process_task (t_start tk) (t_end tk) task)),
             tq, result_queue)
        end
  | Processed t =>
      match worker_type w with
      | ThreadW => (set_pc w PutDone, task_queue, put t result_queue)
      | ProcessW => (set_pc w AwaitTask, task_queue, put t result_queue)
      end
  | PutDone => (set_pc w AwaitTask, snd (task_done task_queue), result_queue)
  | Stopped => (w, task_queue, result_queue)
  end.

Section Environment.

(** The environment of a run: the workers activated at each preemption
    point of the master, the wall clock, the random draws and the
    resident-memory samples, all indexed by logical time. *)
Variable sched : nat → list tick.
Variable clock : nat → Q.
Variable rng : nat → draw.
Variable memory : nat → Q.

Definition run_tick (m : Master) (tk : tick) : Master :=
  match workers m !! who tk with
  | None => m
  | Some w =>
      let '(w', tq, rq) := worker_step tk w (task_queue m) (result_queue m) in
      set_result_queue
        (set_task_queue (set_workers m (<[who tk := w']> (workers m))) tq) rq
  end.

(** A preemption point: the scheduled workers run, logical time
    advances. *)
Definition yield (m : Master) : Master :=
  let m' := foldl run_tick m (sched (now m)) in
  set_now m' (S (now m')).

Definition yield_ : M unit := modify yield.

(** What [Thread] and [Process] raise on a second [start()] and on a
    [join()] before [start()]. *)
Definition started_twice (w : Worker) : exn :=
  match worker_type w with
  | ThreadW => RuntimeError "threads can only be started once"
  | ProcessW => AssertionError "cannot start a process twice"
  end.

Definition not_started (w : Worker) : exn :=
  match worker_type w with
  | ThreadW => RuntimeError "cannot join thread before it is started"
  | ProcessW => AssertionError "can only join a started process"
  end.

(** [worker.start()]: a thread or process can be started only once. *)
Definition start_worker (i : nat) : M unit :=
  ws ← gets workers;
  match ws !! i with
  | None => ret tt
  | Some w =>
      match pc w with
      | Created =>
          modify (λ m, set_workers m (<[i := set_pc w AwaitTask]> (workers m)));;
          yield_
      | _ => raise (started_twice w)
      end
  end.

Definition start_workers : M unit :=
  ws ← gets workers;
  for_each (seq 0 (length ws)) start_worker;;
  modify (λ m, set_running m true).

(** [worker.join(timeout=2.0)]: the caller waits while the workers run;
    joining a worker that was never started raises. *)
Definition join (i : nat) : M unit :=
  ws ← gets workers;
  match ws !! i with
  | None => ret tt
  | Some w =>
      match pc w with
      | Created => raise (not_started w)
      | _ => yield_
      end
  end.

Definition stop_workers : M unit :=
  r ← gets running;
  if negb r then ret tt
  else
    ws ← gets workers;
    for_each (seq 0 (length ws))
      (λ _, modify (λ m, set_task_queue m (put None (task_queue m)));; yield_);;
    for_each (seq 0 (length ws)) join;;
    modify (λ m, set_running m false).

Definition submit_task (task : Task) : M unit :=
  modify (λ m, set_task_queue m (put (Some task) (task_queue m)));;
  modify (λ m, set_tasks_submitted m (tasks_submitted m + 1));;
  yield_.

(** The loop of [collect_results].  It ends when [get] or [task_done]
    raises; every iteration consumes one pending entry, so the fuel given
    by [collect_results] is never exhausted.  The drain is one atomic
    step of the master: a result put while it runs is either seen by it
    or by the next drain, as if it had been put just before or just
    after. *)
Fixpoint collect_loop (fuel : nat) (results : list Task) (m : Master)
    : list Task * Master :=
  match fuel with
  | O => (results, m)
  | S f =>
      match get (result_queue m) with
      | (inl e, rq) => (results, set_result_queue m rq)
      | (inr result, rq) =>
          let results := results ++ [result] in
          let m1 := set_result_queue m rq in
          let m2 := set_tasks_completed m1 (tasks_completed m1 + 1) in
          if joinable rq then
            match task_done rq with
            | (inl e, rq') => (results, set_result_queue m2 rq')
            | (inr _, rq') => collect_loop f results (set_result_queue m2 rq')
            end
          else collect_loop f results m2
      end
  end.

Definition collect_results (timeout : option Q) : M (list Task) := λ m,
  let '(results, m') :=
    collect_loop (S (length (pending (result_queue m)))) [] m in
  (inr results, m').

Definition generate_workload (num_tasks : Z) : M Z :=
  modify (λ m, set_perf_start m (Some (clock (now m))));;
  for_each (seqZ 0 num_tasks)
    (λ i, t ← gets now;
          submit_task (generate_random_task (rng t) (i + 1)));;
  gets tasks_submitted.

(** [timeout and (time.time() - start_time) > timeout] *)
Definition timed_out (timeout : option Q) (start_time current : Q) : bool :=
  match timeout with
  | None => false
  | Some t =>
      negb (Qeq_bool t 0) && negb (Qle_bool (current - start_time) t)
  end.

(** [time.sleep(seconds)]: a negative length raises [ValueError];
    otherwise the caller is preempted while the workers run. *)
Definition sleep (seconds : Q) : M unit :=
  if Qle_bool 0 seconds then yield_
  else raise (ValueError "sleep length must be non-negative").

(** The [while] loop of [wait_for_completion]; [None] when the fuel does
    not suffice.  The progress report (a log line and a memory sample
    every five seconds) does not touch the state and is left out. *)
Fixpoint wait_loop (fuel : nat) (check_interval : Q) (timeout : option Q)
    (start_time : Q) (all_results : list Task) (m : Master)
    : option ((exn + list Task) * Master) :=
  match fuel with
  | O => None
  | S f =>
      if tasks_completed m <? tasks_submitted m then
        if timed_out timeout start_time (clock (now m)) then
          Some (inr all_results, m)
        else
          match collect_results (Some (1 # 2)%Q) m with
          | (inl e, m1) => Some (inl e, m1)
          | (inr results, m1) =>
              match sleep check_interval m1 with
              | (inl e, m2) => Some (inl e, m2)
              | (inr _, m2) =>
                  wait_loop f check_interval timeout start_time
                    (all_results ++ results) m2
              end
          end
      else Some (inr all_results, m)
  end.

(** [PerformanceMonitor.stop] *)
Definition performance_stop : M Q := λ m,
  let end_time := clock (now m) in
  let m1 := set_perf_end m (Some end_time) in
  match perf_start m with
  | None =>
      (inl (TypeError "unsupported operand type(s) for -: 'float' and 'NoneType'"),
       m1)
  | Some s => (inr (end_time - s)%Q, m1)
  end.

Definition wait_for_completion (fuel : nat) (check_interval : Q)
    (timeout : option Q) (m : Master) : option ((exn + list Task) * Master) :=
  let start_time := clock (now m) in
  match wait_loop fuel check_interval timeout start_time [] m with
  | None => None
  | Some (inl e, m1) => Some (inl e, m1)
  | Some (inr all_results, m1) =>
      Some ((results ← collect_results (Some (1 # 2)%Q);
             duration ← performance_stop;
             ret (all_results ++ results)) m1)
  end.

(** The [try] block of [run_benchmark]; next to the statistics it gives
    the list returned by [wait_for_completion]. *)
Definition run_benchmark_try (fuel : nat) (num_tasks : Z) (m : Master)
    : option ((exn + list Task * BenchmarkResult) * Master) :=
  match start_workers m with
  | (inl e, m1) => Some (inl e, m1)
  | (inr _, m1) =>
      let start_time := clock (now m1) in
      match generate_workload num_tasks m1 with
      | (inl e, m2) => Some (inl e, m2)
      | (inr _, m2) =>
          match wait_for_completion fuel (1 # 2)%Q None m2 with
          | None => None
          | Some (inl e, m3) => Some (inl e, m3)
          | Some (inr results, m3) =>
              let end_time := clock (now m3) in
              match benchmark_statistics (name m3) (num_workers m3) num_tasks
                      start_time end_time (memory (now m3)) results with
              | inl e => Some (inl e, m3)
              | inr r => Some (inr (results, r), m3)
              end
          end
      end
  end.

(** [run_benchmark]: the [finally] clause stops the workers whatever the
    [try] block did. *)
Definition run_benchmark (fuel : nat) (num_tasks : Z) (m : Master)
    : option ((exn + BenchmarkResult) * Master) :=
  match run_benchmark_try fuel num_tasks m with
  | None => None
  | Some (r, m1) =>
      match stop_workers m1 with
      | (inl e, m2) => Some (inl e, m2)
      | (inr _, m2) => Some (sum_map (λ e, e) snd r, m2)
      end
  end.

(** ** Predicates of the statements *)

(** A computation of the master "frames" a relation when its final state
    is always related to its initial one. *)
Definition frames (R : Master → Master → Prop) {A} (c : M A) : Prop :=
  ∀ m, R m (c m).2.

Definition same_num_workers (m m' : Master) : Prop :=
  num_workers m' = num_workers m.

Definition same_counters (m m' : Master) : Prop :=
  tasks_submitted m' = tasks_submitted m ∧
  tasks_completed m' = tasks_completed m.

Definition same_completed (m m' : Master) : Prop :=
  tasks_submitted m ≤ tasks_submitted m' ∧
  tasks_completed m' = tasks_completed m.

Definition same_submitted (m m' : Master) : Prop :=
  tasks_submitted m' = tasks_submitted m ∧
  tasks_completed m ≤ tasks_completed m'.

Definition counters_grow (m m' : Master) : Prop :=
  tasks_submitted m ≤ tasks_submitted m' ∧
  tasks_completed m ≤ tasks_completed m'.

Ltac frame_side :=
  unfold same_num_workers, same_counters, same_completed, same_submitted,
    counters_grow;
  intros; simpl in *; intuition (first [done | lia | congruence]).

(** The master after a drain that took [batch] and left the result
    queue as [rq]: nothing else differs. *)
Definition collected (m : Master) (batch : list Task) (rq : Queue Task)
    : Master :=
  set_tasks_completed (set_result_queue m rq)
    (tasks_completed m + Z.of_nat (length batch)).

(** How a drain that took [batch] out of [q], leaving [q'], ended: on an
    empty queue, on an exception of [get] (consumed with the entry that
    raised it), or on [task_done] raising after the last item. *)
Definition drain_end (q q' : Queue Task) (batch : list Task)
    (rest : list (exn + Task)) : Prop :=
  (rest = [] ∧ pending q' = []) ∨
  (∃ e, rest = inl e :: pending q') ∨
  (joinable q = true ∧ pending q' = rest ∧
   length batch = S (unfinished_tasks q)).

(** A pool member has been started. *)
Definition started (w : Worker) : Prop := pc w ≠ Created.

Definition pool_started (m : Master) : Prop := Forall started (workers m).

(** What the steps of the workers cannot do: they leave the master's
    flag alone, put nothing on the task queue, keep the pool's size, and
    never bring a worker back to [Created]. *)
Definition quiet (m m' : Master) : Prop :=
  running m' = running m ∧
  history (task_queue m') = history (task_queue m) ∧
  length (workers m') = length (workers m) ∧
  (pool_started m → pool_started m').

(** ** The tasks in the system *)

(** The task a worker holds between its [get] and its [put]. *)
Definition holding (w : Worker) : list Task :=
  match pc w with Processed t => [t] | _ => [] end.

Definition inflight (ws : list Worker) : list Task := ws ≫= holding.

Definition flight (m : Master) : list Task := inflight (workers m).
Definition queued (m : Master) : list Task := tasks_of (items (task_queue m)).
Definition arrived (m : Master) : list Task := history (result_queue m).
Definition submitted_tasks (m : Master) : list Task :=
  tasks_of (history (task_queue m)).
Definition ids (l : list Task) : list Z := id <$> l.

(** Every submitted task that was not collected yet is in the result
    queue, held by a worker, or in the task queue. *)
Definition balanced (m : Master) : Prop :=
  tasks_submitted m =
    tasks_completed m +
    Z.of_nat (length (items (result_queue m)) + length (flight m)
              + length (queued m)).

(** No task is lost or duplicated on its way through the workers ... *)
Definition conserved (m : Master) : Prop :=
  ids (arrived m) ++ ids (flight m) ++ ids (queued m)
    ≡ₚ ids (submitted_tasks m).

(** ... and a single worker keeps them in order. *)
Definition in_order (m : Master) : Prop :=
  ids (arrived m) ++ ids (flight m) ++ ids (queued m)
    = ids (submitted_tasks m).

(** [acc] is what the master has collected so far. *)
Definition gathered (acc : list Task) (m : Master) : Prop :=
  acc ++ items (result_queue m) = arrived m.

(** The effect of one step of a worker on the tasks in the system:
    nothing moves, or a worker takes the task at the head of the task
    queue, or a worker puts the task it holds on the result queue. *)
Definition tick_effect (m m' : Master) : Prop :=
  tasks_submitted m' = tasks_submitted m ∧
  tasks_completed m' = tasks_completed m ∧
  submitted_tasks m' = submitted_tasks m ∧
  length (workers m') = length (workers m) ∧
  ((arrived m' = arrived m ∧ items (result_queue m') = items (result_queue m) ∧
    flight m' = flight m ∧ queued m' = queued m) ∨
   (∃ t t' pre post,
      id t' = id t ∧ queued m = t :: queued m' ∧
      flight m = pre ++ post ∧ flight m' = pre ++ t' :: post ∧
      (length (workers m) = 1%nat → pre = [] ∧ post = []) ∧
      arrived m' = arrived m ∧
      items (result_queue m') = items (result_queue m)) ∨
   (∃ t pre post,
      flight m = pre ++ t :: post ∧ flight m' = pre ++ post ∧
      (length (workers m) = 1%nat → pre = [] ∧ post = []) ∧
      arrived m' = arrived m ++ [t] ∧
      items (result_queue m') = items (result_queue m) ++ [t] ∧
      queued m' = queued m)).

(** Any number of such steps. *)
Definition calm : Master → Master → Prop := rtc tick_effect.

(** A predicate on the state that no step of a worker can break. *)
Definition stable (I : Master → Prop) : Prop :=
  ∀ m m', tick_effect m m' → I m → I m'.

(** ** Liveness *)

(** A worker inside its loop. *)
Definition live (w : Worker) : Prop :=
  wk_running w = true ∧ pc w ≠ Created ∧ pc w ≠ Stopped.

(** The pool serves: every worker is inside its loop and no sentinel
    waits in the task queue. *)
Definition serving (m : Master) : Prop :=
  Forall live (workers m) ∧
  Forall (λ o, o ≠ inr None) (pending (task_queue m)).

(** Worker [i] can make progress: it holds a task, owes a [task_done],
    or waits while the task queue is not empty. *)
Definition enabled (i : nat) (m : Master) : Prop :=
  ∃ w, workers m !! i = Some w ∧
       (pc w = AwaitTask → pending (task_queue m) ≠ []).

Definition weight (w : Worker) : nat :=
  match pc w with Processed _ => 3 | PutDone => 1 | _ => 0 end.

(** The work left: it decreases with every step that does something. *)
Definition potential (m : Master) : nat :=
  4 * length (pending (task_queue m)) + sum_list (weight <$> workers m)
  + length (pending (result_queue m)).

(** Every worker of a pool of [n] is activated again and again. *)
Definition fair (n : nat) : Prop :=
  ∀ i, (i < n)%nat → ∀ k, ∃ k', (k ≤ k')%nat ∧ i ∈ who <$> sched k'.

(** One round of the loop of [wait_for_completion]: what it collects,
    and the state it leaves. *)
Definition round_batch (m : Master) : list Task :=
  match (collect_results (Some (1 # 2)%Q) m).1 with
  | inr batch => batch
  | inl _ => []
  end.

Definition wait_round (m : Master) : Master :=
  yield (collect_results (Some (1 # 2)%Q) m).2.

(** ** A run from a new master *)

(** A master as its constructor leaves it. *)
Definition fresh (m : Master) : Prop :=
  Forall (λ w, pc w = Created ∧ wk_running w = true) (workers m) ∧
  pending (task_queue m) = [] ∧ history (task_queue m) = [] ∧
  pending (result_queue m) = [] ∧ history (result_queue m) = [] ∧
  tasks_submitted m = 0 ∧ tasks_completed m = 0.

(** Nothing to do: the task queue is empty and every worker is either
    not started or waiting. *)
Definition idle (m : Master) : Prop :=
  pending (task_queue m) = [] ∧
  Forall (λ w, wk_running w = true ∧ (pc w = Created ∨ pc w = AwaitTask))
         (workers m).

(** The safety invariant of a run, [acc] being what the master has
    collected so far. *)
Definition sound (acc : list Task) (m : Master) : Prop :=
  balanced m ∧ conserved m ∧ gathered acc m ∧
  (length (workers m) = 1%nat → in_order m).

(** The flags that only [start_workers], [stop_workers] and
    [generate_workload] touch. *)
Definition same_flags (m m' : Master) : Prop :=
  running m' = running m ∧ perf_start m' = perf_start m.

(** ** The benchmark session of [benchmark.py] *)

(** One configuration: a master is constructed and asked for one
    [run_benchmark].  The masters of a session have their own queues and
    pools but share the clock and the scheduler, so a new master starts
    at the logical time [t] that the session has reached.  [None] when
    the run does not return. *)
Definition run_config (fuel : nat) (master : exn + Master) (task_count : Z)
    (t : nat) : option ((exn + BenchmarkResult) * nat) :=
  match master with
  | inl e => Some (inl e, t)
  | inr m =>
      match run_benchmark fuel task_count (set_now m t) with
      | None => None
      | Some (out, m') => Some (out, now m')
      end
  end.

(** The inner loop, over the worker counts. *)
Fixpoint worker_count_loop (fuel : nat) (task_count : Z)
    (worker_counts : list Z) (results : Results) (t : nat)
    : option ((exn + Results) * nat) :=
  match worker_counts with
  | [] => Some (inr results, t)
  | worker_count :: rest =>
      match run_config fuel (ThreadedMaster worker_count) task_count t with
      | None => None
      | Some (inl e, t1) => Some (inl e, t1)
      | Some (inr threaded_result, t1) =>
          let results1 :=
            mkResults (single results)
              (threaded results ++ [threaded_result])
              (multiprocess results) in
          match run_config fuel (MultiprocessMaster worker_count)
                  task_count t1 with
          | None => None
          | Some (inl e, t2) => Some (inl e, t2)
          | Some (inr multiprocess_result, t2) =>
              worker_count_loop fuel task_count rest
                (mkResults (single results1) (threaded results1)
                   (multiprocess results1 ++ [multiprocess_result])) t2
          end
      end
  end.

(** The outer loop, over the task counts. *)
Fixpoint task_count_loop (fuel : nat) (task_counts worker_counts : list Z)
    (results : Results) (t : nat) : option ((exn + Results) * nat) :=
  match task_counts with
  | [] => Some (inr results, t)
  | task_count :: rest =>
      match run_config fuel (SingleProcessMaster 1) task_count t with
      | None => None
      | Some (inl e, t1) => Some (inl e, t1)
      | Some (inr single_result, t1) =>
          match worker_count_loop fuel task_count worker_counts
                  (mkResults (single results ++ [single_result])
                     (threaded results) (multiprocess results)) t1 with
          | None => None
          | Some (inl e, t2) => Some (inl e, t2)
          | Some (inr results2, t2) =>
              task_count_loop fuel rest worker_counts results2 t2
          end
      end
  end.

(** [run_comprehensive_benchmark]; [os_cpu_count] is what
    [os.cpu_count()] answers on the host.  After the loops the results
    are written to a file ([os.makedirs], [open], [json.dump]): what that
    step raises depends on the file system, and [save_results results]
    is the exception it raises, if any. *)
Definition run_comprehensive_benchmark (save_results : Results → option exn)
    (fuel : nat) (os_cpu_count : option Z)
    (task_counts worker_counts : option (list Z)) (t : nat)
    : option ((exn + Results) * nat) :=
  let task_counts := default default_task_counts task_counts in
  let worker_counts :=
    default (default_worker_counts os_cpu_count) worker_counts in
  match task_count_loop fuel task_counts worker_counts (mkResults [] [] [])
          t with
  | None => None
  | Some (inl e, t') => Some (inl e, t')
  | Some (inr results, t') =>
      match save_results results with
      | Some e => Some (inl e, t')
      | None => Some (inr results, t')
      end
  end.

(** [main] of [benchmark.py] (imported by [main.py] as [benchmark_main]).
    [visualize_results results] is the exception that the plots and the
    summary report raise, if any. *)
Definition benchmark_main (save_results visualize_results
                             : Results → option exn)
    (fuel : nat) (os_cpu_count : option Z) (t : nat)
    : option ((exn + unit) * nat) :=
  let cpu_count := get_cpu_count os_cpu_count in
  let task_counts := [10; 50; 100] in
  let worker_counts :=
    [1; 1 `max` (cpu_count `div` 2); cpu_count; cpu_count * 2] in
  match run_comprehensive_benchmark save_results fuel os_cpu_count
          (Some task_counts) (Some worker_counts) t with
  | None => None
  | Some (inl e, t') => Some (inl e, t')
  | Some (inr results, t') =>
      match visualize_results results with
      | Some e => Some (inl e, t')
      | None => Some (inr tt, t')
      end
  end.

(** ** Where the results come from *)

(** A task as a worker returns it: [process_task] applied to a task that
    was submitted to the task queue, with the two clock readings of one
    activation. *)
Definition processed (m : Master) (t : Task) : Prop :=
  ∃ k tk task, tk ∈ sched k ∧ task ∈ submitted_tasks m ∧
    t = process_task (t_start tk) (t_end tk) task.

(** Only submitted tasks wait in the task queue, and what the workers
    hold or have put on the result queue are such tasks, processed. *)
Definition traced (m : Master) : Prop :=
  Forall (λ task, task ∈ submitted_tasks m) (queued m) ∧
  Forall (processed m) (flight m) ∧ Forall (processed m) (arrived m).

(** A state predicate that holds after when it held before. *)
Definition preserves (I : Master → Prop) (m m' : Master) : Prop :=
  I m → I m'.

Arguments yield : simpl never.
Arguments collect_results : simpl never.

(** ** Processing a task *)

Lemma process_task_fields (t0 t1 : Q) (task : Task) :
  id (process_task t0 t1 task) = id task ∧
  task_type (process_task t0 t1 task) = task_type task ∧
  payload (process_task t0 t1 task) = payload task ∧
  processing_time (process_task t0 t1 task) = (t1 - t0)%Q.
Proof.
  unfold process_task, process_task_try.
  by destruct (get_task_function (task_type task) (payload task)).
Qed.

Lemma process_task_id (t0 t1 : Q) (task : Task) :
  id (process_task t0 t1 task) = id task.
Proof. apply process_task_fields. Qed.

Lemma process_task_result (t0 t1 : Q) (task : Task) :
  match get_task_function (task_type task) (payload task) with
  | Returns d => result (process_task t0 t1 task) = Some (PDict d)
  | Raises e =>
      result (process_task t0 t1 task) = Some (PStr ("Error: " +:+ exn_msg e))
  end.
Proof.
  unfold process_task, process_task_try.
  by destruct (get_task_function (task_type task) (payload task)).
Qed.

(** ** Running the monad *)

Lemma bind_run {A B} (c : M A) (k : A → M B) (m : Master) :
  (c ≫= k) m =
    match c m with
    | (inl e, m') => (inl e, m')
    | (inr a, m') => k a m'
    end.
Proof. reflexivity. Qed.

Lemma gets_run {A} (f : Master → A) (m : Master) : gets f m = (inr (f m), m).
Proof. reflexivity. Qed.

Lemma modify_run (f : Master → Master) (m : Master) :
  modify f m = (inr tt, f m).
Proof. reflexivity. Qed.

Lemma ret_run {A} (a : A) (m : Master) : ret a m = (inr a, m).
Proof. reflexivity. Qed.

Lemma raise_run {A} (e : exn) (m : Master) : @raise A e m = (inl e, m).
Proof. reflexivity. Qed.

Lemma sleep_run (seconds : Q) (m : Master) :
  sleep seconds m =
    if Qle_bool 0 seconds then (inr tt, yield m)
    else (inl (ValueError "sleep length must be non-negative"), m).
Proof. unfold sleep. by destruct (Qle_bool 0 seconds). Qed.

Ltac run_monad :=
  repeat first
    [ rewrite bind_run | rewrite gets_run | rewrite modify_run
    | rewrite ret_run | rewrite raise_run ];
  cbv beta iota.

(** ** Frame reasoning: what the operations leave alone *)

Section Frame.

Variable R : Master → Master → Prop.
Hypothesis R_refl : ∀ m, R m m.
Hypothesis R_trans : ∀ a b c, R a b → R b c → R a c.
Hypothesis R_workers : ∀ m ws, R m (set_workers m ws).
Hypothesis R_task_queue : ∀ m q, R m (set_task_queue m q).
Hypothesis R_result_queue : ∀ m q, R m (set_result_queue m q).
Hypothesis R_now : ∀ m k, R m (set_now m k).
Hypothesis R_running : ∀ m b, R m (set_running m b).
Hypothesis R_perf_start : ∀ m t, R m (set_perf_start m t).
Hypothesis R_perf_end : ∀ m t, R m (set_perf_end m t).
Hypothesis R_submitted :
  ∀ m, R m (set_tasks_submitted m (tasks_submitted m + 1)).
Hypothesis R_completed :
  ∀ m, R m (set_tasks_completed m (tasks_completed m + 1)).

Lemma frames_ret {A} (a : A) : frames R (ret a).
Proof using R_refl. intros m. apply R_refl. Qed.

Lemma frames_raise {A} (e : exn) : frames R (@raise A e).
Proof using R_refl. intros m. apply R_refl. Qed.

Lemma frames_gets {A} (f : Master → A) : frames R (gets f).
Proof using R_refl. intros m. apply R_refl. Qed.

Lemma frames_modify (f : Master → Master) :
  (∀ m, R m (f m)) → frames R (modify f).
Proof. intros Hf m. apply Hf. Qed.

Lemma frames_bind {A B} (c : M A) (k : A → M B) :
  frames R c → (∀ a, frames R (k a)) → frames R (c ≫= k).
Proof using R_trans.
  intros Hc Hk m. unfold mbind, M_bind, bind.
  specialize (Hc m). destruct (c m) as [[e|a] m']; simpl in *; [done|].
  eapply R_trans; [exact Hc | apply Hk].
Qed.

Lemma frames_for_each {A} (l : list A) (body : A → M unit) :
  (∀ x, frames R (body x)) → frames R (for_each l body).
Proof using R_refl R_trans.
  intros Hbody. induction l as [|x l IH]; simpl.
  - apply frames_ret.
  - apply frames_bind; [apply Hbody | intros _; apply IH].
Qed.

Lemma run_tick_frames (m : Master) (tk : tick) : R m (run_tick m tk).
Proof using R_refl R_trans R_workers R_task_queue R_result_queue.
  unfold run_tick. destruct (workers m !! who tk) as [w|]; [|apply R_refl].
  destruct (worker_step tk w (task_queue m) (result_queue m)) as [[w' tq] rq].
  eapply R_trans; [apply R_workers|].
  eapply R_trans; [apply R_task_queue|]. apply R_result_queue.
Qed.

Lemma run_ticks_frames (tks : list tick) (m : Master) :
  R m (foldl run_tick m tks).
Proof using R_refl R_trans R_workers R_task_queue R_result_queue.
  revert m. induction tks as [|tk tks IH]; intros m; simpl; [apply R_refl|].
  eapply R_trans; [apply run_tick_frames | apply IH].
Qed.

Lemma yield_frames (m : Master) : R m (yield m).
Proof using R_refl R_trans R_workers R_task_queue R_result_queue R_now.
  unfold yield. eapply R_trans; [apply run_ticks_frames | apply R_now].
Qed.

Lemma start_workers_frames : frames R start_workers.
Proof using R_refl R_trans R_workers R_task_queue R_result_queue R_now
  R_running.
  unfold start_workers.
  apply frames_bind; [apply frames_gets | intros ws].
  apply frames_bind; [|intros _; by apply frames_modify].
  apply frames_for_each. intros i. unfold start_worker.
  apply frames_bind; [apply frames_gets | intros ws'].
  destruct (ws' !! i) as [w|]; [|apply frames_ret].
  destruct (pc w); try apply frames_raise.
  apply frames_bind; [by apply frames_modify | intros _].
  apply frames_modify, yield_frames.
Qed.

Lemma stop_workers_frames : frames R stop_workers.
Proof using R_refl R_trans R_workers R_task_queue R_result_queue R_now
  R_running.
  unfold stop_workers.
  apply frames_bind; [apply frames_gets | intros r].
  destruct (negb r); [apply frames_ret|].
  apply frames_bind; [apply frames_gets | intros ws].
  apply frames_bind; [|intros _; apply frames_bind;
                                 [|intros _; by apply frames_modify]].
  - apply frames_for_each. intros _.
    apply frames_bind; [by apply frames_modify | intros _].
    apply frames_modify, yield_frames.
  - apply frames_for_each. intros i. unfold join.
    apply frames_bind; [apply frames_gets | intros ws'].
    destruct (ws' !! i) as [w|]; [|apply frames_ret].
    destruct (pc w); try apply frames_raise;
      apply frames_modify, yield_frames.
Qed.

Lemma submit_task_frames (task : Task) : frames R (submit_task task).
Proof using R_refl R_trans R_workers R_task_queue R_result_queue R_now
  R_submitted.
  unfold submit_task.
  apply frames_bind; [by apply frames_modify | intros _].
  apply frames_bind; [by apply frames_modify | intros _].
  apply frames_modify, yield_frames.
Qed.

Lemma generate_workload_frames (n : Z) : frames R (generate_workload n).
Proof using R_refl R_trans R_workers R_task_queue R_result_queue R_now
  R_submitted R_perf_start.
  unfold generate_workload.
  apply frames_bind; [by apply frames_modify | intros _].
  apply frames_bind; [|intros _; apply frames_gets].
  apply frames_for_each. intros i.
  apply frames_bind; [apply frames_gets | intros t].
  apply submit_task_frames.
Qed.

Lemma collect_loop_frames (fuel : nat) (acc : list Task) (m : Master) :
  R m (collect_loop fuel acc m).2.
Proof using R_refl R_trans R_result_queue R_completed.
  revert acc m. induction fuel as [|fuel IH]; intros acc m; simpl;
    [apply R_refl|].
  destruct (get (result_queue m)) as [[e|t] rq]; simpl;
    [apply R_result_queue|].
  assert (R m (set_tasks_completed (set_result_queue m rq)
                 (tasks_completed (set_result_queue m rq) + 1))) as Hm2.
  { eapply R_trans; [apply R_result_queue | apply R_completed]. }
  destruct (joinable rq).
  - destruct (task_done rq) as [[e|[]] rq']; simpl.
    + eapply R_trans; [exact Hm2 | apply R_result_queue].
    + eapply R_trans; [|apply IH].
      eapply R_trans; [exact Hm2 | apply R_result_queue].
  - eapply R_trans; [exact Hm2 | apply IH].
Qed.

Lemma collect_results_frames (timeout : option Q) :
  frames R (collect_results timeout).
Proof using R_refl R_trans R_result_queue R_completed.
  intros m. unfold collect_results.
  pose proof (collect_loop_frames
                (S (length (pending (result_queue m)))) [] m) as H.
  by destruct (collect_loop _ _ _).
Qed.

Lemma wait_loop_frames (fuel : nat) (check_interval : Q)
    (timeout : option Q) (start_time : Q) (acc : list Task) (m : Master)
    (res : exn + list Task) (m' : Master) :
  wait_loop fuel check_interval timeout start_time acc m = Some (res, m') →
  R m m'.
Proof using R_refl R_trans R_workers R_task_queue R_result_queue R_now
  R_completed.
  revert acc m. induction fuel as [|fuel IH]; intros acc m;
    cbn [wait_loop]; [done|].
  destruct (tasks_completed m <? tasks_submitted m).
  - destruct (timed_out _ _ _).
    + intros [= _ <-]. apply R_refl.
    + pose proof (collect_results_frames (Some (1 # 2)%Q) m) as Hc.
      destruct (collect_results _ m) as [[e|rs] m1]; simpl in Hc;
        [by intros [= _ <-]|].
      rewrite sleep_run. destruct (Qle_bool 0 check_interval).
      * intros Hw. apply IH in Hw.
        eapply R_trans; [exact Hc|].
        eapply R_trans; [apply yield_frames|done].
      * by intros [= _ <-].
  - intros [= _ <-]. apply R_refl.
Qed.

Lemma wait_for_completion_frames (fuel : nat) (check_interval : Q)
    (timeout : option Q) (m : Master) r (m' : Master) :
  wait_for_completion fuel check_interval timeout m = Some (r, m') → R m m'.
Proof using R_refl R_trans R_workers R_task_queue R_result_queue R_now
  R_completed R_perf_end.
  unfold wait_for_completion.
  destruct (wait_loop _ _ _ _ _ _) as [[[e|acc] m1]|] eqn:Hw; [| |done];
    apply wait_loop_frames in Hw; [by intros [= _ <-]|].
  intros [= Hr].
  eapply R_trans; [exact Hw|].
  assert (frames R (results ← collect_results (Some (1 # 2)%Q);
                    duration ← performance_stop;
                    ret (acc ++ results))) as Hf.
  { apply frames_bind; [apply collect_results_frames | intros rs].
    apply frames_bind; [|intros d; apply frames_ret].
    intros m0. unfold performance_stop.
    destruct (perf_start m0); apply R_perf_end. }
  specialize (Hf m1). by rewrite Hr in Hf.
Qed.

Lemma run_benchmark_try_frames (fuel : nat) (n : Z) (m : Master) r
    (m' : Master) :
  run_benchmark_try fuel n m = Some (r, m') → R m m'.
Proof using R_refl R_trans R_workers R_task_queue R_result_queue R_now
  R_running R_submitted R_completed R_perf_start R_perf_end.
  unfold run_benchmark_try.
  pose proof (start_workers_frames m) as Hs.
  destruct (start_workers m) as [[e|[]] m1]; simpl in Hs.
  { by intros [= _ <-]. }
  pose proof (generate_workload_frames n m1) as Hg.
  destruct (generate_workload n m1) as [[e|k] m2]; simpl in Hg.
  { intros [= _ <-]. by eapply R_trans. }
  destruct (wait_for_completion _ _ _ m2) as [[[e|rs] m3]|] eqn:Hw; [| |done].
  { apply wait_for_completion_frames in Hw. intros [= _ <-].
    eapply R_trans; [exact Hs|]. by eapply R_trans. }
  apply wait_for_completion_frames in Hw.
  assert (R m m3) as Hm3.
  { eapply R_trans; [exact Hs|]. by eapply R_trans. }
  destruct (benchmark_statistics _ _ _ _ _ _ _); by intros [= _ <-].
Qed.

Lemma run_benchmark_frames (fuel : nat) (n : Z) (m : Master) r (m' : Master) :
  run_benchmark fuel n m = Some (r, m') → R m m'.
Proof using R_refl R_trans R_workers R_task_queue R_result_queue R_now
  R_running R_submitted R_completed R_perf_start R_perf_end.
  unfold run_benchmark.
  destruct (run_benchmark_try fuel n m) as [[r1 m1]|] eqn:Ht; [|done].
  apply run_benchmark_try_frames in Ht.
  pose proof (stop_workers_frames m1) as Hs.
  destruct (stop_workers m1) as [[e|[]] m2]; simpl in Hs;
    intros [= _ <-]; by eapply R_trans.
Qed.

End Frame.

(** ** The counters and [num_workers] *)

Lemma submit_task_eq (task : Task) (m : Master) :
  submit_task task m =
    (inr tt,
     yield (set_tasks_submitted
              (set_task_queue m (put (Some task) (task_queue m)))
              (tasks_submitted m + 1))).
Proof. reflexivity. Qed.

Lemma yield_counters (m : Master) : same_counters m (yield m).
Proof. apply (yield_frames same_counters); frame_side. Qed.

Lemma for_each_submit_counts {A} (mk : nat → A → Task) (l : list A)
    (m : Master) :
  ∃ m', for_each l (λ i, t ← gets now; submit_task (mk t i)) m = (inr tt, m') ∧
        tasks_submitted m' = tasks_submitted m + Z.of_nat (length l) ∧
        tasks_completed m' = tasks_completed m.
Proof.
  revert m. induction l as [|x l IH]; intros m; simpl.
  - exists m. split; [done|]. split; [lia|done].
  - rewrite bind_run. cbv beta. rewrite bind_run, gets_run. cbv beta iota.
    rewrite submit_task_eq.
    destruct (IH (yield (set_tasks_submitted
                (set_task_queue m (put (Some (mk (now m) x)) (task_queue m)))
                (tasks_submitted m + 1)))) as (m' & Hm' & Hs & Hc).
    exists m'. split; [exact Hm'|].
    destruct (yield_counters (set_tasks_submitted
                (set_task_queue m (put (Some (mk (now m) x)) (task_queue m)))
                (tasks_submitted m + 1))) as [Hs' Hc'].
    simpl in *. split; [lia|congruence].
Qed.

Lemma generate_workload_counts (n : Z) (m : Master) :
  ∃ m', generate_workload n m = (inr (tasks_submitted m'), m') ∧
        tasks_submitted m' = tasks_submitted m + Z.max 0 n ∧
        tasks_completed m' = tasks_completed m.
Proof.
  unfold generate_workload. rewrite bind_run, modify_run. cbv beta iota.
  rewrite bind_run.
  destruct (for_each_submit_counts
              (λ t i, generate_random_task (rng t) (i + 1)) (seqZ 0 n)
              (set_perf_start m (Some (clock (now m)))))
    as (m' & Hm' & Hs & Hc).
  exists m'. rewrite Hm'. rewrite gets_run.
  split; [done|]. rewrite length_seqZ in Hs. simpl in *. split; [lia|done].
Qed.

(** C8: whatever worker count is requested, [SingleProcessMaster] yields a
    master with [num_workers = 1] and a pool of exactly one (thread)
    worker; and no operation of a master, of any backend, changes
    [num_workers]. *)
Theorem sequential_pins_one_worker (requested : Z) :
  (∃ m, SingleProcessMaster requested = inr m ∧ num_workers m = 1 ∧
        workers m = [ThreadWorker 1]) ∧
  (∀ m : Master,
     num_workers (start_workers m).2 = num_workers m ∧
     num_workers (stop_workers m).2 = num_workers m ∧
     (∀ task, num_workers (submit_task task m).2 = num_workers m) ∧
     (∀ n, num_workers (generate_workload n m).2 = num_workers m) ∧
     (∀ timeout, num_workers (collect_results timeout m).2 = num_workers m) ∧
     (∀ fuel interval timeout r m',
        wait_for_completion fuel interval timeout m = Some (r, m') →
        num_workers m' = num_workers m) ∧
     (∀ fuel n r m',
        run_benchmark fuel n m = Some (r, m') →
        num_workers m' = num_workers m) ∧
     num_workers (yield m) = num_workers m).
Proof.
  split; [by eexists|]. intros m. split_and!.
  - apply (start_workers_frames same_num_workers); frame_side.
  - apply (stop_workers_frames same_num_workers); frame_side.
  - intros task. apply (submit_task_frames same_num_workers); frame_side.
  - intros n. apply (generate_workload_frames same_num_workers); frame_side.
  - intros t. apply (collect_results_frames same_num_workers); frame_side.
  - intros fuel interval timeout r m'.
    apply (wait_for_completion_frames same_num_workers); frame_side.
  - intros fuel n r m'.
    apply (run_benchmark_frames same_num_workers); frame_side.
  - apply (yield_frames same_num_workers); frame_side.
Qed.

(** C9: the two counters never decrease.  [start_workers], [stop_workers]
    and the steps of the workers leave both unchanged; [submit_task] adds
    one to [tasks_submitted] and [generate_workload n] adds [max(n, 0)],
    both leaving [tasks_completed] unchanged; [collect_results] and
    [wait_for_completion] leave [tasks_submitted] unchanged and do not
    decrease [tasks_completed]; [run_benchmark] decreases neither. *)
Theorem counters_monotone (m : Master) :
  same_counters m (start_workers m).2 ∧
  same_counters m (stop_workers m).2 ∧
  same_counters m (yield m) ∧
  (∀ task,
     tasks_submitted (submit_task task m).2 = tasks_submitted m + 1 ∧
     tasks_completed (submit_task task m).2 = tasks_completed m) ∧
  (∀ n,
     tasks_submitted (generate_workload n m).2
       = tasks_submitted m + Z.max 0 n ∧
     tasks_completed (generate_workload n m).2 = tasks_completed m) ∧
  (∀ timeout, same_submitted m (collect_results timeout m).2) ∧
  (∀ fuel interval timeout r m',
     wait_for_completion fuel interval timeout m = Some (r, m') →
     same_submitted m m') ∧
  (∀ fuel n r m',
     run_benchmark fuel n m = Some (r, m') → counters_grow m m').
Proof.
  split_and!.
  - apply (start_workers_frames same_counters); frame_side.
  - apply (stop_workers_frames same_counters); frame_side.
  - apply yield_counters.
  - intros task. rewrite submit_task_eq. simpl.
    destruct (yield_counters (set_tasks_submitted
                (set_task_queue m (put (Some task) (task_queue m)))
                (tasks_submitted m + 1))) as [Hs Hc].
    by split.
  - intros n. destruct (generate_workload_counts n m) as (m' & -> & Hs & Hc).
    by split.
  - intros t. apply (collect_results_frames same_submitted); frame_side.
  - intros fuel interval timeout r m'.
    apply (wait_for_completion_frames same_submitted); frame_side.
  - intros fuel n r m'.
    apply (run_benchmark_frames counters_grow); frame_side.
Qed.

(** ** Draining the result queue *)

Lemma collect_loop_spec (fuel : nat) (acc : list Task) (m : Master) :
  (length (pending (result_queue m)) < fuel)%nat →
  ∃ batch rq' rest,
    collect_loop fuel acc m = (acc ++ batch, collected m batch rq') ∧
    pending (result_queue m) = (inr <$> batch) ++ rest ∧
    drain_end (result_queue m) rq' batch rest ∧
    history rq' = history (result_queue m) ∧
    joinable rq' = joinable (result_queue m).
Proof.
  revert acc m. induction fuel as [|fuel IH]; intros acc m Hfuel; [lia|].
  destruct m as [nm nw ws tq [j p unf hist] ps pe run sub comp t].
  simpl in Hfuel. destruct p as [|[e|task] p]; simpl.
  - exists [], (mkQueue j [] unf hist), []. unfold collected, drain_end; simpl.
    rewrite app_nil_r, Z.add_0_r. split_and!; try done. by left.
  - exists [], (mkQueue j p unf hist), (inl e :: p).
    unfold collected, drain_end; simpl.
    rewrite app_nil_r, Z.add_0_r. split_and!; try done. right; left. by eexists.
  - unfold get, set_result_queue, set_tasks_completed; simpl.
    destruct j; simpl.
    + unfold task_done; simpl. destruct unf as [|unf]; simpl.
      * exists [task], (mkQueue true p 0 hist), p.
        unfold collected, drain_end; simpl. split_and!; try done.
        right; right. done.
      * destruct (IH (acc ++ [task])
                    (mkMaster nm nw ws tq (mkQueue true p unf hist)
                       ps pe run sub (comp + 1) t))
          as (batch & rq' & rest & Hloop & Hp & Hend & Hh & Hj);
          [simpl in *; lia|].
        exists (task :: batch), rq', rest. simpl in *.
        rewrite Hloop, <- app_assoc. split_and!; try done.
        -- unfold collected; simpl. do 2 f_equal. lia.
        -- by rewrite Hp.
        -- destruct Hend as [?|[?|(_ & ? & ?)]]; [by left|by right; left|].
           right; right. split_and!; [done..|]. simpl in *. lia.
    + destruct (IH (acc ++ [task])
                  (mkMaster nm nw ws tq (mkQueue false p unf hist)
                     ps pe run sub (comp + 1) t))
        as (batch & rq' & rest & Hloop & Hp & Hend & Hh & Hj);
        [simpl in *; lia|].
      exists (task :: batch), rq', rest. simpl in *.
      rewrite Hloop, <- app_assoc. split_and!; try done.
      * unfold collected; simpl. do 2 f_equal. lia.
      * by rewrite Hp.
      * destruct Hend as [?|[?|(? & _)]]; [by left|by right; left|done].
Qed.

Lemma collect_results_spec (timeout : option Q) (m : Master) :
  ∃ batch rq' rest,
    collect_results timeout m = (inr batch, collected m batch rq') ∧
    pending (result_queue m) = (inr <$> batch) ++ rest ∧
    drain_end (result_queue m) rq' batch rest ∧
    history rq' = history (result_queue m) ∧
    joinable rq' = joinable (result_queue m).
Proof.
  destruct (collect_loop_spec (S (length (pending (result_queue m)))) [] m)
    as (batch & rq' & rest & Hloop & Hrest); [lia|].
  exists batch, rq', rest. split; [|exact Hrest].
  unfold collect_results. by rewrite Hloop.
Qed.

(** C10: [collect_results] never raises.  It returns the batch of items
    that headed the result queue, up to the first [get] (or [task_done])
    that raised: the queue was empty, or [get] raised some other exception,
    or [task_done] did.  [tasks_completed] grows by the length of the batch
    and nothing else of the master changes: [tasks_submitted], the pool,
    the task queue and the logical time are as before (no preemption point:
    the drain does not block).  The [timeout] argument has no effect. *)
Theorem collect_results_never_raises (timeout : option Q) (m : Master) :
  ∃ batch rq' rest,
    collect_results timeout m = (inr batch, collected m batch rq') ∧
    pending (result_queue m) = (inr <$> batch) ++ rest ∧
    drain_end (result_queue m) rq' batch rest ∧
    history rq' = history (result_queue m) ∧
    tasks_completed (collected m batch rq')
      = tasks_completed m + Z.of_nat (length batch) ∧
    tasks_submitted (collected m batch rq') = tasks_submitted m ∧
    workers (collected m batch rq') = workers m ∧
    task_queue (collected m batch rq') = task_queue m ∧
    now (collected m batch rq') = now m ∧
    collect_results None m = collect_results timeout m.
Proof.
  destruct (collect_results_spec timeout m)
    as (batch & rq' & rest & Hc & Hp & Hend & Hh & _).
  exists batch, rq', rest. by split_and!.
Qed.

(** ** The statistics *)

Lemma py_div_count (a : Q) (n : nat) :
  py_div a (inject_Z (Z.of_nat (S n)))
    = inr (a / inject_Z (Z.of_nat (S n)))%Q.
Proof.
  unfold py_div. destruct (Qeq_bool _ 0) eqn:E; [|done].
  apply Qeq_bool_eq in E. unfold Qeq in E. simpl in E. lia.
Qed.

Lemma py_div_pos (a b : Q) : (0 < b)%Q → py_div a b = inr (a / b)%Q.
Proof.
  intros Hb. unfold py_div. destruct (Qeq_bool b 0) eqn:E; [|done].
  apply Qeq_bool_eq in E. rewrite E in Hb. by apply Qlt_irrefl in Hb.
Qed.

Lemma group_add_nonempty (k : string) (v : Q) (g : list (string * list Q)) :
  Forall (λ kv, kv.2 ≠ []) g → Forall (λ kv, kv.2 ≠ []) (group_add k v g).
Proof.
  induction g as [|[k' vs] g IH]; intros Hg; simpl.
  - constructor; [done|constructor].
  - inversion_clear Hg as [|? ? Hvs Hrest]. destruct (String.eqb k k').
    + constructor; [|done]. simpl. by destruct vs.
    + constructor; [done|]. by apply IH.
Qed.

Lemma groups_nonempty (results : list Task) (g : list (string * list Q)) :
  Forall (λ kv, kv.2 ≠ []) g →
  Forall (λ kv, kv.2 ≠ [])
    (foldl (λ g task, group_add (task_type task) (processing_time task) g)
       g results).
Proof.
  revert g. induction results as [|t results IH]; intros g Hg; simpl; [done|].
  by apply IH, group_add_nonempty.
Qed.

Lemma averages_defined (g : list (string * list Q)) :
  Forall (λ kv, kv.2 ≠ []) g → ∃ l, averages g = inr l.
Proof.
  induction g as [|[k times] g IH]; intros Hg; simpl; [by eexists|].
  inversion_clear Hg as [|? ? Htimes Hrest]. simpl in Htimes.
  destruct times as [|x times]; [done|].
  change (length (x :: times)) with (S (length times)).
  rewrite py_div_count. destruct (IH Hrest) as [l ->]. by eexists.
Qed.

(** The statistics never raise, whatever the clock readings and the
    results: every division is guarded. *)
Lemma benchmark_statistics_defined (name : string) (num_workers n : Z)
    (start_time end_time mem : Q) (results : list Task) :
  ∃ avg avg_by_type,
    benchmark_statistics name num_workers n start_time end_time mem results
      = inr (mkBenchmarkResult name num_workers n (end_time - start_time)%Q
               (if Qlt_le_dec 0 (end_time - start_time)
                then (inject_Z n / (end_time - start_time))%Q else 0%Q)
               avg avg_by_type mem).
Proof.
  unfold benchmark_statistics.
  destruct (averages_defined
              (foldl (λ g task,
                        group_add (task_type task) (processing_time task) g)
                 [] results)) as [l Hl]; [by apply groups_nonempty|].
  rewrite Hl. clear Hl.
  destruct (Qlt_le_dec 0 (end_time - start_time)) as [Hpos|Hneg].
  - rewrite py_div_pos by done.
    destruct (processing_time <$> results) as [|x times] eqn:Ht.
    + by eexists _, _.
    + change (length (x :: times)) with (S (length times)).
      rewrite py_div_count. by eexists _, _.
  - destruct (processing_time <$> results) as [|x times] eqn:Ht.
    + by eexists _, _.
    + change (length (x :: times)) with (S (length times)).
      rewrite py_div_count. by eexists _, _.
Qed.

Lemma wait_loop_done (fuel : nat) (start_time : Q) (acc : list Task)
    (m : Master) (res : list Task) (m' : Master) :
  wait_loop fuel (1 # 2) None start_time acc m = Some (inr res, m') →
  tasks_submitted m' ≤ tasks_completed m'.
Proof.
  revert acc m. induction fuel as [|fuel IH]; intros acc m;
    cbn [wait_loop]; [done|].
  destruct (tasks_completed m <? tasks_submitted m) eqn:Hc.
  - cbn [timed_out].
    destruct (collect_results _ m) as [[e|rs] m1]; [done|]. apply IH.
  - intros [= _ <-]. lia.
Qed.

Lemma run_benchmark_try_counts (fuel : nat) (n : Z) (m : Master)
    (results : list Task) (r : BenchmarkResult) (m' : Master) :
  run_benchmark_try fuel n m = Some (inr (results, r), m') →
  tasks_submitted m' = tasks_submitted m + Z.max 0 n ∧
  tasks_submitted m' ≤ tasks_completed m' ∧
  ∃ start_time end_time mem,
    benchmark_statistics (name m') (num_workers m') n start_time end_time mem
      results = inr r.
Proof.
  unfold run_benchmark_try.
  pose proof (start_workers_frames same_counters) as Hs.
  specialize (Hs ltac:(frame_side) ltac:(frame_side) ltac:(frame_side)
                 ltac:(frame_side) ltac:(frame_side) ltac:(frame_side)
                 ltac:(frame_side) m).
  destruct (start_workers m) as [[e|[]] m1]; [done|]. simpl in Hs.
  destruct (generate_workload_counts n m1) as (m2 & -> & Hsub & Hcomp).
  unfold wait_for_completion.
  destruct (wait_loop _ _ _ _ _ _) as [[[e|acc] mw]|] eqn:Hw; [done| |done].
  pose proof (wait_loop_frames same_submitted) as Hf.
  specialize (Hf ltac:(frame_side) ltac:(frame_side) ltac:(frame_side)
                 ltac:(frame_side) ltac:(frame_side) ltac:(frame_side)
                 ltac:(frame_side) _ _ _ _ _ _ _ _ Hw).
  apply wait_loop_done in Hw.
  rewrite bind_run.
  destruct (collect_results_spec (Some (1 # 2)%Q) mw)
    as (batch & rq' & rest & -> & _).
  rewrite bind_run. unfold performance_stop.
  destruct (perf_start (collected mw batch rq')); [|done].
  rewrite ret_run.
  destruct (benchmark_statistics _ _ _ _ _ _ _) as [e|r0] eqn:Hstats; [done|].
  intros [= <- <- <-]. unfold same_counters, same_submitted in *.
  simpl in *. split_and!; [lia|lia|]. by eexists _, _, _.
Qed.

(** ** One step of a worker *)

Lemma inflight_insert (ws : list Worker) (i : nat) (w w' : Worker) :
  ws !! i = Some w →
  ∃ pre post,
    inflight ws = pre ++ holding w ++ post ∧
    inflight (<[i:=w']> ws) = pre ++ holding w' ++ post ∧
    (length ws = 1%nat → pre = [] ∧ post = []).
Proof.
  intros Hw. exists (inflight (take i ws)), (inflight (drop (S i) ws)).
  pose proof (lookup_lt_Some _ _ _ Hw) as Hlt.
  split_and!.
  - rewrite <- (take_drop_middle ws i w Hw) at 1.
    unfold inflight. by rewrite bind_app, bind_cons.
  - rewrite insert_take_drop by done.
    unfold inflight. by rewrite bind_app, bind_cons.
  - intros Hlen. destruct ws as [|w0 [|w1 ws]]; simpl in *; try lia.
    destruct i; [done|lia].
Qed.

Lemma run_tick_effect (m : Master) (tk : tick) : tick_effect m (run_tick m tk).
Proof.
  unfold run_tick.
  destruct (workers m !! who tk) as [w|] eqn:Hw.
  2: { unfold tick_effect. split_and!; try done. by left. }
  destruct (inflight_insert (workers m) (who tk) w
              (worker_step tk w (task_queue m) (result_queue m)).1.1 Hw)
    as (pre & post & Hpre & Hpost & Hone).
  destruct (worker_step tk w (task_queue m) (result_queue m))
    as [[w' tq'] rq'] eqn:Hstep.
  unfold tick_effect, flight, queued, arrived, submitted_tasks. simpl in *.
  rewrite length_insert, Hpre, Hpost. clear Hpre Hpost.
  unfold worker_step in Hstep.
  destruct w as [wid wty wrun wpc]; simpl in *.
  destruct wpc as [| |t| |]; simpl in *.
  - injection Hstep as <- <- <-. split_and!; try done. by left.
  - destruct wrun; simpl in *.
    2: { injection Hstep as <- <- <-. split_and!; try done. by left. }
    unfold get in Hstep.
    destruct (task_queue m) as [j p unf hist]; simpl in *.
    destruct p as [|[e|[task|]] rest]; simpl in *;
      injection Hstep as <- <- <-; simpl; split_and!; try done.
    + by left.
    + by left.
    + right; left.
      exists task, (process_task (t_start tk) (t_end tk) task), pre, post.
      split_and!; try done. apply process_task_id.
    + by left.
  - assert (tq' = task_queue m ∧ rq' = put t (result_queue m) ∧
            holding w' = []) as (-> & -> & ->).
    { destruct wty; by injection Hstep as <- <- <-. }
    split_and!; try done. right; right. exists t, pre, post.
    unfold holding; simpl.
    split_and!; try done.
    unfold items, put; simpl. by rewrite omap_app.
  - injection Hstep as <- <- <-. split_and!; try done.
    + unfold task_done. by destruct (unfinished_tasks (task_queue m)).
    + left. split_and!; try done.
      unfold task_done, items.
      by destruct (unfinished_tasks (task_queue m)).
  - injection Hstep as <- <- <-. split_and!; try done. by left.
Qed.

(** ** Invariants of the steps of the workers *)

Lemma balanced_stable : stable balanced.
Proof.
  intros m m' (Hs & Hc & _ & _ & Heff) Hb. unfold balanced in *.
  rewrite Hs, Hc, Hb.
  destruct Heff as [(_ & -> & -> & ->)
                   |[(t & t' & pre & post & _ & Hq & Hf & Hf' & _ & _ & ->)
                    |(t & pre & post & Hf & Hf' & _ & _ & -> & ->)]].
  - done.
  - rewrite Hq, Hf, Hf'. rewrite ?length_app. simpl. lia.
  - rewrite Hf, Hf'. rewrite ?length_app. simpl. lia.
Qed.

Lemma conserved_stable : stable conserved.
Proof.
  intros m m' (_ & _ & Hs & _ & Heff) Hb. unfold conserved, ids in *.
  rewrite Hs, <- Hb. clear Hb Hs.
  destruct Heff as [(-> & _ & -> & ->)
                   |[(t & t' & pre & post & Hid & Hq & Hf & Hf' & _ & -> & _)
                    |(t & pre & post & Hf & Hf' & _ & -> & _ & ->)]].
  - done.
  - rewrite Hq, Hf, Hf'. rewrite !fmap_app, !fmap_cons, Hid.
    apply Permutation_app_head.
    rewrite <- !app_assoc. apply Permutation_app_head.
    simpl. by rewrite Permutation_middle.
  - rewrite Hf, Hf'. rewrite !fmap_app, !fmap_cons. simpl.
    rewrite <- !app_assoc. apply Permutation_app_head. simpl.
    by rewrite <- Permutation_middle.
Qed.

Lemma in_order_stable :
  stable (λ m, length (workers m) = 1%nat ∧ in_order m).
Proof.
  intros m m' (_ & _ & Hs & Hl & Heff) [Hone Hb].
  split; [congruence|]. unfold in_order, ids in *.
  rewrite Hs, <- Hb. clear Hb Hs.
  destruct Heff as [(-> & _ & -> & ->)
                   |[(t & t' & pre & post & Hid & Hq & Hf & Hf' & H1 & -> & _)
                    |(t & pre & post & Hf & Hf' & H1 & -> & _ & ->)]].
  - done.
  - destruct (H1 Hone) as [-> ->]. rewrite Hq, Hf, Hf'. simpl. by rewrite Hid.
  - destruct (H1 Hone) as [-> ->]. rewrite Hf, Hf'. simpl.
    rewrite fmap_app. by rewrite <- app_assoc.
Qed.

Lemma gathered_stable (acc : list Task) : stable (gathered acc).
Proof.
  intros m m' (_ & _ & _ & _ & Heff) Hg. unfold gathered in *.
  destruct Heff as [(-> & -> & _)
                   |[(t & t' & pre & post & _ & _ & _ & _ & _ & -> & ->)
                    |(t & pre & post & _ & _ & _ & -> & -> & _)]];
    try done.
  by rewrite app_assoc, Hg.
Qed.

Lemma stable_calm (I : Master → Prop) (m m' : Master) :
  stable I → calm m m' → I m → I m'.
Proof. intros HI Hc. induction Hc; eauto. Qed.

Lemma calm_counters (m m' : Master) :
  calm m m' →
  tasks_submitted m' = tasks_submitted m ∧
  tasks_completed m' = tasks_completed m ∧
  submitted_tasks m' = submitted_tasks m ∧
  length (workers m') = length (workers m).
Proof.
  induction 1 as [|a b c (? & ? & ? & ? & _) _ (? & ? & ? & ?)]; [done|].
  split_and!; congruence.
Qed.

Lemma run_ticks_calm (tks : list tick) (m : Master) :
  calm m (foldl run_tick m tks).
Proof.
  revert m. induction tks as [|tk tks IH]; intros m; simpl; [done|].
  eapply rtc_l; [apply run_tick_effect | apply IH].
Qed.

Lemma set_now_effect (m : Master) (k : nat) : tick_effect m (set_now m k).
Proof. unfold tick_effect. split_and!; try done. by left. Qed.

Lemma yield_calm (m : Master) : calm m (yield m).
Proof.
  unfold yield. eapply rtc_r; [apply run_ticks_calm | apply set_now_effect].
Qed.

Lemma yield_now (m : Master) : now (yield m) = S (now m).
Proof.
  unfold yield. simpl. f_equal.
  apply (run_ticks_frames (λ m m', now m' = now m)); frame_side.
Qed.

(** ** The effect of a drain *)

Lemma items_batch (batch : list Task) (rest : list (exn + Task)) :
  omap (λ o : exn + Task, match o with inr x => Some x | inl _ => None end)
       ((inr <$> batch) ++ rest)
  = batch ++
    omap (λ o : exn + Task, match o with inr x => Some x | inl _ => None end)
         rest.
Proof. induction batch as [|t batch IH]; csimpl; [done|]. by f_equal. Qed.

Lemma collect_results_idle (timeout : option Q) (m : Master) :
  pending (result_queue m) = [] → collect_results timeout m = (inr [], m).
Proof.
  intros Hp. unfold collect_results. rewrite Hp. simpl. unfold get.
  rewrite Hp. by destruct m.
Qed.

Lemma collect_effect (timeout : option Q) (m : Master) :
  ∃ batch m1,
    collect_results timeout m = (inr batch, m1) ∧
    workers m1 = workers m ∧ task_queue m1 = task_queue m ∧
    now m1 = now m ∧ running m1 = running m ∧
    perf_start m1 = perf_start m ∧
    arrived m1 = arrived m ∧
    tasks_submitted m1 = tasks_submitted m ∧
    tasks_completed m1 = tasks_completed m + Z.of_nat (length batch) ∧
    items (result_queue m) = batch ++ items (result_queue m1) ∧
    (length (pending (result_queue m1))
       ≤ length (pending (result_queue m)))%nat ∧
    (pending (result_queue m) ≠ [] →
     (length (pending (result_queue m1))
        < length (pending (result_queue m)))%nat).
Proof.
  destruct (collect_results_spec timeout m)
    as (batch & rq' & rest & Hc & Hp & Hend & Hh & _).
  exists batch, (collected m batch rq'). split; [exact Hc|].
  unfold arrived, items. simpl. rewrite Hp, items_batch, length_app,
    length_fmap.
  destruct Hend as [[-> Hq]|[[e ->]|(_ & Hq & Hlen)]].
  - rewrite Hq. simpl. split_and!; try done; try lia.
    intros Hne. destruct batch; [done|simpl; lia].
  - simpl. split_and!; try done; lia.
  - rewrite Hq. split_and!; try done; lia.
Qed.

Lemma collect_balanced (timeout : option Q) (m : Master) :
  balanced m → balanced (collect_results timeout m).2.
Proof.
  intros Hb. destruct (collect_effect timeout m)
    as (batch & m1 & -> & Hw & Htq & _ & _ & _ & _ & Hs & Hc & Hi & _).
  unfold balanced, flight, queued in *. simpl.
  rewrite Hs, Hc, Hw, Htq, Hb, Hi, length_app. lia.
Qed.

Lemma collect_gathered (timeout : option Q) (acc : list Task) (m : Master) :
  gathered acc m →
  ∃ batch m1, collect_results timeout m = (inr batch, m1) ∧
              gathered (acc ++ batch) m1.
Proof.
  intros Hg. destruct (collect_effect timeout m)
    as (batch & m1 & Hc & _ & _ & _ & _ & _ & Ha & _ & _ & Hi & _).
  exists batch, m1. split; [done|]. unfold gathered in *.
  by rewrite Ha, <- Hg, Hi, app_assoc.
Qed.

Lemma collect_keeps (timeout : option Q) (m : Master) :
  let m1 := (collect_results timeout m).2 in
  workers m1 = workers m ∧ task_queue m1 = task_queue m ∧
  arrived m1 = arrived m ∧ now m1 = now m ∧ running m1 = running m ∧
  perf_start m1 = perf_start m.
Proof.
  destruct (collect_effect timeout m)
    as (batch & m1 & -> & ? & ? & ? & ? & ? & ? & _). by simpl.
Qed.

(** ** Progress of the pool *)

Lemma weight_insert (ws : list Worker) (i : nat) (w w' : Worker) :
  ws !! i = Some w →
  (sum_list (weight <$> <[i:=w']> ws) + weight w
   = sum_list (weight <$> ws) + weight w')%nat.
Proof.
  revert i. induction ws as [|w0 ws IH]; intros i Hw; [done|].
  destruct i as [|i]; csimpl in *.
  - injection Hw as ->. lia.
  - specialize (IH i Hw). lia.
Qed.

Lemma run_tick_progress (m : Master) (tk : tick) :
  serving m →
  serving (run_tick m tk) ∧
  ((potential (run_tick m tk) < potential m)%nat ∨ run_tick m tk = m) ∧
  (enabled (who tk) m → (potential (run_tick m tk) < potential m)%nat).
Proof.
  intros [Hlive Hpills]. unfold run_tick, enabled.
  destruct (workers m !! who tk) as [w|] eqn:Hw.
  2: { split_and!; [done|by right|]. by intros (? & ? & _). }
  pose proof (Forall_lookup_1 _ _ _ _ Hlive Hw) as (Hrun & Hnc & Hns).
  pose proof (weight_insert (workers m) (who tk) w
                (worker_step tk w (task_queue m) (result_queue m)).1.1 Hw)
    as Hwt.
  destruct (worker_step tk w (task_queue m) (result_queue m))
    as [[w' tq'] rq'] eqn:Hstep.
  unfold serving, potential. simpl in *.
  unfold worker_step in Hstep.
  destruct w as [wid wty wrun wpc]; simpl in *. subst wrun.
  destruct wpc as [| |t| |]; simpl in *; try done.
  - unfold get in Hstep.
    destruct m as [nm nw ws [j p unf hist] rq ps pe run sub comp t0].
    simpl in *.
    destruct p as [|[e|[task|]] rest]; simpl in *;
      injection Hstep as <- <- <-; simpl in *.
    + split_and!.
      * by apply Forall_insert.
      * done.
      * right. by rewrite list_insert_id.
      * intros (w0 & [= <-] & Hen). simpl in Hen. by destruct Hen.
    + inversion_clear Hpills. split_and!.
      * by apply Forall_insert.
      * done.
      * left. unfold weight in *; simpl in *. lia.
      * intros _. unfold weight in *; simpl in *. lia.
    + inversion_clear Hpills. split_and!.
      * by apply Forall_insert.
      * done.
      * left. unfold weight in *; simpl in *. lia.
      * intros _. unfold weight in *; simpl in *. lia.
    + by inversion_clear Hpills.
  - assert (tq' = task_queue m ∧ rq' = put t (result_queue m) ∧
            (weight w' ≤ 1)%nat ∧ live w') as (-> & -> & Hw' & Hl').
    { destruct wty; injection Hstep as <- <- <-;
        unfold weight, live; simpl; split_and!; done || lia. }
    unfold put; simpl. rewrite length_app. simpl.
    assert (weight (mkWorker wid wty true (Processed t)) = 3%nat) as Hw3
      by done.
    rewrite Hw3 in Hwt.
    split_and!; [by apply Forall_insert|done|left; lia|intros _; lia].
  - injection Hstep as <- <- <-.
    assert (pending (task_done (task_queue m)).2 = pending (task_queue m))
      as Hp.
    { unfold task_done. by destruct (unfinished_tasks (task_queue m)). }
    rewrite Hp. unfold weight in *; simpl in *.
    split_and!; [by apply Forall_insert|done|left; lia|intros _; lia].
Qed.

Lemma run_ticks_progress (tks : list tick) (m : Master) :
  serving m →
  serving (foldl run_tick m tks) ∧
  ((potential (foldl run_tick m tks) < potential m)%nat
   ∨ foldl run_tick m tks = m) ∧
  (∀ i, enabled i m → i ∈ who <$> tks →
        (potential (foldl run_tick m tks) < potential m)%nat).
Proof.
  revert m. induction tks as [|tk tks IH]; intros m Hs; simpl.
  { split_and!; [done|by right|]. intros i _ Hi. by apply elem_of_nil in Hi. }
  destruct (run_tick_progress m tk Hs) as (Hs1 & Hpot & Hen).
  destruct (IH _ Hs1) as (Hs2 & Hpot2 & Hen2).
  assert ((potential (foldl run_tick (run_tick m tk) tks)
           ≤ potential (run_tick m tk))%nat) as Hle.
  { destruct Hpot2 as [?| ->]; lia. }
  split_and!; [done| |].
  - destruct Hpot as [?|Heq]; [left; lia|].
    rewrite Heq in *. exact Hpot2.
  - intros i Hi Hin. change (i ∈ who tk :: (who <$> tks)) in Hin.
    apply elem_of_cons in Hin as [->|Hin]; [specialize (Hen Hi); lia|].
    destruct Hpot as [?|Heq]; [lia|].
    rewrite Heq in *. by apply (Hen2 i).
Qed.

(** ** Termination of the wait *)

Lemma wait_round_progress (m : Master) :
  serving m →
  serving (wait_round m) ∧
  length (workers (wait_round m)) = length (workers m) ∧
  ((potential (wait_round m) < potential m)%nat
   ∨ wait_round m = set_now m (S (now m))) ∧
  (pending (result_queue m) ≠ [] →
   (potential (wait_round m) < potential m)%nat) ∧
  (∀ i, enabled i m → i ∈ who <$> sched (now m) →
        (potential (wait_round m) < potential m)%nat).
Proof.
  intros Hs. unfold wait_round.
  destruct (collect_effect (Some (1 # 2)%Q) m)
    as (batch & m1 & Hc & Hw & Htq & Hnow & _ & _ & _ & _ & _ & _ & Hle & Hlt).
  rewrite Hc. simpl.
  assert (serving m1) as Hs1.
  { unfold serving in *. by rewrite Hw, Htq. }
  assert ((potential m1 ≤ potential m)%nat) as Hpot1.
  { unfold potential. rewrite Hw, Htq. lia. }
  destruct (run_ticks_progress (sched (now m1)) m1 Hs1) as (Hs2 & Hpot & Hen).
  assert (potential (yield m1)
          = potential (foldl run_tick m1 (sched (now m1)))) as Hy by done.
  rewrite Hy. split_and!.
  - done.
  - destruct (calm_counters _ _ (yield_calm m1)) as (_ & _ & _ & Hl).
    rewrite <- Hw. exact Hl.
  - destruct (decide (pending (result_queue m) = [])) as [Hemp|Hne].
    + rewrite (collect_results_idle _ _ Hemp) in Hc.
      injection Hc as _ <-.
      destruct Hpot as [?|Heq]; [left; lia|right].
      unfold yield. by rewrite Heq.
    + specialize (Hlt Hne). left.
      assert ((potential m1 < potential m)%nat)
        by (unfold potential; rewrite Hw, Htq; lia).
      destruct Hpot as [?|Heq]; [lia|]. by rewrite Heq.
  - intros Hne. specialize (Hlt Hne).
    assert ((potential m1 < potential m)%nat)
      by (unfold potential; rewrite Hw, Htq; lia).
    destruct Hpot as [?|Heq]; [lia|]. by rewrite Heq.
  - intros i Hi Hin. rewrite <- Hnow in Hin.
    assert (enabled i m1) as Hi1.
    { unfold enabled in *. by rewrite Hw, Htq. }
    specialize (Hen i Hi1 Hin). lia.
Qed.

Lemma wait_round_balanced (m : Master) : balanced m → balanced (wait_round m).
Proof.
  intros Hb. unfold wait_round.
  eapply stable_calm; [apply balanced_stable | apply yield_calm |].
  by apply collect_balanced.
Qed.

Lemma wait_loop_step (fuel : nat) (start_time : Q) (acc : list Task)
    (m : Master) :
  tasks_completed m < tasks_submitted m →
  wait_loop (S fuel) (1 # 2) None start_time acc m
    = wait_loop fuel (1 # 2) None start_time (acc ++ round_batch m)
        (wait_round m).
Proof.
  intros Hc. cbn [wait_loop timed_out].
  apply Z.ltb_lt in Hc. rewrite Hc. unfold wait_round, round_batch.
  by destruct (collect_effect (Some (1 # 2)%Q) m) as (batch & m1 & -> & _).
Qed.

Lemma eventually_progress (start_time : Q) (i d : nat) (m : Master)
    (acc : list Task) :
  serving m → balanced m →
  tasks_completed m < tasks_submitted m →
  pending (result_queue m) ≠ [] ∨
    (enabled i m ∧ i ∈ who <$> sched (now m + d)) →
  ∃ j m1 acc1,
    (potential m1 < potential m)%nat ∧ serving m1 ∧ balanced m1 ∧
    length (workers m1) = length (workers m) ∧
    ∀ f, wait_loop (j + f) (1 # 2) None start_time acc m
         = wait_loop f (1 # 2) None start_time acc1 m1.
Proof.
  revert m acc. induction d as [|d IH]; intros m acc Hs Hb Hc Hen.
  - destruct (wait_round_progress m Hs) as (Hs' & Hl & _ & Hrq & Hw).
    exists 1%nat, (wait_round m), (acc ++ round_batch m). split_and!.
    + destruct Hen as [Hne|[Hi Hin]]; [by apply Hrq|].
      rewrite Nat.add_0_r in Hin. by apply (Hw i).
    + done.
    + by apply wait_round_balanced.
    + done.
    + intros f. by apply wait_loop_step.
  - destruct (wait_round_progress m Hs) as (Hs' & Hl & Hpot & Hrq & _).
    destruct Hpot as [Hlt|Hfrozen].
    + exists 1%nat, (wait_round m), (acc ++ round_batch m).
      split_and!; [done|done|by apply wait_round_balanced|done|].
      intros f. by apply wait_loop_step.
    + destruct Hen as [Hne|[Hi Hin]].
      { specialize (Hrq Hne). rewrite Hfrozen in Hrq.
        unfold potential in Hrq. simpl in Hrq. lia. }
      destruct (IH (set_now m (S (now m))) (acc ++ round_batch m))
        as (j & m1 & acc1 & Hlt & Hs1 & Hb1 & Hl1 & Hloop).
      * done.
      * done.
      * done.
      * right. split; [done|]. simpl.
        by replace (S (now m + d)) with (now m + S d)%nat by lia.
      * exists (S j), m1, acc1. split_and!; try done.
        intros f. change (S j + f)%nat with (S (j + f)).
        rewrite wait_loop_step by done. rewrite Hfrozen. apply Hloop.
Qed.

Lemma inflight_nonempty (ws : list Worker) :
  inflight ws ≠ [] → ∃ i w t, ws !! i = Some w ∧ pc w = Processed t.
Proof.
  induction ws as [|w ws IH]; [done|]. unfold inflight.
  rewrite bind_cons. unfold holding at 1.
  destruct (pc w) as [| |t| |] eqn:Hpc; simpl;
    try (intros Hne; destruct (IH Hne) as (i & w' & t' & Hi & Ht);
         by exists (S i), w', t').
  intros _. by exists 0%nat, w, t.
Qed.

Lemma pool_can_progress (m : Master) :
  workers m ≠ [] → balanced m →
  tasks_completed m < tasks_submitted m →
  pending (result_queue m) = [] →
  ∃ i, (i < length (workers m))%nat ∧ enabled i m.
Proof.
  intros Hpool Hb Hc Hrq. unfold balanced, items in Hb. rewrite Hrq in Hb.
  simpl in Hb.
  destruct (decide (pending (task_queue m) = [])) as [Htq|Htq].
  - assert (flight m ≠ []) as Hf.
    { unfold queued, items in Hb. rewrite Htq in Hb. simpl in Hb.
      destruct (flight m); [simpl in Hb; lia|done]. }
    apply inflight_nonempty in Hf as (i & w & t & Hi & Ht).
    exists i. split; [by eapply lookup_lt_Some|].
    exists w. split; [done|]. by rewrite Ht.
  - destruct (workers m) as [|w ws] eqn:Hw; [done|].
    exists 0%nat. split; [simpl; lia|]. unfold enabled. rewrite Hw.
    by exists w.
Qed.

Lemma wait_loop_terminates (start_time : Q) (n : nat) (m : Master)
    (acc : list Task) :
  (potential m ≤ n)%nat →
  fair (length (workers m)) → workers m ≠ [] →
  serving m → balanced m →
  ∃ fuel res m',
    wait_loop fuel (1 # 2) None start_time acc m = Some (inr res, m').
Proof.
  revert m acc. induction n as [|n IH]; intros m acc Hn Hfair Hpool Hs Hb.
  all: destruct (decide (tasks_completed m < tasks_submitted m)) as [Hc|Hc].
  all: try (exists 1%nat, acc, m; cbn [wait_loop];
            by replace (tasks_completed m <? tasks_submitted m) with false
              by (symmetry; apply Z.ltb_ge; lia)).
  all: assert (∃ i d, pending (result_queue m) ≠ [] ∨
                 (enabled i m ∧ i ∈ who <$> sched (now m + d)))
         as (i & d & Hen).
  1,3: destruct (decide (pending (result_queue m) = [])) as [Hrq|Hrq];
       [|by exists 0%nat, 0%nat; left];
       destruct (pool_can_progress m Hpool Hb Hc Hrq) as (i & Hi & Hen);
       destruct (Hfair i Hi (now m)) as (k' & Hk' & Hin);
       exists i, (k' - now m)%nat; right; split; [done|];
       by replace (now m + (k' - now m))%nat with k' by lia.
  all: destruct (eventually_progress start_time i d m acc Hs Hb Hc Hen)
         as (j & m1 & acc1 & Hlt & Hs1 & Hb1 & Hl1 & Hloop).
  - lia.
  - destruct (IH m1 acc1) as (fuel & res & m' & Hw); try done.
    + lia.
    + by rewrite Hl1.
    + intros Hnil. rewrite Hnil in Hl1. by destruct (workers m).
    + exists (j + fuel)%nat, res, m'. by rewrite Hloop.
Qed.

(** ** Starting the pool of a new master *)

Lemma run_tick_idle (m : Master) (tk : tick) : idle m → run_tick m tk = m.
Proof.
  intros [Htq Hws]. unfold run_tick.
  destruct (workers m !! who tk) as [w|] eqn:Hw; [|done].
  pose proof (Forall_lookup_1 _ _ _ _ Hws Hw) as [Hrun Hpc].
  unfold worker_step, get. rewrite Htq.
  destruct w as [wid wty wrun wpc]; simpl in *. subst wrun.
  destruct Hpc as [-> | ->]; simpl; rewrite list_insert_id by done;
    by destruct m.
Qed.

Lemma yield_idle (m : Master) : idle m → yield m = set_now m (S (now m)).
Proof.
  intros Hidle. unfold yield.
  assert (∀ tks, foldl run_tick m tks = m) as ->; [|done].
  induction tks as [|tk tks IH]; simpl; [done|].
  by rewrite run_tick_idle.
Qed.

Lemma start_each (l : list nat) (m : Master) :
  NoDup l → idle m →
  (∀ i w, workers m !! i = Some w → (pc w = Created ↔ i ∈ l)) →
  ∃ m', for_each l start_worker m = (inr tt, m') ∧
        idle m' ∧ Forall (λ w, pc w = AwaitTask) (workers m') ∧
        task_queue m' = task_queue m ∧ result_queue m' = result_queue m ∧
        tasks_submitted m' = tasks_submitted m ∧
        tasks_completed m' = tasks_completed m ∧
        running m' = running m ∧
        length (workers m') = length (workers m).
Proof.
  revert m. induction l as [|i l IH]; intros m Hnd Hidle Hcr; simpl.
  - exists m. rewrite ret_run. split_and!; try done.
    apply Forall_lookup_2. intros i w Hw.
    destruct Hidle as [_ Hws].
    destruct (Forall_lookup_1 _ _ _ _ Hws Hw) as [_ [Hc|Ha]]; [|done].
    apply (Hcr i w Hw) in Hc. by apply elem_of_nil in Hc.
  - inversion_clear Hnd as [|? ? Hni Hnd'].
    rewrite bind_run. unfold start_worker at 1. rewrite bind_run, gets_run.
    cbv beta iota.
    destruct (workers m !! i) as [w|] eqn:Hw.
    + assert (pc w = Created) as Hpc.
      { apply (Hcr i w Hw). by left. }
      rewrite Hpc. rewrite bind_run, modify_run. cbv beta iota.
      unfold yield_. rewrite modify_run.
      set (m1 := set_workers m (<[i:=set_pc w AwaitTask]> (workers m))).
      assert (idle m1) as Hidle1.
      { destruct Hidle as [Htq Hws]. split; [done|]. simpl.
        apply Forall_insert; [done|].
        destruct (Forall_lookup_1 _ _ _ _ Hws Hw) as [Hrun _].
        split; [done|by right]. }
      rewrite (yield_idle m1 Hidle1).
      destruct (IH (set_now m1 (S (now m1)))) as (m' & Hrun' & Hrest);
        [done|done| |].
      * intros j w' Hj. simpl in Hj.
        destruct (decide (i = j)) as [<-|Hne].
        -- rewrite list_lookup_insert_eq in Hj by (by eapply lookup_lt_Some).
           injection Hj as <-. simpl. split; [done|].
           intros Hin. by destruct Hni.
        -- rewrite list_lookup_insert_ne in Hj by done.
           rewrite (Hcr j w' Hj). rewrite elem_of_cons.
           split; [|by right]. intros [->|?]; [done|done].
      * exists m'. split; [exact Hrun'|].
        destruct Hrest as (? & ? & ? & ? & ? & ? & ? & Hl).
        simpl in *. rewrite length_insert in Hl. by split_and!.
    + rewrite ret_run.
      destruct (IH m) as (m' & Hrun' & Hrest); [done|done| |by exists m'].
      intros j w' Hj. rewrite (Hcr j w' Hj). rewrite elem_of_cons.
      split; [|by right]. intros [->|?]; [congruence|done].
Qed.

Lemma inflight_waiting (ws : list Worker) :
  Forall (λ w, pc w = AwaitTask) ws → inflight ws = [].
Proof.
  induction 1 as [|w ws Hw _ IH]; [done|].
  unfold inflight. rewrite bind_cons. unfold holding at 1. by rewrite Hw.
Qed.

Lemma start_workers_fresh (m : Master) :
  fresh m →
  ∃ m1, start_workers m = (inr tt, m1) ∧
        serving m1 ∧ running m1 = true ∧
        pending (task_queue m1) = [] ∧ history (task_queue m1) = [] ∧
        pending (result_queue m1) = [] ∧ history (result_queue m1) = [] ∧
        tasks_submitted m1 = 0 ∧ tasks_completed m1 = 0 ∧
        length (workers m1) = length (workers m) ∧
        flight m1 = [].
Proof.
  intros (Hws & Htq & Hhtq & Hrq & Hhrq & Hsub & Hcomp).
  unfold start_workers. rewrite bind_run, gets_run. cbv beta iota.
  rewrite bind_run.
  destruct (start_each (seq 0 (length (workers m))) m)
    as (m1 & -> & [_ Hidle] & Hall & Htq1 & Hrq1 & Hs1 & Hc1 & _ & Hl).
  - apply NoDup_seq.
  - split; [done|]. eapply Forall_impl; [exact Hws|].
    intros w [? ?]. split; [done|by left].
  - intros i w Hw. destruct (Forall_lookup_1 _ _ _ _ Hws Hw) as [Hpc _].
    split; [|done]. intros _. apply elem_of_seq.
    apply lookup_lt_Some in Hw. lia.
  - rewrite modify_run. eexists. split; [reflexivity|].
    unfold serving, flight. simpl. rewrite Htq1, Hrq1, Htq.
    split_and!; try done; try congruence; [|by apply inflight_waiting].
    apply Forall_lookup_2. intros i w Hw.
    destruct (Forall_lookup_1 _ _ _ _ Hidle Hw) as [Hrun _].
    pose proof (Forall_lookup_1 _ _ _ _ Hall Hw) as Hpc. simpl in Hpc.
    unfold live. rewrite Hpc. by split_and!.
Qed.

Lemma constructors_fresh (b : backend) (nm : string) (k : Z) (m : Master) :
  subclass_init b nm k = inr m → fresh m.
Proof.
  unfold subclass_init, Master_init, create_queues, create_workers, fresh.
  destruct b; try done; intros [= <-]; simpl; split_and!; try done.
  - by repeat constructor.
  - apply Forall_fmap, Forall_true. done.
  - apply Forall_fmap, Forall_true. done.
Qed.

(** ** The safety invariant along a run *)

Lemma sound_stable (acc : list Task) : stable (sound acc).
Proof.
  intros m m' Heff (Hb & Hc & Hg & Ho). split_and!.
  - by eapply balanced_stable.
  - by eapply conserved_stable.
  - by eapply gathered_stable.
  - intros Hone. destruct Heff as (? & ? & ? & Hl & ?) eqn:Heq. clear Heq.
    rewrite Hl in Hone.
    by destruct (in_order_stable m m' Heff (conj Hone (Ho Hone))).
Qed.

Lemma yield_sound (acc : list Task) (m : Master) :
  sound acc m → sound acc (yield m).
Proof. apply stable_calm; [apply sound_stable | apply yield_calm]. Qed.

Lemma yield_serving (m : Master) : serving m → serving (yield m).
Proof.
  intros Hs. destruct (run_ticks_progress (sched (now m)) m Hs) as (Hs' & _).
  exact Hs'.
Qed.

Lemma yield_flags (m : Master) : same_flags m (yield m).
Proof.
  apply (yield_frames same_flags); unfold same_flags; try done.
  intros a b c [? ?] [? ?]. split; congruence.
Qed.

Lemma queued_put (x : option Task) (q : Queue (option Task)) :
  tasks_of (items (put x q)) = tasks_of (items q) ++ tasks_of [x] ∧
  tasks_of (history (put x q)) = tasks_of (history q) ++ tasks_of [x].
Proof.
  unfold tasks_of, items, put. simpl. by rewrite !omap_app.
Qed.

Lemma sound_put (acc : list Task) (m : Master) (t : Task) :
  sound acc m →
  sound acc (set_tasks_submitted
               (set_task_queue m (put (Some t) (task_queue m)))
               (tasks_submitted m + 1)).
Proof.
  intros (Hb & Hc & Hg & Ho).
  destruct (queued_put (Some t) (task_queue m)) as [Hq Hh].
  unfold sound, balanced, conserved, in_order, gathered, queued, flight,
    arrived, submitted_tasks, ids in *.
  unfold set_tasks_submitted, set_task_queue.
  cbn [task_queue result_queue workers tasks_submitted tasks_completed].
  rewrite Hq, Hh. simpl. rewrite !fmap_app, !length_app. simpl.
  split_and!.
  - lia.
  - rewrite !app_assoc. apply Permutation_app_tail.
    by rewrite <- !app_assoc.
  - done.
  - intros Hone. rewrite <- (Ho Hone). by rewrite <- !app_assoc.
Qed.

Lemma serving_put (m : Master) (t : Task) :
  serving m →
  serving (set_tasks_submitted
             (set_task_queue m (put (Some t) (task_queue m)))
             (tasks_submitted m + 1)).
Proof.
  intros [Hl Hp]. split; [done|]. simpl.
  apply Forall_app. split; [done|]. by repeat constructor.
Qed.

Lemma for_each_submit_spec {A} (mk : nat → A → Task) (f : A → Z)
    (l : list A) (acc : list Task) (m : Master) :
  (∀ t i, id (mk t i) = f i) →
  sound acc m → serving m →
  ∃ m', for_each l (λ i, t ← gets now; submit_task (mk t i)) m = (inr tt, m') ∧
        sound acc m' ∧ serving m' ∧ same_flags m m' ∧
        length (workers m') = length (workers m) ∧
        ids (submitted_tasks m') = ids (submitted_tasks m) ++ (f <$> l).
Proof.
  intros Hid. revert m. induction l as [|x l IH]; intros m Hsound Hs; simpl.
  - exists m. rewrite ret_run, app_nil_r. by split_and!.
  - rewrite bind_run. cbv beta. rewrite bind_run, gets_run. cbv beta iota.
    rewrite submit_task_eq.
    set (m1 := set_tasks_submitted
                 (set_task_queue m (put (Some (mk (now m) x)) (task_queue m)))
                 (tasks_submitted m + 1)).
    destruct (IH (yield m1)) as (m' & Hrun & Hsound' & Hs' & Hf' & Hl' & Hids).
    + by apply yield_sound, sound_put.
    + by apply yield_serving, serving_put.
    + exists m'. split; [exact Hrun|].
      destruct (calm_counters _ _ (yield_calm m1)) as (_ & _ & Hst & Hl).
      destruct (yield_flags m1) as [Hr Hp].
      split_and!; try done.
      * destruct Hf' as [? ?].
        assert (running m1 = running m ∧ perf_start m1 = perf_start m)
          as [? ?] by done.
        split; congruence.
      * by rewrite Hl', Hl.
      * rewrite Hids, Hst. unfold submitted_tasks, m1.
        unfold set_tasks_submitted, set_task_queue. cbn [task_queue].
        destruct (queued_put (Some (mk (now m) x)) (task_queue m))
          as [_ ->].
        unfold ids. rewrite fmap_app. simpl. rewrite Hid.
        by rewrite <- app_assoc.
Qed.

Lemma generate_workload_spec (n : Z) (acc : list Task) (m : Master) :
  sound acc m → serving m →
  ∃ m', generate_workload n m = (inr (tasks_submitted m'), m') ∧
        sound acc m' ∧ serving m' ∧
        running m' = running m ∧ is_Some (perf_start m') ∧
        length (workers m') = length (workers m) ∧
        ids (submitted_tasks m') = ids (submitted_tasks m) ++ seqZ 1 n.
Proof.
  intros Hsound Hs.
  unfold generate_workload. rewrite bind_run, modify_run. cbv beta iota.
  rewrite bind_run.
  destruct (for_each_submit_spec
              (λ t i, generate_random_task (rng t) (i + 1)) (λ i, 1 + i)
              (seqZ 0 n) acc (set_perf_start m (Some (clock (now m)))))
    as (m' & -> & Hsound' & Hs' & [Hr Hp] & Hl & Hids).
  - intros t i. simpl. lia.
  - exact Hsound.
  - exact Hs.
  - rewrite gets_run. exists m'. split_and!; try done.
    + rewrite Hp. by eexists.
    + rewrite Hids. f_equal.
      change (λ i : Z, 1 + i) with (Z.add 1). by rewrite fmap_add_seqZ.
Qed.

(** ** Stopping the pool *)

Lemma worker_step_facts (tk : tick) (w : Worker) (tq : Queue (option Task))
    (rq : Queue Task) :
  history (worker_step tk w tq rq).1.2 = history tq ∧
  (started w → started (worker_step tk w tq rq).1.1) ∧
  worker_type (worker_step tk w tq rq).1.1 = worker_type w ∧
  wk_running (worker_step tk w tq rq).1.1 = wk_running w.
Proof.
  unfold worker_step, started. destruct w as [wid wty wrun [| |t| |]]; simpl.
  - done.
  - destruct wrun; simpl; [|done]. unfold get.
    destruct (pending tq) as [|[e|[task|]] rest]; simpl; done.
  - destruct wty; done.
  - unfold task_done. destruct (unfinished_tasks tq); done.
  - done.
Qed.

Lemma quiet_refl (m : Master) : quiet m m.
Proof. by unfold quiet. Qed.

Lemma quiet_trans (a b c : Master) : quiet a b → quiet b c → quiet a c.
Proof.
  unfold quiet. intros (? & ? & ? & ?) (? & ? & ? & ?).
  split_and!; [congruence..|auto].
Qed.

Lemma run_tick_quiet (m : Master) (tk : tick) : quiet m (run_tick m tk).
Proof.
  unfold run_tick. destruct (workers m !! who tk) as [w|] eqn:Hw;
    [|apply quiet_refl].
  pose proof (worker_step_facts tk w (task_queue m) (result_queue m))
    as (Hh & Hs & _).
  destruct (worker_step tk w (task_queue m) (result_queue m)) as [[w' tq] rq].
  unfold quiet, pool_started; simpl in *. split_and!; try done.
  - by rewrite length_insert.
  - intros Hall. apply Forall_insert; [done|].
    apply Hs. eapply Forall_lookup_1; eauto.
Qed.

Lemma yield_quiet (m : Master) : quiet m (yield m).
Proof.
  unfold yield.
  assert (∀ tks m0, quiet m0 (foldl run_tick m0 tks)) as Hfold.
  { induction tks as [|tk tks IH]; intros m0; simpl; [apply quiet_refl|].
    eapply quiet_trans; [apply run_tick_quiet | apply IH]. }
  specialize (Hfold (sched (now m)) m).
  destruct Hfold as (? & ? & ? & ?). by split_and!.
Qed.

Lemma pill_effect (m : Master) :
  tick_effect m (set_task_queue m (put None (task_queue m))).
Proof.
  destruct (queued_put None (task_queue m)) as [Hq Hh].
  unfold tick_effect, queued, submitted_tasks, arrived, flight.
  unfold set_task_queue. cbn [task_queue result_queue workers
    tasks_submitted tasks_completed].
  rewrite Hq, Hh. simpl. rewrite !app_nil_r. split_and!; try done. by left.
Qed.

Lemma send_pills_spec {A} (l : list A) (m : Master) :
  ∃ m',
    for_each l
      (λ _, modify (λ m, set_task_queue m (put None (task_queue m)));;
            yield_) m = (inr tt, m') ∧
    running m' = running m ∧
    history (task_queue m')
      = history (task_queue m) ++ replicate (length l) None ∧
    length (workers m') = length (workers m) ∧
    (pool_started m → pool_started m') ∧
    calm m m'.
Proof.
  revert m. induction l as [|x l IH]; intros m; simpl.
  - exists m. rewrite ret_run, app_nil_r. by split_and!.
  - rewrite bind_run. cbv beta. rewrite bind_run, modify_run. cbv beta iota.
    unfold yield_. rewrite modify_run.
    destruct (yield_quiet (set_task_queue m (put None (task_queue m))))
      as (Hr & Hh & Hl & Hs).
    destruct (IH (yield (set_task_queue m (put None (task_queue m)))))
      as (m' & Hm' & Hr' & Hh' & Hl' & Hs' & Hc').
    exists m'. split; [exact Hm'|]. simpl in *.
    split_and!; [congruence| |congruence|auto|].
    + rewrite Hh', Hh. by rewrite <- app_assoc.
    + eapply rtc_l; [apply pill_effect|].
      eapply rtc_trans; [apply yield_calm | exact Hc'].
Qed.

Lemma join_all_spec (l : list nat) (m : Master) :
  pool_started m →
  ∃ m', for_each l join m = (inr tt, m') ∧ quiet m m' ∧ calm m m'.
Proof.
  revert m. induction l as [|i l IH]; intros m Hs; simpl.
  - exists m. split; [done|]. split; [apply quiet_refl|done].
  - rewrite bind_run. unfold join at 1. rewrite bind_run, gets_run.
    cbv beta iota.
    assert (∃ m1, match workers m !! i with
                  | Some w =>
                      match pc w with
                      | Created => raise (not_started w)
                      | _ => yield_
                      end
                  | None => ret tt
                  end m = (inr tt, m1) ∧ quiet m m1 ∧ calm m m1)
      as (m1 & -> & Hq & Hc).
    { destruct (workers m !! i) as [w|] eqn:Hw.
      - assert (started w) as Hsw by (eapply Forall_lookup_1; eauto).
        unfold started in Hsw.
        destruct (pc w); try done;
          (eexists; split; [reflexivity|];
           split; [apply yield_quiet|apply yield_calm]).
      - eexists; split; [reflexivity|]. split; [apply quiet_refl|done]. }
    destruct (IH m1) as (m' & Hm' & Hq' & Hc'); [by apply Hq|].
    exists m'. split; [exact Hm'|].
    split; [by eapply quiet_trans|by eapply rtc_trans].
Qed.

(** A running master whose pool was started stops without error; the
    tasks in the system are not disturbed. *)
Lemma stop_workers_running (m : Master) :
  running m = true → pool_started m →
  ∃ m', stop_workers m = (inr tt, m') ∧
        running m' = false ∧
        history (task_queue m')
          = history (task_queue m) ++ replicate (length (workers m)) None ∧
        length (workers m') = length (workers m) ∧
        calm m m'.
Proof.
  intros Hrun Hwf.
  unfold stop_workers at 1. rewrite bind_run, gets_run. cbv beta iota.
  rewrite Hrun. change (negb true) with false. cbv iota.
  rewrite bind_run, gets_run. cbv beta iota. rewrite bind_run.
  destruct (send_pills_spec (seq 0 (length (workers m))) m)
    as (m1 & -> & Hr1 & Hh1 & Hl1 & Hs1 & Hc1).
  rewrite bind_run.
  destruct (join_all_spec (seq 0 (length (workers m))) m1)
    as (m2 & -> & (Hr2 & Hh2 & Hl2 & Hs2) & Hc2); [auto|].
  rewrite modify_run. eexists. split; [reflexivity|].
  rewrite length_seq in Hh1. simpl.
  split_and!; [done|congruence|congruence|].
  eapply rtc_trans; [exact Hc1|].
  eapply rtc_r; [exact Hc2|].
  unfold tick_effect. split_and!; try done. by left.
Qed.

(** *** Where the sentinels go *)

Lemma sentinels_put (x : option Task) (q : Queue (option Task)) :
  sentinels (put x q)
    = (sentinels q + if is_sentinel (inr x) then 1 else 0)%nat.
Proof.
  unfold sentinels, put. simpl.
  induction (pending q) as [|o l IH]; csimpl; [lia|]. rewrite IH. lia.
Qed.

Lemma stopped_insert (ws : list Worker) (i : nat) (w w' : Worker) :
  ws !! i = Some w →
  (stopped_workers (<[i:=w']> ws) + has_stopped w
   = stopped_workers ws + has_stopped w')%nat.
Proof.
  unfold stopped_workers.
  revert i. induction ws as [|w0 ws IH]; intros i Hw; [done|].
  destruct i as [|i]; csimpl in *.
  - injection Hw as ->. lia.
  - specialize (IH i Hw). lia.
Qed.

(** A worker that nobody stopped with [Worker.stop] leaves its loop only
    by taking a sentinel from the task queue. *)
Lemma worker_step_sentinels (tk : tick) (w : Worker)
    (tq : Queue (option Task)) (rq : Queue Task) :
  wk_running w = true →
  (sentinels (worker_step tk w tq rq).1.2
   + has_stopped (worker_step tk w tq rq).1.1
   = sentinels tq + has_stopped w)%nat.
Proof.
  intros Hrun. unfold worker_step, has_stopped, sentinels.
  destruct w as [wid wty wrun [| |t| |]]; simpl in *; subst wrun; simpl.
  - done.
  - unfold get.
    destruct (pending tq) as [|[e|[task|]] rest] eqn:Hp; simpl;
      rewrite ?Hp; csimpl; done.
  - by destruct wty.
  - unfold task_done. by destruct (unfinished_tasks tq).
  - done.
Qed.

Lemma run_tick_sentinels (m : Master) (tk : tick) :
  Forall (λ w, wk_running w = true) (workers m) →
  Forall (λ w, wk_running w = true) (workers (run_tick m tk)) ∧
  (sentinels (task_queue (run_tick m tk))
   + stopped_workers (workers (run_tick m tk))
   = sentinels (task_queue m) + stopped_workers (workers m))%nat.
Proof.
  intros Hall. unfold run_tick.
  destruct (workers m !! who tk) as [w|] eqn:Hw; [|done].
  pose proof (Forall_lookup_1 _ _ _ _ Hall Hw) as Hrun. simpl in Hrun.
  pose proof (worker_step_sentinels tk w (task_queue m) (result_queue m) Hrun)
    as Hstep.
  pose proof (worker_step_facts tk w (task_queue m) (result_queue m))
    as (_ & _ & _ & Hkeep).
  pose proof (stopped_insert (workers m) (who tk) w
                (worker_step tk w (task_queue m) (result_queue m)).1.1 Hw)
    as Hins.
  destruct (worker_step tk w (task_queue m) (result_queue m))
    as [[w' tq] rq]. simpl in *. split.
  - apply Forall_insert; [done|]. congruence.
  - lia.
Qed.

Lemma yield_sentinels (m : Master) :
  Forall (λ w, wk_running w = true) (workers m) →
  Forall (λ w, wk_running w = true) (workers (yield m)) ∧
  (sentinels (task_queue (yield m)) + stopped_workers (workers (yield m))
   = sentinels (task_queue m) + stopped_workers (workers m))%nat.
Proof.
  unfold yield.
  assert (∀ tks m0,
            Forall (λ w, wk_running w = true) (workers m0) →
            Forall (λ w, wk_running w = true)
              (workers (foldl run_tick m0 tks)) ∧
            (sentinels (task_queue (foldl run_tick m0 tks))
             + stopped_workers (workers (foldl run_tick m0 tks))
             = sentinels (task_queue m0) + stopped_workers (workers m0))%nat)
    as Hfold.
  { induction tks as [|tk tks IH]; intros m0 H0; simpl; [done|].
    destruct (run_tick_sentinels m0 tk H0) as [H1 Heq1].
    destruct (IH _ H1) as [H2 Heq2]. split; [done|lia]. }
  intros Hall. by destruct (Hfold (sched (now m)) m Hall).
Qed.

Lemma send_pills_sentinels {A} (l : list A) (m : Master) (out : exn + unit)
    (m' : Master) :
  Forall (λ w, wk_running w = true) (workers m) →
  for_each l
    (λ _, modify (λ m, set_task_queue m (put None (task_queue m)));;
          yield_) m = (out, m') →
  Forall (λ w, wk_running w = true) (workers m') ∧
  (sentinels (task_queue m') + stopped_workers (workers m')
   = sentinels (task_queue m) + stopped_workers (workers m) + length l)%nat.
Proof.
  revert m. induction l as [|x l IH]; intros m Hall Hrun;
    cbn [for_each] in Hrun.
  - rewrite ret_run in Hrun. injection Hrun as <- <-. simpl.
    split; [done|lia].
  - rewrite bind_run in Hrun. cbv beta in Hrun.
    rewrite bind_run, modify_run in Hrun. cbv beta iota in Hrun.
    unfold yield_ at 1 in Hrun. rewrite modify_run in Hrun.
    destruct (yield_sentinels (set_task_queue m (put None (task_queue m))))
      as [H1 Heq1]; [done|].
    destruct (IH _ H1 Hrun) as [H2 Heq2]. split; [exact H2|].
    rewrite Heq2, Heq1.
    cbn [task_queue workers set_task_queue length].
    rewrite sentinels_put. simpl. lia.
Qed.

Lemma join_all_sentinels (l : list nat) (m : Master) (out : exn + unit)
    (m' : Master) :
  Forall (λ w, wk_running w = true) (workers m) →
  for_each l join m = (out, m') →
  Forall (λ w, wk_running w = true) (workers m') ∧
  (sentinels (task_queue m') + stopped_workers (workers m')
   = sentinels (task_queue m) + stopped_workers (workers m))%nat.
Proof.
  revert m. induction l as [|i l IH]; intros m Hall Hrun;
    cbn [for_each] in Hrun.
  - rewrite ret_run in Hrun. by injection Hrun as <- <-.
  - rewrite bind_run in Hrun. unfold join at 1 in Hrun.
    rewrite bind_run, gets_run in Hrun. cbv beta iota in Hrun.
    destruct (workers m !! i) as [w|];
      [|rewrite ret_run in Hrun; by apply IH].
    destruct (yield_sentinels m Hall) as [H1 Heq1].
    destruct (pc w); rewrite ?raise_run in Hrun;
      try (by injection Hrun as <- <-);
      unfold yield_ at 1 in Hrun; rewrite modify_run in Hrun;
      destruct (IH _ H1 Hrun) as [H2 Heq2]; (split; [exact H2|lia]).
Qed.

Lemma stop_workers_sentinels (m : Master) :
  running m = true →
  Forall (λ w, wk_running w = true) (workers m) →
  (sentinels (task_queue (stop_workers m).2)
   + stopped_workers (workers (stop_workers m).2)
   = sentinels (task_queue m) + stopped_workers (workers m)
     + length (workers m))%nat.
Proof.
  intros Hrun Hall.
  unfold stop_workers. rewrite bind_run, gets_run. cbv beta iota.
  rewrite Hrun. change (negb true) with false. cbv iota.
  rewrite bind_run, gets_run. cbv beta iota. rewrite bind_run.
  destruct (for_each (seq 0 (length (workers m))) _ m) as [out1 m1] eqn:H1.
  destruct (send_pills_sentinels _ _ _ _ Hall H1) as [Hall1 Heq1].
  rewrite length_seq in Heq1.
  destruct out1 as [e|[]]; [simpl; lia|].
  rewrite bind_run.
  destruct (for_each (seq 0 (length (workers m))) join m1) as [out2 m2]
    eqn:H2.
  destruct (join_all_sentinels _ _ _ _ Hall1 H2) as [Hall2 Heq2].
  destruct out2 as [e|[]]; [simpl; lia|].
  rewrite modify_run. simpl. lia.
Qed.

(** When no worker is activated while [stop_workers] runs, the task
    queue shows what the call itself does to it. *)
Lemma yield_undisturbed (m : Master) :
  (∀ k, sched k = []) → yield m = set_now m (S (now m)).
Proof. intros Hs. unfold yield. by rewrite Hs. Qed.

Lemma send_pills_undisturbed {A} (l : list A) (m : Master) (out : exn + unit)
    (m' : Master) :
  (∀ k, sched k = []) →
  for_each l
    (λ _, modify (λ m, set_task_queue m (put None (task_queue m)));;
          yield_) m = (out, m') →
  pending (task_queue m')
    = pending (task_queue m) ++ replicate (length l) (inr None) ∧
  unfinished_tasks (task_queue m')
    = (unfinished_tasks (task_queue m) + length l)%nat ∧
  workers m' = workers m.
Proof.
  intros Hs. revert m. induction l as [|x l IH]; intros m Hrun;
    cbn [for_each] in Hrun.
  - rewrite ret_run in Hrun. injection Hrun as <- <-. simpl.
    rewrite app_nil_r. split_and!; [done|lia|done].
  - rewrite bind_run in Hrun. cbv beta in Hrun.
    rewrite bind_run, modify_run in Hrun. cbv beta iota in Hrun.
    unfold yield_ at 1 in Hrun. rewrite modify_run in Hrun.
    rewrite (yield_undisturbed _ Hs) in Hrun.
    destruct (IH _ Hrun) as (Hp & Hu & Hw). rewrite Hp, Hu, Hw.
    cbn [task_queue workers set_task_queue set_now put pending
         unfinished_tasks length replicate].
    rewrite <- app_assoc. split_and!; [done|lia|done].
Qed.

Lemma join_all_undisturbed (l : list nat) (m : Master) (out : exn + unit)
    (m' : Master) :
  (∀ k, sched k = []) →
  for_each l join m = (out, m') →
  task_queue m' = task_queue m ∧ workers m' = workers m.
Proof.
  intros Hs. revert m. induction l as [|i l IH]; intros m Hrun;
    cbn [for_each] in Hrun.
  - rewrite ret_run in Hrun. by injection Hrun as <- <-.
  - rewrite bind_run in Hrun. unfold join at 1 in Hrun.
    rewrite bind_run, gets_run in Hrun. cbv beta iota in Hrun.
    destruct (workers m !! i) as [w|];
      [|rewrite ret_run in Hrun; by apply IH].
    destruct (pc w); rewrite ?raise_run in Hrun;
      try (by injection Hrun as <- <-);
      unfold yield_ at 1 in Hrun; rewrite modify_run in Hrun;
      rewrite (yield_undisturbed _ Hs) in Hrun;
      by destruct (IH _ Hrun) as [-> ->].
Qed.

Lemma stop_workers_undisturbed (m : Master) :
  (∀ k, sched k = []) → running m = true →
  pending (task_queue (stop_workers m).2)
    = pending (task_queue m) ++ replicate (length (workers m)) (inr None) ∧
  unfinished_tasks (task_queue (stop_workers m).2)
    = (unfinished_tasks (task_queue m) + length (workers m))%nat ∧
  workers (stop_workers m).2 = workers m.
Proof.
  intros Hs Hrun.
  unfold stop_workers. rewrite bind_run, gets_run. cbv beta iota.
  rewrite Hrun. change (negb true) with false. cbv iota.
  rewrite bind_run, gets_run. cbv beta iota. rewrite bind_run.
  destruct (for_each (seq 0 (length (workers m))) _ m) as [out1 m1] eqn:H1.
  destruct (send_pills_undisturbed _ _ _ _ Hs H1) as (Hp1 & Hu1 & Hw1).
  rewrite length_seq in Hp1, Hu1.
  destruct out1 as [e|[]]; [done|].
  rewrite bind_run.
  destruct (for_each (seq 0 (length (workers m))) join m1) as [out2 m2]
    eqn:H2.
  destruct (join_all_undisturbed _ _ _ _ Hs H2) as (Hq2 & Hw2).
  destruct out2 as [e|[]]; [simpl; by rewrite Hq2, Hw2|].
  rewrite modify_run. simpl. by rewrite Hq2, Hw2.
Qed.

(** C5: [stop_workers] on a master that is not running changes nothing
    and raises nothing.  On a running master (whose pool, as
    [start_workers] leaves it, has been started) one call puts exactly
    one sentinel per pool member on the task queue, nothing else, and
    sets [running] to false: the puts recorded by the queue are one
    [None] per member, and each of these sentinels either still waits in
    the queue or has been taken by a worker, which thereby left its loop
    (no worker having been stopped with [Worker.stop]).  When no worker
    is activated during the call, the sentinels are the new pending
    items of the task queue, behind those that were waiting, and its
    count of unfinished tasks has grown by their number.  A second call
    in a row is then the no-op again: no error and no further
    sentinel. *)
Theorem stop_workers_idempotent (m : Master) :
  (running m = true → pool_started m) →
  (running m = false → stop_workers m = (inr tt, m)) ∧
  (running m = true →
   ∃ m', stop_workers m = (inr tt, m') ∧
         running m' = false ∧
         history (task_queue m')
           = history (task_queue m) ++ replicate (length (workers m)) None ∧
         (Forall (λ w, wk_running w = true) (workers m) →
          (sentinels (task_queue m') + stopped_workers (workers m')
           = sentinels (task_queue m) + stopped_workers (workers m)
             + length (workers m))%nat) ∧
         length (workers m') = length (workers m) ∧
         stop_workers m' = (inr tt, m') ∧
         history (task_queue (stop_workers m').2)
           = history (task_queue m) ++ replicate (length (workers m)) None ∧
         ((∀ k, sched k = []) →
          pending (task_queue m')
            = pending (task_queue m)
                ++ replicate (length (workers m)) (inr None) ∧
          unfinished_tasks (task_queue m')
            = (unfinished_tasks (task_queue m) + length (workers m))%nat ∧
          workers m' = workers m)).
Proof.
  intros Hwf.
  assert (∀ m0, running m0 = false → stop_workers m0 = (inr tt, m0)) as Hoff.
  { intros m0 Hrun. unfold stop_workers. rewrite bind_run, gets_run.
    cbv beta iota. by rewrite Hrun. }
  split; [apply Hoff|].
  intros Hrun.
  destruct (stop_workers_running m Hrun (Hwf Hrun))
    as (m' & Hstop & Hoff' & Hh & Hl & _).
  exists m'. rewrite (Hoff m' Hoff'). split_and!; try done.
  - intros Hall. pose proof (stop_workers_sentinels m Hrun Hall) as Hacc.
    by rewrite Hstop in Hacc.
  - intros Hs. pose proof (stop_workers_undisturbed m Hs Hrun) as Hund.
    by rewrite Hstop in Hund.
Qed.

(** ** A whole run *)

Lemma collect_sound (timeout : option Q) (acc : list Task) (m : Master) :
  sound acc m →
  ∃ batch m1, collect_results timeout m = (inr batch, m1) ∧
              sound (acc ++ batch) m1.
Proof.
  intros (Hb & Hc & Hg & Ho).
  destruct (collect_gathered timeout acc m Hg) as (batch & m1 & Hrun & Hg1).
  pose proof (collect_balanced timeout m Hb) as Hb1.
  destruct (collect_keeps timeout m) as (Hw & Htq & Ha & _).
  rewrite Hrun in Hb1, Hw, Htq, Ha. simpl in *.
  exists batch, m1. split; [done|].
  unfold sound, conserved, in_order, flight, queued, submitted_tasks in *.
  rewrite Hw, Htq, Ha. by split_and!.
Qed.

Lemma wait_round_sound (acc : list Task) (m : Master) :
  sound acc m → sound (acc ++ round_batch m) (wait_round m).
Proof.
  intros Hs. unfold round_batch, wait_round.
  destruct (collect_sound (Some (1 # 2)%Q) acc m Hs) as (batch & m1 & -> & Hs1).
  by apply yield_sound.
Qed.

Lemma wait_round_keeps (m : Master) :
  same_flags m (wait_round m) ∧
  tasks_submitted (wait_round m) = tasks_submitted m ∧
  submitted_tasks (wait_round m) = submitted_tasks m.
Proof.
  unfold wait_round.
  destruct (collect_effect (Some (1 # 2)%Q) m)
    as (batch & m1 & -> & _ & Htq & _ & Hr & Hp & _ & Hs & _).
  destruct (yield_flags m1) as [Hr' Hp'].
  destruct (calm_counters _ _ (yield_calm m1)) as (Hs' & _ & Hst & _).
  cbn [snd]. unfold same_flags, submitted_tasks in *.
  split_and!; congruence.
Qed.

Lemma wait_loop_sound (fuel : nat) (start_time : Q) (acc : list Task)
    (m : Master) (res : list Task) (m' : Master) :
  wait_loop fuel (1 # 2) None start_time acc m = Some (inr res, m') →
  sound acc m → serving m →
  sound res m' ∧ serving m' ∧ same_flags m m' ∧
  tasks_submitted m' ≤ tasks_completed m' ∧
  tasks_submitted m' = tasks_submitted m ∧
  submitted_tasks m' = submitted_tasks m ∧
  length (workers m') = length (workers m).
Proof.
  revert acc m. induction fuel as [|fuel IH]; intros acc m Hw Hsound Hs;
    [done|].
  destruct (decide (tasks_completed m < tasks_submitted m)) as [Hc|Hc].
  - rewrite wait_loop_step in Hw by done.
    destruct (wait_round_progress m Hs) as (Hs1 & Hl1 & _).
    destruct (wait_round_keeps m) as ([Hr1 Hp1] & Hsub1 & Hst1).
    destruct (IH _ _ Hw (wait_round_sound acc m Hsound) Hs1)
      as (? & ? & [? ?] & ? & ? & ? & ?).
    unfold same_flags. split_and!; try done; congruence.
  - simpl in Hw.
    replace (tasks_completed m <? tasks_submitted m) with false in Hw
      by (symmetry; apply Z.ltb_ge; lia).
    injection Hw as <- <-. unfold same_flags. split_and!; try done. lia.
Qed.

Lemma wait_for_completion_spec (fuel : nat) (m : Master)
    (res : list Task) (mw : Master) :
  wait_loop fuel (1 # 2) None (clock (now m)) [] m = Some (inr res, mw) →
  sound [] m → serving m → is_Some (perf_start m) →
  ∃ results m3,
    wait_for_completion fuel (1 # 2) None m = Some (inr results, m3) ∧
    sound results m3 ∧ serving m3 ∧ running m3 = running m ∧
    tasks_submitted m3 ≤ tasks_completed m3 ∧
    tasks_submitted m3 = tasks_submitted m ∧
    submitted_tasks m3 = submitted_tasks m ∧
    length (workers m3) = length (workers m).
Proof.
  intros Hw Hsound Hs [s Hperf]. unfold wait_for_completion. rewrite Hw.
  destruct (wait_loop_sound _ _ _ _ _ _ Hw Hsound Hs)
    as (Hsound1 & Hs1 & [Hr1 Hp1] & Hdone & Hsub & Hst & Hl).
  destruct (collect_sound (Some (1 # 2)%Q) res mw Hsound1)
    as (batch & m2 & Hrun & Hsound2).
  destruct (collect_effect (Some (1 # 2)%Q) mw)
    as (batch' & m2' & Hrun' & Hw2 & Htq2 & _ & Hr2 & Hp2 & _ & Hs2 & Hc2 & _).
  rewrite Hrun in Hrun'. injection Hrun' as <- <-.
  rewrite bind_run, Hrun, bind_run. unfold performance_stop.
  rewrite Hp2, Hp1, Hperf. rewrite ret_run.
  eexists _, _. split; [reflexivity|].
  split_and!.
  - exact Hsound2.
  - unfold serving in *. simpl. by rewrite Hw2, Htq2.
  - simpl. congruence.
  - simpl. lia.
  - simpl. congruence.
  - unfold submitted_tasks in *. simpl. by rewrite Htq2.
  - simpl. congruence.
Qed.

Lemma serving_pool_started (m : Master) : serving m → pool_started m.
Proof.
  intros [Hl _]. eapply Forall_impl; [exact Hl|]. by intros w (_ & ? & _).
Qed.

Lemma serving_waiting (m : Master) :
  serving m → pending (task_queue m) = [] →
  pending (result_queue m) = [] → history (result_queue m) = [] →
  history (task_queue m) = [] →
  tasks_submitted m = 0 → tasks_completed m = 0 →
  flight m = [] → sound [] m.
Proof.
  intros _ Htq Hrq Hhrq Hhtq Hsub Hcomp Hf.
  unfold sound, balanced, conserved, in_order, gathered, queued, arrived,
    submitted_tasks, items.
  rewrite Htq, Hrq, Hhrq, Hhtq, Hsub, Hcomp, Hf. by split_and!.
Qed.

(** A run on a new master with a pool that is not empty, under a fair
    schedule: it returns, and every submitted task has arrived. *)
Lemma run_from_fresh (n : Z) (m : Master) :
  fresh m → workers m ≠ [] → fair (length (workers m)) →
  ∃ fuel results r m3 m4,
    run_benchmark_try fuel n m = Some (inr (results, r), m3) ∧
    run_benchmark fuel n m = Some (inr r, m4) ∧
    results = arrived m4 ∧ flight m4 = [] ∧ queued m4 = [] ∧
    conserved m4 ∧ (length (workers m) = 1%nat → in_order m4) ∧
    ids (submitted_tasks m4) = seqZ 1 n ∧
    tasks_submitted m4 = Z.max 0 n ∧ tasks_completed m4 = Z.max 0 n ∧
    running m4 = false.
Proof.
  intros Hfresh Hpool Hfair.
  destruct (start_workers_fresh m Hfresh)
    as (m1 & Hstart & Hs1 & Hr1 & Htq1 & Hhtq1 & Hrq1 & Hhrq1 & Hsub1 &
        Hcomp1 & Hl1 & Hf1).
  pose proof (serving_waiting m1 Hs1 Htq1 Hrq1 Hhrq1 Hhtq1 Hsub1 Hcomp1 Hf1)
    as Hsound1.
  destruct (generate_workload_spec n [] m1 Hsound1 Hs1)
    as (m2 & Hgen & Hsound2 & Hs2 & Hr2 & Hp2 & Hl2 & Hids2).
  destruct (generate_workload_counts n m1) as (m2' & Hgen' & Hsub2 & _).
  rewrite Hgen in Hgen'. injection Hgen' as _ <-.
  destruct (wait_loop_terminates (clock (now m2)) (potential m2) m2 [])
    as (fuel & res & mw & Hw).
  { done. }
  { by rewrite Hl2, Hl1. }
  { intros Hnil. apply Hpool, nil_length_inv.
    by rewrite <- Hl1, <- Hl2, Hnil. }
  { done. }
  { apply Hsound2. }
  destruct (wait_for_completion_spec fuel m2 res mw Hw Hsound2 Hs2 Hp2)
    as (results & m3 & Hwait & Hsound3 & Hs3 & Hr3 & Hdone3 & Hsub3 & Hst3
        & Hl3).
  destruct (benchmark_statistics_defined (name m3) (num_workers m3) n
              (clock (now m1)) (clock (now m3)) (memory (now m3)) results)
    as (avg & byt & Hstats).
  destruct (stop_workers_running m3) as (m4 & Hstop & Hr4 & _ & Hl4 & Hcalm).
  { congruence. } { by apply serving_pool_started. }
  assert (run_benchmark_try fuel n m
          = Some (inr (results, mkBenchmarkResult (name m3) (num_workers m3) n
                          (clock (now m3) - clock (now m1))%Q
                          (if Qlt_le_dec 0 (clock (now m3) - clock (now m1))
                           then (inject_Z n
                                 / (clock (now m3) - clock (now m1)))%Q
                           else 0%Q)
                          avg byt (memory (now m3))), m3)) as Htry.
  { unfold run_benchmark_try. by rewrite Hstart, Hgen, Hwait, Hstats. }
  eexists fuel, results, _, m3, m4. split; [exact Htry|].
  split; [unfold run_benchmark; by rewrite Htry, Hstop|].
  pose proof (stable_calm _ _ _ (sound_stable results) Hcalm Hsound3)
    as (Hb4 & Hc4 & Hg4 & Ho4).
  destruct (calm_counters _ _ Hcalm) as (Hsub4 & Hcomp4 & Hst4 & _).
  assert (length (items (result_queue m4)) + length (flight m4)
          + length (queued m4) = 0)%nat as Hzero.
  { unfold balanced in Hb4. lia. }
  assert (items (result_queue m4) = [] ∧ flight m4 = [] ∧ queued m4 = [])
    as (Hi4 & Hf4 & Hq4).
  { destruct (items (result_queue m4)), (flight m4), (queued m4);
      simpl in Hzero; try lia. done. }
  unfold gathered in Hg4. rewrite Hi4, app_nil_r in Hg4.
  split_and!; try done.
  - intros Hone. apply Ho4. congruence.
  - rewrite Hst4, Hst3, Hids2. unfold submitted_tasks. by rewrite Hhtq1.
  - lia.
  - unfold balanced in Hb4. rewrite Hi4, Hf4, Hq4 in Hb4. simpl in Hb4. lia.
Qed.

(** C6: on the sequential backend, whatever worker count is requested and
    for every task count, a run under a schedule that keeps activating
    the single worker returns, and the tasks arrive on the result queue
    in the order in which they were submitted to the task queue: both
    sequences of ids are 1, 2, ..., n, and so is that of the list the
    master collects. *)
Theorem sequential_preserves_order (requested n : Z) (m : Master) :
  SingleProcessMaster requested = inr m → fair 1 →
  ∃ fuel results r m3 m4,
    run_benchmark_try fuel n m = Some (inr (results, r), m3) ∧
    run_benchmark fuel n m = Some (inr r, m4) ∧
    ids (arrived m4) = ids (submitted_tasks m4) ∧
    ids (submitted_tasks m4) = seqZ 1 n ∧
    ids results = seqZ 1 n.
Proof.
  intros Hinit Hfair.
  assert (workers m = [ThreadWorker 1]) as Hws.
  { by injection Hinit as <-. }
  destruct (run_from_fresh n m) as
    (fuel & results & r & m3 & m4 & Htry & Hrun & -> & Hf & Hq & _ & Ho &
     Hids & _).
  { by apply (constructors_fresh SingleProcess "single_process" 1). }
  { by rewrite Hws. }
  { by rewrite Hws. }
  specialize (Ho ltac:(by rewrite Hws)).
  unfold in_order in Ho. rewrite Hf, Hq in Ho. simpl in Ho.
  rewrite app_nil_r in Ho.
  exists fuel, (arrived m4), r, m3, m4. split_and!; try done; congruence.
Qed.

(** ** A pool without workers *)

Lemma run_tick_no_workers (m : Master) (tk : tick) :
  workers m = [] → run_tick m tk = m.
Proof. intros Hw. unfold run_tick. by rewrite Hw. Qed.

Lemma yield_no_workers (m : Master) :
  workers m = [] → yield m = set_now m (S (now m)).
Proof.
  intros Hw. unfold yield.
  assert (∀ tks, foldl run_tick m tks = m) as ->; [|done].
  induction tks as [|tk tks IH]; simpl; [done|].
  by rewrite run_tick_no_workers.
Qed.

Lemma for_each_submit_no_workers {A} (mk : nat → A → Task) (l : list A)
    (m : Master) :
  workers m = [] → pending (result_queue m) = [] →
  ∃ m', for_each l (λ i, t ← gets now; submit_task (mk t i)) m = (inr tt, m') ∧
        workers m' = [] ∧ pending (result_queue m') = [].
Proof.
  revert m. induction l as [|x l IH]; intros m Hw Hrq; simpl.
  - by exists m.
  - rewrite bind_run. cbv beta. rewrite bind_run, gets_run. cbv beta iota.
    rewrite submit_task_eq. rewrite yield_no_workers by done.
    by apply IH.
Qed.

Lemma wait_loop_no_workers (fuel : nat) (start_time : Q) (acc : list Task)
    (m : Master) :
  workers m = [] → pending (result_queue m) = [] →
  tasks_completed m < tasks_submitted m →
  wait_loop fuel (1 # 2) None start_time acc m = None.
Proof.
  revert acc m. induction fuel as [|fuel IH]; intros acc m Hw Hrq Hc; [done|].
  rewrite wait_loop_step by done. unfold wait_round.
  rewrite collect_results_idle by done. cbn [snd].
  rewrite yield_no_workers by done. by apply IH.
Qed.

(** With an empty pool and at least one task, [run_benchmark] never
    returns, whatever the schedule: nobody serves the task queue and the
    wait has no timeout. *)
Lemma empty_pool_hangs (fuel : nat) (n : Z) (m : Master) :
  fresh m → workers m = [] → 0 < n → run_benchmark fuel n m = None.
Proof.
  intros (_ & _ & _ & Hrq & _ & Hsub & Hcomp) Hw Hn.
  unfold run_benchmark, run_benchmark_try.
  unfold start_workers. rewrite bind_run, gets_run. cbv beta iota.
  rewrite Hw. simpl for_each. rewrite bind_run, ret_run, modify_run.
  cbv beta iota.
  destruct (generate_workload_counts n (set_running m true))
    as (m2 & Hgen & Hsub2 & Hcomp2).
  rewrite Hgen.
  assert (workers m2 = [] ∧ pending (result_queue m2) = []) as [Hw2 Hrq2].
  { unfold generate_workload in Hgen.
    rewrite bind_run, modify_run in Hgen. cbv beta iota in Hgen.
    rewrite bind_run in Hgen.
    destruct (for_each_submit_no_workers
                (λ t i, generate_random_task (rng t) (i + 1)) (seqZ 0 n)
                (set_perf_start (set_running m true)
                   (Some (clock (now (set_running m true))))))
      as (m' & Hrun & Hw' & Hrq'); [done|done|].
    rewrite Hrun, gets_run in Hgen. by injection Hgen as _ <-. }
  unfold wait_for_completion.
  rewrite wait_loop_no_workers; [done|done|done|].
  simpl in Hsub2, Hcomp2. lia.
Qed.


(** C1 (as amended): on a new master of any of the three backends the
    pool is not empty exactly for the sequential backend and, for the
    other two, for a worker count of at least 1.  With a pool that is not
    empty, under a schedule that activates every worker again and again,
    [run_benchmark n] returns: the list returned by [wait_for_completion]
    holds each of the tasks 1..n exactly once (none lost, none
    duplicated), so it has length [n], and afterwards
    [tasks_completed = tasks_submitted = n] (for [n < 0] nothing is
    submitted and all of these are 0).  With an empty pool and [n >= 1]
    the call never returns, whatever the schedule: no amount of fuel
    gives a result. *)
Theorem run_benchmark_completes (b : backend) (nm : string) (k n : Z)
    (m : Master) :
  subclass_init b nm k = inr m →
  (workers m ≠ [] ↔ b = SingleProcess ∨ 0 < k) ∧
  (workers m ≠ [] → fair (length (workers m)) →
   ∃ fuel results r m3 m4,
     run_benchmark_try fuel n m = Some (inr (results, r), m3) ∧
     run_benchmark fuel n m = Some (inr r, m4) ∧
     ids results ≡ₚ seqZ 1 n ∧ NoDup (ids results) ∧
     length results = Z.to_nat n ∧
     tasks_completed m4 = Z.max 0 n ∧ tasks_submitted m4 = Z.max 0 n) ∧
  (workers m = [] → 0 < n → ∀ fuel, run_benchmark fuel n m = None).
Proof.
  intros Hinit. split_and!.
  - revert Hinit.
    unfold subclass_init, Master_init, create_queues, create_workers.
    destruct b; try done; intros [= <-]; simpl.
    + split; [by left|done].
    + split.
      * intros Hne. right. destruct (decide (0 < k)) as [|Hk]; [done|].
        rewrite seqZ_nil in Hne by lia. done.
      * intros [|Hk]; [done|]. intros Hnil.
        apply (f_equal length) in Hnil.
        rewrite length_fmap, length_seqZ in Hnil. simpl in Hnil. lia.
    + split.
      * intros Hne. right. destruct (decide (0 < k)) as [|Hk]; [done|].
        rewrite seqZ_nil in Hne by lia. done.
      * intros [|Hk]; [done|]. intros Hnil.
        apply (f_equal length) in Hnil.
        rewrite length_fmap, length_seqZ in Hnil. simpl in Hnil. lia.
  - intros Hpool Hfair.
    destruct (run_from_fresh n m (constructors_fresh _ _ _ _ Hinit) Hpool
                Hfair)
      as (fuel & results & r & m3 & m4 & Htry & Hrun & -> & Hf & Hq & Hc & _ &
          Hids & Hsub & Hcomp & _).
    unfold conserved in Hc. rewrite Hf, Hq, Hids in Hc. simpl in Hc.
    rewrite app_nil_r in Hc.
    exists fuel, (arrived m4), r, m3, m4. split_and!; try done.
    + rewrite Hc. apply NoDup_seqZ.
    + apply Permutation_length in Hc. unfold ids in Hc.
      by rewrite length_fmap, length_seqZ in Hc.
  - intros Hpool Hn fuel. apply empty_pool_hangs; [|done|done].
    by eapply constructors_fresh.
Qed.
(** ** The overall timeout of [wait_for_completion] *)

Lemma wait_loop_zero_timeout (d : positive) (fuel : nat) (interval : Q)
    (start_time : Q) (acc : list Task) (m : Master) :
  wait_loop fuel interval (Some (0 # d)%Q) start_time acc m
    = wait_loop fuel interval None start_time acc m.
Proof.
  revert acc m. induction fuel as [|fuel IH]; intros acc m; [done|].
  cbn [wait_loop]. destruct (tasks_completed m <? tasks_submitted m); [|done].
  change (timed_out (Some (0 # d)%Q) start_time (clock (now m))) with false.
  cbn [timed_out].
  destruct (collect_results _ m) as [[e|rs] m1]; [done|].
  destruct (sleep interval m1) as [[e|[]] m2]; [done|]. apply IH.
Qed.

(** X4: a timeout of zero is no timeout.  The test [if timeout and ...]
    treats 0 like [None], so [wait_for_completion(timeout=0)] waits exactly
    as the call without a timeout does. *)
Theorem wait_for_completion_zero_timeout (d : positive) (fuel : nat)
    (interval : Q) (m : Master) :
  wait_for_completion fuel interval (Some (0 # d)%Q) m
    = wait_for_completion fuel interval None m.
Proof.
  unfold wait_for_completion. by rewrite wait_loop_zero_timeout.
Qed.

Lemma collect_flags (timeout : option Q) (m : Master) :
  same_flags m (collect_results timeout m).2.
Proof.
  destruct (collect_keeps timeout m) as (_ & _ & _ & _ & ? & ?). by split.
Qed.

Lemma sleep_nonneg (seconds : Q) (m : Master) :
  (0 <= seconds)%Q → sleep seconds m = (inr tt, yield m).
Proof.
  intros Hs. rewrite sleep_run.
  by replace (Qle_bool 0 seconds) with true
    by (symmetry; by apply Qle_bool_iff).
Qed.

Lemma wait_loop_deadline (interval t : Q) (start_time : Q) (d : nat)
    (m : Master) (acc : list Task) :
  (0 <= interval)%Q →
  timed_out (Some t) start_time (clock (now m + d)) = true →
  ∃ res mw,
    wait_loop (S d) interval (Some t) start_time acc m
      = Some (inr res, mw) ∧
    same_flags m mw ∧ tasks_submitted mw = tasks_submitted m ∧
    (gathered acc m → gathered res mw).
Proof.
  intros Hint. revert m acc. induction d as [|d IH]; intros m acc Hout.
  - rewrite Nat.add_0_r in Hout. cbn [wait_loop]. rewrite Hout.
    destruct (tasks_completed m <? tasks_submitted m);
      exists acc, m; by split_and!.
  - cbn [wait_loop].
    destruct (tasks_completed m <? tasks_submitted m);
      [|exists acc, m; by split_and!].
    destruct (timed_out (Some t) start_time (clock (now m)));
      [exists acc, m; by split_and!|].
    destruct (collect_effect (Some (1 # 2)%Q) m)
      as (batch & m1 & Hc & _ & _ & Hnow & Hr & Hp & Ha & Hs & _ & Hi & _).
    rewrite Hc, sleep_nonneg by done.
    destruct (IH (yield m1) (acc ++ batch)) as (res & mw & Hw & Hf & Hsub & Hg).
    { rewrite yield_now, Hnow.
      by replace (S (now m) + d)%nat with (now m + S d)%nat by lia. }
    exists res, mw. split; [exact Hw|].
    destruct (yield_flags m1) as [Hr' Hp']. destruct Hf as [Hr'' Hp''].
    destruct (calm_counters _ _ (yield_calm m1)) as (Hs' & _).
    split_and!.
    + split; congruence.
    + congruence.
    + intros Hacc. apply Hg.
      eapply stable_calm; [apply gathered_stable | apply yield_calm |].
      unfold gathered in *. by rewrite Ha, <- Hacc, Hi, app_assoc.
Qed.

(** X5: with an overall timeout and a check interval that is not
    negative, the wait always ends, whether or not any worker makes
    progress, as soon as the clock has passed the deadline: if the
    reading after [k] rounds exceeds the timeout, [k + 1] rounds of fuel
    suffice.  The call then returns the results collected (given that
    [generate_workload] has started the performance monitor) and raises
    nothing; what it returns is what was taken from the result queue, in
    arrival order, and [tasks_submitted] is unchanged: the tasks left are
    abandoned, not retried. *)
Theorem wait_for_completion_times_out (t interval : Q) (k : nat)
    (m : Master) :
  (0 <= interval)%Q →
  timed_out (Some t) (clock (now m)) (clock (now m + k)) = true →
  is_Some (perf_start m) →
  ∃ results m',
    wait_for_completion (S k) interval (Some t) m = Some (inr results, m') ∧
    tasks_submitted m' = tasks_submitted m ∧
    (gathered [] m → gathered results m').
Proof.
  intros Hint Hout [s Hperf]. unfold wait_for_completion.
  destruct (wait_loop_deadline interval t (clock (now m)) k m [] Hint Hout)
    as (res & mw & -> & [_ Hp] & Hsub & Hg).
  destruct (collect_effect (Some (1 # 2)%Q) mw)
    as (batch & m2 & Hc & _ & _ & _ & _ & Hp2 & Ha & Hs2 & _ & Hi & _).
  rewrite bind_run, Hc, bind_run. unfold performance_stop.
  rewrite Hp2, Hp, Hperf, ret_run.
  eexists _, _. split; [reflexivity|]. simpl. split; [congruence|].
  intros Hacc. specialize (Hg Hacc). unfold gathered in *.
  change (arrived (set_perf_end m2 (Some (clock (now m2))))) with (arrived m2).
  by rewrite Ha, <- Hg, Hi, app_assoc.
Qed.

(** The only error of the loop is that of [time.sleep]. *)
Lemma wait_loop_error (fuel : nat) (interval : Q) (timeout : option Q)
    (start_time : Q) (acc : list Task) (m : Master) (e : exn)
    (m' : Master) :
  wait_loop fuel interval timeout start_time acc m = Some (inl e, m') →
  e = ValueError "sleep length must be non-negative" ∧ ¬ (0 <= interval)%Q.
Proof.
  revert acc m. induction fuel as [|fuel IH]; intros acc m;
    cbn [wait_loop]; [done|].
  destruct (tasks_completed m <? tasks_submitted m); [|done].
  destruct (timed_out _ _ _); [done|].
  destruct (collect_effect (Some (1 # 2)%Q) m) as (batch & m1 & -> & _).
  rewrite sleep_run. destruct (Qle_bool 0 interval) eqn:Hint; [apply IH|].
  intros [= <- <-]. split; [done|].
  intros Hle. apply Qle_bool_iff in Hle. congruence.
Qed.

(** X6: [wait_for_completion] on a master whose performance monitor was
    never started (no [generate_workload] before) cannot return a list.
    With a check interval that is not negative, when the wait ends
    [PerformanceMonitor.stop] subtracts [None] and the call raises
    [TypeError], after the results were drained.  (With a negative
    interval the error is that one or, when a round of the loop is
    entered, the [ValueError] of [time.sleep].) *)
Theorem wait_for_completion_needs_workload (fuel : nat) (interval : Q)
    (timeout : option Q) (m : Master) (out : exn + list Task) (m' : Master) :
  perf_start m = None →
  wait_for_completion fuel interval timeout m = Some (out, m') →
  ∃ e, out = inl e ∧
       ((0 <= interval)%Q → exn_class e = "TypeError") ∧
       (exn_class e = "TypeError" ∨
        (exn_class e = "ValueError" ∧ ¬ (0 <= interval)%Q)) ∧
       tasks_submitted m' = tasks_submitted m ∧
       tasks_completed m ≤ tasks_completed m'.
Proof.
  intros Hperf. unfold wait_for_completion.
  destruct (wait_loop _ _ _ _ _ _) as [[res mw]|] eqn:Hw; [|done].
  pose proof (wait_loop_frames same_flags) as Hf.
  specialize (Hf ltac:(done) ltac:(by intros a b c [? ?] [? ?]; split; congruence)
                 ltac:(done) ltac:(done) ltac:(done) ltac:(done) ltac:(done)
                 _ _ _ _ _ _ _ _ Hw).
  pose proof (wait_loop_frames same_submitted) as Hsub.
  specialize (Hsub ltac:(frame_side) ltac:(frame_side) ltac:(frame_side)
                   ltac:(frame_side) ltac:(frame_side) ltac:(frame_side)
                   ltac:(frame_side) _ _ _ _ _ _ _ _ Hw).
  destruct Hf as [_ Hp]. destruct Hsub as [Hs Hc].
  destruct res as [e|acc].
  - destruct (wait_loop_error _ _ _ _ _ _ _ _ Hw) as [-> Hneg].
    intros [= <- <-]. eexists. split; [reflexivity|].
    split_and!; [done|by right|done|lia].
  - destruct (collect_effect (Some (1 # 2)%Q) mw)
      as (batch & m2 & Hcol & _ & _ & _ & _ & Hp2 & _ & Hs2 & Hc2 & _).
    rewrite bind_run, Hcol, bind_run. unfold performance_stop.
    rewrite Hp2, Hp, Hperf. intros [= <- <-].
    eexists. split; [reflexivity|]. simpl.
    split_and!; [done|by left|lia|lia].
Qed.

(** ** Draining a healthy queue *)

(** X7: when the result queue holds only items (no pending exception) and,
    for a [queue.Queue], its count of unfinished tasks covers them, one
    call of [collect_results] takes them all, in order, leaves the queue
    empty and adds their number to [tasks_completed]. *)
Theorem collect_results_drains (timeout : option Q) (m : Master)
    (l : list Task) :
  pending (result_queue m) = inr <$> l →
  (joinable (result_queue m) = true →
   (length l ≤ unfinished_tasks (result_queue m))%nat) →
  ∃ m', collect_results timeout m = (inr l, m') ∧
        pending (result_queue m') = [] ∧
        tasks_completed m' = tasks_completed m + Z.of_nat (length l) ∧
        history (result_queue m') = history (result_queue m).
Proof.
  intros Hp Hunf.
  destruct (collect_results_spec timeout m)
    as (batch & rq' & rest & Hc & Hp' & Hend & Hh & _).
  rewrite Hp in Hp'.
  assert (batch = l ∧ rest = [] ∧ pending rq' = []) as (-> & -> & Hq).
  { destruct Hend as [[-> Hq]|[[e ->]|(Hj & Hq & Hlen)]].
    - rewrite app_nil_r in Hp'. split; [|done].
      symmetry. eapply (inj (fmap inr)). exact Hp'.
    - exfalso.
      assert (inl e ∈ ((inr <$> l) : list (exn + Task))) as Hin.
      { rewrite Hp'. apply elem_of_app. right. by left. }
      apply list_elem_of_fmap in Hin as (x & Hx & _). done.
    - exfalso. specialize (Hunf Hj).
      apply (f_equal length) in Hp'.
      rewrite length_app, !length_fmap in Hp'. lia. }
  exists (collected m l rq'). by split_and!.
Qed.

(** ** A run under any schedule *)

Lemma stop_workers_started (m : Master) :
  running m = true → pool_started m → pool_started (stop_workers m).2.
Proof.
  intros Hrun Hwf.
  unfold stop_workers. rewrite bind_run, gets_run. cbv beta iota.
  rewrite Hrun. change (negb true) with false. cbv iota.
  rewrite bind_run, gets_run. cbv beta iota. rewrite bind_run.
  destruct (send_pills_spec (seq 0 (length (workers m))) m)
    as (m1 & -> & Hr1 & Hh1 & Hl1 & Hs1 & Hc1).
  rewrite bind_run.
  destruct (join_all_spec (seq 0 (length (workers m))) m1)
    as (m2 & -> & (Hr2 & Hh2 & Hl2 & Hs2) & Hc2); [auto|].
  rewrite modify_run. unfold pool_started in *. simpl. auto.
Qed.

(** What a run on a new master has done if it returns, whatever the
    schedule and the pool. *)
Lemma run_from_fresh_safe (fuel : nat) (n : Z) (m : Master)
    (out : exn + BenchmarkResult) (m4 : Master) :
  fresh m → run_benchmark fuel n m = Some (out, m4) →
  ∃ results r m3,
    run_benchmark_try fuel n m = Some (inr (results, r), m3) ∧
    out = inr r ∧ num_tasks r = n ∧
    results = arrived m4 ∧ flight m4 = [] ∧ queued m4 = [] ∧
    items (result_queue m4) = [] ∧
    conserved m4 ∧ (length (workers m) = 1%nat → in_order m4) ∧
    ids (submitted_tasks m4) = seqZ 1 n ∧
    tasks_submitted m4 = Z.max 0 n ∧ tasks_completed m4 = Z.max 0 n ∧
    running m4 = false ∧ pool_started m4 ∧
    length (workers m4) = length (workers m) ∧
    submitted_tasks m4 = submitted_tasks m3 ∧
    ∃ m1, start_workers m = (inr tt, m1) ∧
          submitted_tasks m1 = [] ∧
          submitted_tasks m3 = submitted_tasks (generate_workload n m1).2.
Proof.
  intros Hfresh Hrun.
  destruct (start_workers_fresh m Hfresh)
    as (m1 & Hstart & Hs1 & Hr1 & Htq1 & Hhtq1 & Hrq1 & Hhrq1 & Hsub1 &
        Hcomp1 & Hl1 & Hf1).
  pose proof (serving_waiting m1 Hs1 Htq1 Hrq1 Hhrq1 Hhtq1 Hsub1 Hcomp1 Hf1)
    as Hsound1.
  destruct (generate_workload_spec n [] m1 Hsound1 Hs1)
    as (m2 & Hgen & Hsound2 & Hs2 & Hr2 & Hp2 & Hl2 & Hids2).
  destruct (generate_workload_counts n m1) as (m2' & Hgen' & Hsub2 & _).
  rewrite Hgen in Hgen'. injection Hgen' as _ <-.
  destruct (wait_loop fuel (1 # 2) None (clock (now m2)) [] m2)
    as [[[e|res] mw]|] eqn:Hw.
  1:{ by destruct (wait_loop_error _ _ _ _ _ _ _ _ Hw) as [_ []]. }
  2:{ unfold run_benchmark, run_benchmark_try in Hrun.
      rewrite Hstart, Hgen in Hrun. unfold wait_for_completion in Hrun.
      by rewrite Hw in Hrun. }
  destruct (wait_for_completion_spec fuel m2 res mw Hw Hsound2 Hs2 Hp2)
    as (results & m3 & Hwait & Hsound3 & Hs3 & Hr3 & Hdone3 & Hsub3 & Hst3
        & Hl3).
  destruct (benchmark_statistics_defined (name m3) (num_workers m3) n
              (clock (now m1)) (clock (now m3)) (memory (now m3)) results)
    as (avg & byt & Hstats).
  destruct (stop_workers_running m3) as (m4' & Hstop & Hr4 & _ & Hl4 & Hcalm).
  { congruence. } { by apply serving_pool_started. }
  pose proof (stop_workers_started m3 ltac:(congruence)
                (serving_pool_started m3 Hs3)) as Hstarted.
  rewrite Hstop in Hstarted. cbn [snd] in Hstarted.
  assert (run_benchmark_try fuel n m
          = Some (inr (results, mkBenchmarkResult (name m3) (num_workers m3) n
                          (clock (now m3) - clock (now m1))%Q
                          (if Qlt_le_dec 0 (clock (now m3) - clock (now m1))
                           then (inject_Z n
                                 / (clock (now m3) - clock (now m1)))%Q
                           else 0%Q)
                          avg byt (memory (now m3))), m3)) as Htry.
  { unfold run_benchmark_try. by rewrite Hstart, Hgen, Hwait, Hstats. }
  unfold run_benchmark in Hrun. rewrite Htry, Hstop in Hrun.
  injection Hrun as <- <-.
  eexists results, _, m3. split; [exact Htry|]. split; [reflexivity|].
  split; [reflexivity|].
  pose proof (stable_calm _ _ _ (sound_stable results) Hcalm Hsound3)
    as (Hb4 & Hc4 & Hg4 & Ho4).
  destruct (calm_counters _ _ Hcalm) as (Hsub4 & Hcomp4 & Hst4 & _).
  assert (length (items (result_queue m4')) + length (flight m4')
          + length (queued m4') = 0)%nat as Hzero.
  { unfold balanced in Hb4. lia. }
  assert (items (result_queue m4') = [] ∧ flight m4' = [] ∧ queued m4' = [])
    as (Hi4 & Hf4 & Hq4).
  { destruct (items (result_queue m4')), (flight m4'), (queued m4');
      simpl in Hzero; try lia. done. }
  unfold gathered in Hg4. rewrite Hi4, app_nil_r in Hg4.
  split_and!; try done.
  - intros Hone. apply Ho4. congruence.
  - rewrite Hst4, Hst3, Hids2. unfold submitted_tasks. by rewrite Hhtq1.
  - lia.
  - unfold balanced in Hb4. rewrite Hi4, Hf4, Hq4 in Hb4. simpl in Hb4. lia.
  - congruence.
  - exists m1. split; [done|]. split.
    + unfold submitted_tasks. by rewrite Hhtq1.
    + by rewrite Hgen.
Qed.

(** X8: safety of a run for every interleaving.  On a new master of any
    backend, under any schedule (fair or not), with any pool and any
    fuel: if [run_benchmark n] returns at all, it returns a result record
    and raises nothing, every task 1..n has arrived on the result queue
    exactly once, nothing is left in a queue or in a worker's hands, both
    counters are [max 0 n] and the master is stopped.  With a pool of one
    the tasks arrived in the order 1, 2, ..., n. *)
Theorem run_benchmark_safe (b : backend) (nm : string) (k n : Z)
    (m : Master) (fuel : nat) (out : exn + BenchmarkResult) (m' : Master) :
  subclass_init b nm k = inr m →
  run_benchmark fuel n m = Some (out, m') →
  ∃ r, out = inr r ∧ num_tasks r = n ∧
       ids (arrived m') ≡ₚ seqZ 1 n ∧
       (length (workers m) = 1%nat → ids (arrived m') = seqZ 1 n) ∧
       flight m' = [] ∧ queued m' = [] ∧ items (result_queue m') = [] ∧
       tasks_submitted m' = Z.max 0 n ∧ tasks_completed m' = Z.max 0 n ∧
       running m' = false.
Proof.
  intros Hinit Hrun.
  destruct (run_from_fresh_safe fuel n m out m' (constructors_fresh _ _ _ _ Hinit)
              Hrun)
    as (results & r & m3 & Htry & -> & Hn & Hres & Hf & Hq & Hi & Hc & Ho &
        Hids & Hsub & Hcomp & Hoff & _).
  exists r. split; [done|]. split; [done|].
  assert (ids (arrived m') ≡ₚ seqZ 1 n) as Hperm.
  { unfold conserved in Hc. rewrite Hf, Hq, Hids in Hc. simpl in Hc.
    by rewrite app_nil_r in Hc. }
  split_and!; try done.
  - intros Hone. specialize (Ho Hone). unfold in_order in Ho.
    rewrite Hf, Hq in Ho. simpl in Ho. rewrite app_nil_r in Ho. congruence.
Qed.

Lemma start_workers_again (m : Master) (w : Worker) :
  workers m !! 0%nat = Some w → started w →
  start_workers m = (inl (started_twice w), m).
Proof.
  intros Hw Hs. unfold start_workers. rewrite bind_run, gets_run.
  cbv beta iota.
  destruct (workers m) as [|w0 ws] eqn:Hws; [done|].
  injection Hw as ->.
  cbn [length seq for_each]. rewrite !bind_run.
  unfold start_worker at 1. rewrite bind_run, gets_run. cbv beta iota.
  rewrite Hws. cbn [lookup list_lookup]. unfold started in Hs.
  destruct (pc w); done.
Qed.

(** ** The benchmark session *)

Lemma fresh_set_now (m : Master) (t : nat) : fresh m → fresh (set_now m t).
Proof. done. Qed.

Lemma subclass_init_labels (b : backend) (nm : string) (k : Z) (m : Master) :
  subclass_init b nm k = inr m → name m = nm ∧ num_workers m = k.
Proof.
  unfold subclass_init, Master_init, create_queues, create_workers.
  destruct b; try done; by intros [= <-].
Qed.

Lemma subclass_init_pool (b : backend) (nm : string) (k : Z) (m : Master) :
  subclass_init b nm k = inr m → b ≠ SingleProcess →
  length (workers m) = Z.to_nat k.
Proof.
  unfold subclass_init, Master_init, create_queues, create_workers.
  destruct b; try done; intros [= <-] _; simpl;
    by rewrite length_fmap, length_seqZ.
Qed.

Lemma subclass_init_defined (b : backend) (nm : string) (k : Z) :
  b ≠ Base → ∃ m, subclass_init b nm k = inr m.
Proof. destruct b; try done; intros _; by eexists. Qed.

(** The record of a run names the master, its worker count and the
    number of tasks asked for. *)
Lemma run_benchmark_labels (fuel : nat) (n : Z) (m : Master)
    (r : BenchmarkResult) (m' : Master) :
  run_benchmark fuel n m = Some (inr r, m') →
  master_type r = name m ∧ res_num_workers r = num_workers m ∧
  num_tasks r = n.
Proof.
  unfold run_benchmark.
  destruct (run_benchmark_try fuel n m) as [[r1 m1]|] eqn:Ht; [|done].
  destruct (stop_workers m1) as [[e|[]] m2]; [done|].
  destruct r1 as [e|[results r1]]; [done|]. intros [= -> _].
  pose proof (run_benchmark_try_frames
                (λ m m', name m' = name m ∧ num_workers m' = num_workers m))
    as Hframe.
  destruct (Hframe ltac:(done)
              ltac:(by intros a b c [? ?] [? ?]; split; congruence)
              ltac:(done) ltac:(done) ltac:(done) ltac:(done) ltac:(done)
              ltac:(done) ltac:(done) ltac:(done) ltac:(done)
              _ _ _ _ _ Ht) as [Hname Hnum].
  unfold run_benchmark_try in Ht.
  destruct (start_workers m) as [[e|[]] ma]; [done|].
  destruct (generate_workload n ma) as [[e|k] mb]; [done|].
  destruct (wait_for_completion _ _ _ mb) as [[[e|rs] mc]|]; [done| |done].
  destruct (benchmark_statistics_defined (name mc) (num_workers mc) n
              (clock (now ma)) (clock (now mc)) (memory (now mc)) rs)
    as (avg & byt & Hstats).
  rewrite Hstats in Ht. injection Ht as _ <- <-. simpl. by rewrite Hname, Hnum.
Qed.

(** A configuration never raises: its run either does not return or gives
    a record with the labels of the configuration. *)
Lemma run_config_safe (fuel : nat) (b : backend) (nm : string) (k n : Z)
    (t : nat) (out : exn + BenchmarkResult) (t' : nat) :
  b ≠ Base →
  run_config fuel (subclass_init b nm k) n t = Some (out, t') →
  ∃ r, out = inr r ∧ master_type r = nm ∧ res_num_workers r = k ∧
       num_tasks r = n.
Proof.
  intros Hb. destruct (subclass_init_defined b nm k Hb) as [m Hm].
  rewrite Hm. unfold run_config.
  destruct (run_benchmark fuel n (set_now m t)) as [[out' m']|] eqn:Hrun;
    [|done].
  intros [= -> <-].
  destruct (run_from_fresh_safe fuel n (set_now m t) out m'
              (fresh_set_now m t (constructors_fresh _ _ _ _ Hm)) Hrun)
    as (_ & r & _ & _ & -> & _).
  destruct (run_benchmark_labels _ _ _ _ _ Hrun) as (Hname & Hnum & Hn).
  destruct (subclass_init_labels _ _ _ _ Hm) as [<- <-].
  exists r. by split_and!.
Qed.

Lemma run_config_empty_pool (fuel : nat) (b : backend) (nm : string)
    (k n : Z) (t : nat) :
  b = Threaded ∨ b = Multiprocess → k ≤ 0 → 0 < n →
  run_config fuel (subclass_init b nm k) n t = None.
Proof.
  intros Hb Hk Hn.
  destruct (subclass_init_defined b nm k) as [m Hm];
    [by destruct Hb as [-> | ->]|].
  rewrite Hm. unfold run_config.
  rewrite empty_pool_hangs; [done| |  |done].
  - apply fresh_set_now. by eapply constructors_fresh.
  - apply nil_length_inv. change (length (workers m) = 0%nat).
    rewrite (subclass_init_pool _ _ _ _ Hm) by (by destruct Hb as [-> | ->]).
    lia.
Qed.

Lemma worker_count_loop_hangs (fuel : nat) (n : Z) (worker_counts : list Z)
    (results : Results) (t : nat) (c : Z) :
  c ∈ worker_counts → c ≤ 0 → 0 < n →
  worker_count_loop fuel n worker_counts results t = None.
Proof.
  intros Hin Hc Hn. revert results t.
  induction worker_counts as [|c0 rest IH]; intros results t;
    [by apply elem_of_nil in Hin|].
  cbn [worker_count_loop].
  destruct (decide (c0 ≤ 0)) as [Hc0|Hc0].
  { unfold ThreadedMaster. rewrite run_config_empty_pool by auto. done. }
  apply elem_of_cons in Hin as [->|Hin]; [done|].
  destruct (run_config fuel (ThreadedMaster c0) n t) as [[out1 t1]|] eqn:H1;
    [|done].
  destruct (run_config_safe _ Threaded "threaded" _ _ _ _ _ ltac:(done) H1)
    as (r1 & -> & _).
  destruct (run_config fuel (MultiprocessMaster c0) n t1) as [[out2 t2]|]
    eqn:H2; [|done].
  destruct (run_config_safe _ Multiprocess "multiprocess" _ _ _ _ _
              ltac:(done) H2) as (r2 & -> & _).
  by apply IH.
Qed.

(** X12: the benchmark session hangs on a worker count that is not
    positive.  If some worker count is 0 or negative and the first task
    count is positive, [run_comprehensive_benchmark] never returns,
    whatever the schedule, the clock and the workloads: no configuration
    before the bad one raises, and [ThreadedMaster] with an empty pool
    waits for ever.  With the default arguments this is the case on a
    host with a single CPU, where [cpu_count // 2] is 0. *)
Theorem comprehensive_benchmark_hangs (save_results : Results → option exn)
    (fuel : nat) (os_cpu_count : option Z)
    (task_counts worker_counts : option (list Z)) (t : nat)
    (n : Z) (rest : list Z) (c : Z) :
  default default_task_counts task_counts = n :: rest → 0 < n →
  c ∈ default (default_worker_counts os_cpu_count) worker_counts → c ≤ 0 →
  run_comprehensive_benchmark save_results fuel os_cpu_count task_counts
    worker_counts t = None.
Proof.
  intros Htc Hn Hin Hc. unfold run_comprehensive_benchmark.
  rewrite Htc. cbn [task_count_loop].
  destruct (run_config fuel (SingleProcessMaster 1) n t) as [[out1 t1]|]
    eqn:H1; [|done].
  destruct (run_config_safe _ SingleProcess "single_process" _ _ _ _ _
              ltac:(done) H1) as (r1 & -> & _).
  by rewrite (worker_count_loop_hangs _ _ _ _ _ c).
Qed.

Lemma worker_count_loop_shape (fuel : nat) (n : Z) (worker_counts : list Z)
    (results : Results) (t : nat) (out : exn + Results) (t' : nat) :
  worker_count_loop fuel n worker_counts results t = Some (out, t') →
  ∃ results', out = inr results' ∧
    single results' = single results ∧
    label <$> threaded results'
      = (label <$> threaded results)
          ++ ((λ c, ("threaded", c, n)) <$> worker_counts) ∧
    label <$> multiprocess results'
      = (label <$> multiprocess results)
          ++ ((λ c, ("multiprocess", c, n)) <$> worker_counts).
Proof.
  revert results t. induction worker_counts as [|c rest IH];
    intros results t; cbn [worker_count_loop].
  - intros [= <- <-]. exists results. by rewrite !fmap_nil, !app_nil_r.
  - destruct (run_config fuel (ThreadedMaster c) n t) as [[out1 t1]|] eqn:H1;
      [|done].
    destruct (run_config_safe _ Threaded "threaded" _ _ _ _ _ ltac:(done) H1)
      as (r1 & -> & Hn1 & Hw1 & Ht1).
    destruct (run_config fuel (MultiprocessMaster c) n t1) as [[out2 t2]|]
      eqn:H2; [|done].
    destruct (run_config_safe _ Multiprocess "multiprocess" _ _ _ _ _
                ltac:(done) H2)
      as (r2 & -> & Hn2 & Hw2 & Ht2).
    intros Hloop. apply IH in Hloop as (results' & -> & Hs & Hth & Hmp).
    exists results'. split; [done|]. cbn [single threaded multiprocess] in *.
    rewrite Hth, Hmp, !fmap_app, !fmap_cons, !fmap_nil, <- !app_assoc.
    assert (label r1 = ("threaded", c, n)) as -> by
      (unfold label; by rewrite Hn1, Hw1, Ht1).
    assert (label r2 = ("multiprocess", c, n)) as -> by
      (unfold label; by rewrite Hn2, Hw2, Ht2).
    by split_and!.
Qed.

Lemma task_count_loop_shape (fuel : nat) (task_counts worker_counts : list Z)
    (results : Results) (t : nat) (out : exn + Results) (t' : nat) :
  task_count_loop fuel task_counts worker_counts results t = Some (out, t') →
  ∃ results', out = inr results' ∧
    label <$> single results'
      = (label <$> single results)
          ++ ((λ n, ("single_process", 1, n)) <$> task_counts) ∧
    label <$> threaded results'
      = (label <$> threaded results)
          ++ (task_counts ≫=
                λ n, (λ c, ("threaded", c, n)) <$> worker_counts) ∧
    label <$> multiprocess results'
      = (label <$> multiprocess results)
          ++ (task_counts ≫=
                λ n, (λ c, ("multiprocess", c, n)) <$> worker_counts).
Proof.
  revert results t. induction task_counts as [|n rest IH];
    intros results t; cbn [task_count_loop].
  - intros [= <- <-]. exists results.
    by rewrite !app_nil_r.
  - destruct (run_config fuel (SingleProcessMaster 1) n t) as [[out1 t1]|]
      eqn:H1; [|done].
    destruct (run_config_safe _ SingleProcess "single_process" _ _ _ _ _
                ltac:(done) H1)
      as (r1 & -> & Hn1 & Hw1 & Ht1).
    destruct (worker_count_loop _ _ _ _ _) as [[out2 t2]|] eqn:H2; [|done].
    apply worker_count_loop_shape in H2 as (results2 & -> & Hs2 & Hth2 & Hmp2).
    intros Hloop. apply IH in Hloop as (results' & -> & Hs & Hth & Hmp).
    exists results'. split; [done|]. cbn [single threaded multiprocess] in *.
    rewrite Hs, Hth, Hmp, Hs2, Hth2, Hmp2, !bind_cons, !fmap_app, !fmap_cons,
      !fmap_nil, <- !app_assoc.
    assert (label r1 = ("single_process", 1, n)) as -> by
      (unfold label; by rewrite Hn1, Hw1, Ht1).
    by split_and!.
Qed.

(** X13: what a benchmark session returns.  Whatever the schedule, if
    [run_comprehensive_benchmark] ends, no run of its loops has raised:
    the loops have filled the three lists with one record per
    configuration in the order of the loops, one sequential record per
    task count, always with one worker, and for each task count one
    threaded and one multiprocess record per worker count, labelled with
    the backend, the worker count as given and the task count.  The call
    then returns these lists, unless writing them to the results file
    raises: that exception is the only one the call can raise. *)
Theorem comprehensive_benchmark_shape (save_results : Results → option exn)
    (fuel : nat) (os_cpu_count : option Z)
    (task_counts worker_counts : option (list Z)) (t : nat)
    (out : exn + Results) (t' : nat) :
  run_comprehensive_benchmark save_results fuel os_cpu_count task_counts
    worker_counts t = Some (out, t') →
  ∃ results,
    out = match save_results results with
          | Some e => inl e
          | None => inr results
          end ∧
    label <$> single results
      = (λ n, ("single_process", 1, n))
          <$> default default_task_counts task_counts ∧
    label <$> threaded results
      = default default_task_counts task_counts ≫=
          (λ n, (λ c, ("threaded", c, n))
                  <$> default (default_worker_counts os_cpu_count)
                        worker_counts) ∧
    label <$> multiprocess results
      = default default_task_counts task_counts ≫=
          (λ n, (λ c, ("multiprocess", c, n))
                  <$> default (default_worker_counts os_cpu_count)
                        worker_counts).
Proof.
  unfold run_comprehensive_benchmark.
  destruct (task_count_loop _ _ _ _ _) as [[out0 t0]|] eqn:Hloop; [|done].
  apply task_count_loop_shape in Hloop as (results & -> & Hs & Hth & Hmp).
  intros Hout. exists results. split_and!; try done.
  by destruct (save_results results); injection Hout as <- _.
Qed.

(** More fuel does not change what a run returns. *)
Lemma wait_loop_mono (f f' : nat) (interval : Q) (timeout : option Q)
    (start_time : Q) (acc : list Task) (m : Master)
    (x : (exn + list Task) * Master) :
  (f ≤ f')%nat →
  wait_loop f interval timeout start_time acc m = Some x →
  wait_loop f' interval timeout start_time acc m = Some x.
Proof.
  revert f' acc m. induction f as [|f IH]; intros f' acc m Hle; [done|].
  destruct f' as [|f']; [lia|]. cbn [wait_loop].
  destruct (_ <? _); [|done]. destruct (timed_out _ _ _); [done|].
  destruct (collect_results _ m) as [[e|rs] m1]; [done|].
  destruct (sleep interval m1) as [[e|[]] m2]; [done|]. apply IH. lia.
Qed.

Lemma run_benchmark_mono (f f' : nat) (n : Z) (m : Master)
    (x : (exn + BenchmarkResult) * Master) :
  (f ≤ f')%nat →
  run_benchmark f n m = Some x → run_benchmark f' n m = Some x.
Proof.
  intros Hle. unfold run_benchmark, run_benchmark_try.
  destruct (start_workers m) as [[e|[]] m1]; [done|].
  destruct (generate_workload n m1) as [[e|k] m2]; [done|].
  unfold wait_for_completion.
  destruct (wait_loop f (1 # 2) None _ [] m2) as [x0|] eqn:Hw; [|done].
  by rewrite (wait_loop_mono _ _ _ _ _ _ _ _ Hle Hw).
Qed.

Lemma run_config_mono (f f' : nat) (master : exn + Master) (n : Z) (t : nat)
    (x : (exn + BenchmarkResult) * nat) :
  (f ≤ f')%nat →
  run_config f master n t = Some x → run_config f' master n t = Some x.
Proof.
  intros Hle. unfold run_config. destruct master as [e|m]; [done|].
  destruct (run_benchmark f n (set_now m t)) as [[out m']|] eqn:Hr; [|done].
  by rewrite (run_benchmark_mono _ _ _ _ _ Hle Hr).
Qed.

Lemma worker_count_loop_mono (f f' : nat) (n : Z) (worker_counts : list Z)
    (results : Results) (t : nat) (x : (exn + Results) * nat) :
  (f ≤ f')%nat →
  worker_count_loop f n worker_counts results t = Some x →
  worker_count_loop f' n worker_counts results t = Some x.
Proof.
  intros Hle. revert results t.
  induction worker_counts as [|c rest IH]; intros results t;
    cbn [worker_count_loop]; [done|].
  destruct (run_config f (ThreadedMaster c) n t) as [[[e|r1] t1]|] eqn:H1;
    [| |done]; rewrite (run_config_mono _ _ _ _ _ _ Hle H1); [done|].
  destruct (run_config f (MultiprocessMaster c) n t1) as [[[e|r2] t2]|]
    eqn:H2; [| |done]; rewrite (run_config_mono _ _ _ _ _ _ Hle H2); [done|].
  apply IH.
Qed.

Lemma task_count_loop_mono (f f' : nat) (task_counts worker_counts : list Z)
    (results : Results) (t : nat) (x : (exn + Results) * nat) :
  (f ≤ f')%nat →
  task_count_loop f task_counts worker_counts results t = Some x →
  task_count_loop f' task_counts worker_counts results t = Some x.
Proof.
  intros Hle. revert results t.
  induction task_counts as [|n rest IH]; intros results t;
    cbn [task_count_loop]; [done|].
  destruct (run_config f (SingleProcessMaster 1) n t) as [[[e|r1] t1]|]
    eqn:H1; [| |done]; rewrite (run_config_mono _ _ _ _ _ _ Hle H1); [done|].
  destruct (worker_count_loop f _ _ _ _) as [[[e|r2] t2]|] eqn:H2; [| |done];
    rewrite (worker_count_loop_mono _ _ _ _ _ _ _ Hle H2); [done|].
  apply IH.
Qed.

Lemma fair_le (n n' : nat) : (n ≤ n')%nat → fair n' → fair n.
Proof. intros Hle Hfair i Hi. apply Hfair. lia. Qed.

Lemma run_config_returns (b : backend) (nm : string) (k n : Z) (t : nat)
    (m : Master) :
  subclass_init b nm k = inr m → workers m ≠ [] →
  fair (length (workers m)) →
  ∃ fuel r t', run_config fuel (subclass_init b nm k) n t = Some (inr r, t').
Proof.
  intros Hm Hpool Hfair.
  destruct (run_from_fresh n (set_now m t)
              (fresh_set_now m t (constructors_fresh _ _ _ _ Hm)) Hpool Hfair)
    as (fuel & results & r & m3 & m4 & _ & Hrun & _).
  exists fuel, r, (now m4). rewrite Hm. unfold run_config. by rewrite Hrun.
Qed.

Lemma pool_config_returns (b : backend) (nm : string) (c n : Z) (t : nat) :
  b = Threaded ∨ b = Multiprocess → 0 < c → fair (Z.to_nat c) →
  ∃ fuel r t', run_config fuel (subclass_init b nm c) n t = Some (inr r, t').
Proof.
  intros Hb Hc Hfair.
  destruct (subclass_init_defined b nm c) as [m Hm];
    [by destruct Hb as [-> | ->]|].
  assert (length (workers m) = Z.to_nat c) as Hlen.
  { apply (subclass_init_pool _ _ _ _ Hm). by destruct Hb as [-> | ->]. }
  apply (run_config_returns b nm c n t m Hm).
  - intros Hnil. rewrite Hnil in Hlen. simpl in Hlen. lia.
  - by rewrite Hlen.
Qed.

Lemma worker_count_loop_returns (n : Z) (worker_counts : list Z) :
  (∀ c, c ∈ worker_counts → 0 < c ∧ fair (Z.to_nat c)) →
  ∀ results t, ∃ fuel results' t',
    worker_count_loop fuel n worker_counts results t
      = Some (inr results', t').
Proof.
  induction worker_counts as [|c rest IH]; intros Hall results t.
  - by exists 0%nat, results, t.
  - destruct (Hall c ltac:(left)) as [Hc Hfair].
    destruct (pool_config_returns Threaded "threaded" c n t)
      as (f1 & r1 & t1 & H1); [by left|done|done|].
    destruct (pool_config_returns Multiprocess "multiprocess" c n t1)
      as (f2 & r2 & t2 & H2); [by right|done|done|].
    destruct (IH (λ c' Hc', Hall c' ltac:(by right))
                (mkResults (single results) (threaded results ++ [r1])
                   (multiprocess results ++ [r2])) t2)
      as (f3 & results' & t' & H3).
    exists (Nat.max (Nat.max f1 f2) f3), results', t'.
    cbn [worker_count_loop]. unfold ThreadedMaster, MultiprocessMaster.
    rewrite (run_config_mono f1 (Nat.max (Nat.max f1 f2) f3) _ _ _ _
               ltac:(lia) H1).
    rewrite (run_config_mono f2 (Nat.max (Nat.max f1 f2) f3) _ _ _ _
               ltac:(lia) H2).
    by apply (worker_count_loop_mono f3); [lia|].
Qed.

Lemma task_count_loop_returns (task_counts worker_counts : list Z) :
  fair 1 →
  (∀ c, c ∈ worker_counts → 0 < c ∧ fair (Z.to_nat c)) →
  ∀ results t, ∃ fuel results' t',
    task_count_loop fuel task_counts worker_counts results t
      = Some (inr results', t').
Proof.
  intros Hone Hall.
  induction task_counts as [|n rest IH]; intros results t.
  - by exists 0%nat, results, t.
  - destruct (run_config_returns SingleProcess "single_process" 1 n t
                (mkMaster "single_process" 1 [ThreadWorker 1] (new_queue true)
                   (new_queue true) None None false 0 0 0%nat))
      as (f1 & r1 & t1 & H1); [done|done|done|].
    destruct (worker_count_loop_returns n worker_counts Hall
                (mkResults (single results ++ [r1]) (threaded results)
                   (multiprocess results)) t1)
      as (f2 & results2 & t2 & H2).
    destruct (IH results2 t2) as (f3 & results' & t' & H3).
    exists (Nat.max (Nat.max f1 f2) f3), results', t'.
    cbn [task_count_loop]. unfold SingleProcessMaster.
    rewrite (run_config_mono f1 (Nat.max (Nat.max f1 f2) f3) _ _ _ _
               ltac:(lia) H1).
    rewrite (worker_count_loop_mono f2 (Nat.max (Nat.max f1 f2) f3) _ _ _ _ _
               ltac:(lia) H2).
    by apply (task_count_loop_mono f3); [lia|].
Qed.

(** X14: the benchmark session ends when every worker count is
    positive.  Under a schedule that activates every member of each pool
    again and again, the loops of [run_comprehensive_benchmark] finish
    for every list of task counts and no run raises; the call returns
    the results when the results file could be written and raises the
    exception of the write when it could not. *)
Theorem comprehensive_benchmark_returns (save_results : Results → option exn)
    (os_cpu_count : option Z)
    (task_counts worker_counts : option (list Z)) (t : nat) :
  fair 1 →
  (∀ c, c ∈ default (default_worker_counts os_cpu_count) worker_counts →
        0 < c ∧ fair (Z.to_nat c)) →
  ∃ fuel results t',
    run_comprehensive_benchmark save_results fuel os_cpu_count task_counts
      worker_counts t
      = Some (match save_results results with
              | Some e => inl e
              | None => inr results
              end, t').
Proof.
  intros Hone Hall.
  destruct (task_count_loop_returns (default default_task_counts task_counts)
              (default (default_worker_counts os_cpu_count) worker_counts)
              Hone Hall (mkResults [] [] []) t)
    as (fuel & results & t' & Hloop).
  exists fuel, results, t'. unfold run_comprehensive_benchmark.
  rewrite Hloop. by destruct (save_results results).
Qed.

(** X15: [main] of [benchmark.py] avoids the empty pool.  It replaces
    [cpu_count // 2] by [max(1, cpu_count // 2)], so for every CPU count
    that [os.cpu_count()] can report all its worker counts are positive,
    and under a fair schedule its session does not hang: the loops give
    three sequential records and twelve for each of the two other
    backends, and [main] returns unless writing the results file or
    drawing the plots raises, in which case that exception leaves
    [main]. *)
Theorem benchmark_main_returns (save_results visualize_results
                                  : Results → option exn)
    (os_cpu_count : option Z) (t : nat) :
  (∀ c, os_cpu_count = Some c → 0 ≤ c) →
  fair (Z.to_nat (get_cpu_count os_cpu_count * 2)) →
  ∃ fuel results t',
    benchmark_main save_results visualize_results fuel os_cpu_count t
      = Some (match save_results results with
              | Some e => inl e
              | None => match visualize_results results with
                        | Some e => inl e
                        | None => inr tt
                        end
              end, t') ∧
    label <$> single results
      = [("single_process", 1, 10); ("single_process", 1, 50);
         ("single_process", 1, 100)] ∧
    length (threaded results) = 12%nat ∧
    length (multiprocess results) = 12%nat ∧
    Forall (λ r, 0 < res_num_workers r)
      (threaded results ++ multiprocess results).
Proof.
  intros Hos Hfair.
  assert (1 ≤ get_cpu_count os_cpu_count) as Hcpu.
  { unfold get_cpu_count. destruct os_cpu_count as [c|]; [|done].
    specialize (Hos c eq_refl). destruct (Z.eqb_spec c 0); lia. }
  assert (∀ c, c ∈ [1; 1 `max` (get_cpu_count os_cpu_count `div` 2);
                    get_cpu_count os_cpu_count;
                    get_cpu_count os_cpu_count * 2] →
               0 < c ≤ get_cpu_count os_cpu_count * 2) as Hcounts.
  { intros c Hc.
    pose proof (Z.div_pos (get_cpu_count os_cpu_count) 2).
    pose proof (Z.div_le_upper_bound (get_cpu_count os_cpu_count) 2
                  (get_cpu_count os_cpu_count * 2)).
    repeat (apply elem_of_cons in Hc as [->|Hc]; [lia|]).
    by apply elem_of_nil in Hc. }
  destruct (task_count_loop_returns [10; 50; 100]
              [1; 1 `max` (get_cpu_count os_cpu_count `div` 2);
               get_cpu_count os_cpu_count; get_cpu_count os_cpu_count * 2])
    with (results := mkResults [] [] []) (t := t)
    as (fuel & results & t' & Hrun).
  { apply (fair_le 1 (Z.to_nat (get_cpu_count os_cpu_count * 2)));
      [lia|done]. }
  { intros c Hc. destruct (Hcounts c Hc) as [Hpos Hle].
    split; [done|].
    apply (fair_le _ (Z.to_nat (get_cpu_count os_cpu_count * 2)));
      [lia|done]. }
  exists fuel, results, t'. split.
  { unfold benchmark_main, run_comprehensive_benchmark.
    cbn [default from_option Datatypes.id]. rewrite Hrun.
    destruct (save_results results); [done|].
    by destruct (visualize_results results). }
  destruct (task_count_loop_shape _ _ _ _ _ _ _ Hrun)
    as (results' & Heq & Hs & Hth & Hmp).
  injection Heq as <-. split; [exact Hs|].
  assert (∀ (nm : string) (l : list BenchmarkResult),
            label <$> l
              = [10; 50; 100] ≫=
                  (λ n, (λ c, (nm, c, n))
                          <$> [1; 1 `max` (get_cpu_count os_cpu_count `div` 2);
                               get_cpu_count os_cpu_count;
                               get_cpu_count os_cpu_count * 2]) →
            Forall (λ r, 0 < res_num_workers r) l) as Hpos.
  { intros nm l Hl. apply Forall_forall. intros r Hr.
    assert (label r ∈ label <$> l) as Hin by (by apply list_elem_of_fmap_2).
    rewrite Hl in Hin. apply list_elem_of_bind in Hin as (n & Hin & _).
    apply list_elem_of_fmap in Hin as (c & Heq & Hc).
    unfold label in Heq. injection Heq as _ -> _.
    by destruct (Hcounts c Hc). }
  split_and!.
  - apply (f_equal length) in Hth. by rewrite !length_fmap in Hth.
  - apply (f_equal length) in Hmp. by rewrite !length_fmap in Hmp.
  - apply Forall_app. split; [by apply (Hpos "threaded")
                             |by apply (Hpos "multiprocess")].
Qed.

(** ** State invariants of a run *)

Lemma preserves_refl (I : Master → Prop) (m : Master) : preserves I m m.
Proof. by intros ?. Qed.

Lemma preserves_trans (I : Master → Prop) (a b c : Master) :
  preserves I a b → preserves I b c → preserves I a c.
Proof. unfold preserves. auto. Qed.

Section Invariant.

(** A predicate kept by the steps of the workers and by each change the
    master makes to its own state is kept by every operation. *)
Variable I : Master → Prop.
Hypothesis I_tick : ∀ m k tk, tk ∈ sched k → I m → I (run_tick m tk).
Hypothesis I_now : ∀ m, I m → I (set_now m (S (now m))).
Hypothesis I_running : ∀ m b, I m → I (set_running m b).
Hypothesis I_perf_start : ∀ m t, I m → I (set_perf_start m t).
Hypothesis I_perf_end : ∀ m t, I m → I (set_perf_end m t).
Hypothesis I_submitted : ∀ m k, I m → I (set_tasks_submitted m k).
Hypothesis I_collect : ∀ m timeout, I m → I (collect_results timeout m).2.
Hypothesis I_pill :
  ∀ m, I m → I (set_task_queue m (put None (task_queue m))).
Hypothesis I_submit :
  ∀ m j i, I m →
    I (set_task_queue m
         (put (Some (generate_random_task (rng j) i)) (task_queue m))).
Hypothesis I_start :
  ∀ m i w, workers m !! i = Some w → I m →
    I (set_workers m (<[i := set_pc w AwaitTask]> (workers m))).

Lemma yield_preserves (m : Master) : preserves I m (yield m).
Proof using I_tick I_now.
  intros Hm. unfold yield. apply I_now.
  assert (∀ tks m0, (∀ tk, tk ∈ tks → tk ∈ sched (now m)) → I m0 →
                    I (foldl run_tick m0 tks)) as Hfold.
  { induction tks as [|tk tks IH]; intros m0 Hin H0; simpl; [done|].
    apply IH; [intros tk' Htk'; apply Hin; by right|].
    eapply I_tick; [apply Hin; left|done]. }
  by apply Hfold.
Qed.

Lemma start_workers_preserves : frames (preserves I) start_workers.
Proof using I_tick I_now I_running I_start.
  unfold start_workers.
  apply frames_bind; [apply preserves_trans | |intros ws].
  { apply frames_gets, preserves_refl. }
  apply frames_bind; [apply preserves_trans | |].
  2:{ intros _. apply frames_modify. intros m Hm. by apply I_running. }
  apply frames_for_each; [apply preserves_refl | apply preserves_trans|].
  intros i m. unfold start_worker. rewrite bind_run, gets_run.
  cbv beta iota.
  destruct (workers m !! i) as [w|] eqn:Hw; [|apply preserves_refl].
  destruct (pc w); try apply preserves_refl.
  rewrite bind_run, modify_run. cbv beta iota. intros Hm.
  by apply yield_preserves, I_start.
Qed.

Lemma stop_workers_preserves : frames (preserves I) stop_workers.
Proof using I_tick I_now I_running I_pill.
  unfold stop_workers.
  apply frames_bind; [apply preserves_trans | |intros r].
  { apply frames_gets, preserves_refl. }
  destruct (negb r); [apply frames_ret, preserves_refl|].
  apply frames_bind; [apply preserves_trans | |intros ws].
  { apply frames_gets, preserves_refl. }
  apply frames_bind; [apply preserves_trans | |intros _].
  - apply frames_for_each; [apply preserves_refl | apply preserves_trans|].
    intros _. apply frames_bind; [apply preserves_trans | |intros _].
    + apply frames_modify. intros m Hm. by apply I_pill.
    + apply frames_modify, yield_preserves.
  - apply frames_bind; [apply preserves_trans | |intros _].
    + apply frames_for_each; [apply preserves_refl | apply preserves_trans|].
      intros i. unfold join.
      apply frames_bind; [apply preserves_trans | |intros ws'].
      { apply frames_gets, preserves_refl. }
      destruct (ws' !! i) as [w|]; [|apply frames_ret, preserves_refl].
      destruct (pc w); try apply frames_raise, preserves_refl;
        apply frames_modify, yield_preserves.
    + apply frames_modify. intros m Hm. by apply I_running.
Qed.

Lemma generate_workload_preserves (n : Z) :
  frames (preserves I) (generate_workload n).
Proof using I_tick I_now I_perf_start I_submitted I_submit.
  unfold generate_workload.
  apply frames_bind; [apply preserves_trans | |intros _].
  { apply frames_modify. intros m Hm. by apply I_perf_start. }
  apply frames_bind; [apply preserves_trans | |intros _].
  2:{ apply frames_gets, preserves_refl. }
  apply frames_for_each; [apply preserves_refl | apply preserves_trans|].
  intros i. apply frames_bind; [apply preserves_trans | |intros t].
  { apply frames_gets, preserves_refl. }
  unfold submit_task.
  apply frames_bind; [apply preserves_trans | |intros _].
  { apply frames_modify. intros m Hm. by apply I_submit. }
  apply frames_bind; [apply preserves_trans | |intros _].
  { apply frames_modify. intros m Hm. by apply I_submitted. }
  apply frames_modify, yield_preserves.
Qed.

Lemma wait_loop_preserves (fuel : nat) (interval : Q)
    (timeout : option Q) (start_time : Q) (acc : list Task) (m : Master)
    (res : exn + list Task) (m' : Master) :
  wait_loop fuel interval timeout start_time acc m = Some (res, m') →
  preserves I m m'.
Proof using I_tick I_now I_collect.
  revert acc m. induction fuel as [|fuel IH]; intros acc m;
    cbn [wait_loop]; [done|].
  destruct (tasks_completed m <? tasks_submitted m).
  - destruct (timed_out _ _ _).
    + intros [= _ <-]. apply preserves_refl.
    + pose proof (I_collect m (Some (1 # 2)%Q)) as Hc.
      destruct (collect_results _ m) as [[e|rs] m1]; simpl in Hc;
        [by intros [= _ <-]|].
      rewrite sleep_run. destruct (Qle_bool 0 interval).
      * intros Hw. apply IH in Hw. intros Hm.
        by apply Hw, yield_preserves, Hc.
      * by intros [= _ <-].
  - intros [= _ <-]. apply preserves_refl.
Qed.

Lemma wait_for_completion_preserves (fuel : nat) (check_interval : Q)
    (timeout : option Q) (m : Master) r (m' : Master) :
  wait_for_completion fuel check_interval timeout m = Some (r, m') →
  preserves I m m'.
Proof using I_tick I_now I_collect I_perf_end.
  unfold wait_for_completion.
  destruct (wait_loop _ _ _ _ _ _) as [[[e|acc] m1]|] eqn:Hw; [| |done];
    apply wait_loop_preserves in Hw; [by intros [= _ <-]|].
  intros [= Hr] Hm.
  specialize (Hw Hm). pose proof (I_collect m1 (Some (1 # 2)%Q) Hw) as Hc.
  rewrite bind_run in Hr.
  destruct (collect_results _ m1) as [[e|rs] m2]; simpl in Hc.
  { by injection Hr as _ <-. }
  rewrite bind_run in Hr. unfold performance_stop in Hr.
  destruct (perf_start m2); injection Hr as _ <-; by apply I_perf_end.
Qed.

Lemma run_benchmark_try_preserves (fuel : nat) (n : Z) (m : Master) r
    (m' : Master) :
  run_benchmark_try fuel n m = Some (r, m') → preserves I m m'.
Proof using I_tick I_now I_running I_perf_start I_perf_end I_submitted
  I_collect I_submit I_start.
  unfold run_benchmark_try.
  pose proof (start_workers_preserves m) as Hs.
  destruct (start_workers m) as [[e|[]] m1]; simpl in Hs.
  { by intros [= _ <-]. }
  pose proof (generate_workload_preserves n m1) as Hg.
  destruct (generate_workload n m1) as [[e|k] m2]; simpl in Hg.
  { intros [= _ <-]. by eapply preserves_trans. }
  destruct (wait_for_completion _ _ _ m2) as [[[e|rs] m3]|] eqn:Hw; [| |done].
  { apply wait_for_completion_preserves in Hw. intros [= _ <-].
    eapply preserves_trans; [exact Hs|]. by eapply preserves_trans. }
  apply wait_for_completion_preserves in Hw.
  assert (preserves I m m3) as Hm3.
  { eapply preserves_trans; [exact Hs|]. by eapply preserves_trans. }
  destruct (benchmark_statistics _ _ _ _ _ _ _); by intros [= _ <-].
Qed.

Lemma run_benchmark_preserves (fuel : nat) (n : Z) (m : Master) r
    (m' : Master) :
  run_benchmark fuel n m = Some (r, m') → preserves I m m'.
Proof using I_tick I_now I_running I_perf_start I_perf_end I_submitted
  I_collect I_pill I_submit I_start.
  unfold run_benchmark.
  destruct (run_benchmark_try fuel n m) as [[r1 m1]|] eqn:Ht; [|done].
  apply run_benchmark_try_preserves in Ht.
  pose proof (stop_workers_preserves m1) as Hs.
  destruct (stop_workers m1) as [[e|[]] m2]; simpl in Hs;
    intros [= _ <-]; by eapply preserves_trans.
Qed.

End Invariant.

(** ** One benchmark per master *)

Lemma worker_types_kept (ty : flavour) (fuel : nat) (n : Z) (m : Master)
    (out : exn + BenchmarkResult) (m' : Master) :
  Forall (λ w, worker_type w = ty) (workers m) →
  run_benchmark fuel n m = Some (out, m') →
  Forall (λ w, worker_type w = ty) (workers m').
Proof.
  intros Hty Hrun.
  eapply (run_benchmark_preserves
            (λ m, Forall (λ w, worker_type w = ty) (workers m)));
    try exact Hrun; try (by intros; assumption).
  - intros m0 k tk _ H0. unfold run_tick.
    destruct (workers m0 !! who tk) as [w|] eqn:Hw; [|done].
    pose proof (worker_step_facts tk w (task_queue m0) (result_queue m0))
      as (_ & _ & Ht & _).
    destruct (worker_step tk w (task_queue m0) (result_queue m0))
      as [[w' tq] rq].
    simpl in *. apply Forall_insert; [done|]. rewrite Ht.
    by eapply (Forall_lookup_1 _ _ _ _ H0).
  - intros m0 to H0. destruct (collect_keeps to m0) as (Hw & _).
    by rewrite Hw.
  - intros m0 i w Hw H0. simpl. apply Forall_insert; [done|].
    change (worker_type w = ty).
    by eapply (Forall_lookup_1 _ _ _ _ H0).
Qed.

(** X9: a master runs one benchmark only.  After [run_benchmark] has
    returned on a new master whose pool is not empty, every further
    [run_benchmark] on the same master fails at once: [start_workers]
    starts its first worker a second time, which raises the
    [RuntimeError] of [Thread.start] on the sequential and the threaded
    backend and the [AssertionError] of [Process.start] on the
    multiprocess backend; [stop_workers] in the [finally] is the no-op
    and the error reaches the caller.  Nothing is submitted and the
    master is left as it was. *)
Theorem run_benchmark_only_once (b : backend) (nm : string) (k n : Z)
    (m : Master) (fuel : nat) (out : exn + BenchmarkResult) (m' : Master) :
  subclass_init b nm k = inr m → workers m ≠ [] →
  run_benchmark fuel n m = Some (out, m') →
  ∃ w, workers m' !! 0%nat = Some w ∧
       started_twice w
         = match b with
           | Multiprocess => AssertionError "cannot start a process twice"
           | _ => RuntimeError "threads can only be started once"
           end ∧
       ∀ fuel2 n2,
         run_benchmark fuel2 n2 m' = Some (inl (started_twice w), m').
Proof.
  intros Hinit Hpool Hrun.
  destruct (run_from_fresh_safe fuel n m out m' (constructors_fresh _ _ _ _ Hinit)
              Hrun)
    as (_ & _ & _ & _ & _ & _ & _ & _ & _ & _ & _ & _ & _ & _ & _ & Hoff & Hst
        & Hl & _).
  assert (Forall (λ w, worker_type w
                       = match b with Multiprocess => ProcessW | _ => ThreadW end)
            (workers m)) as Hty.
  { revert Hinit.
    unfold subclass_init, Master_init, create_queues, create_workers.
    destruct b; try done; intros [= <-]; simpl;
      try (by repeat constructor); by apply Forall_fmap, Forall_true. }
  pose proof (worker_types_kept _ _ _ _ _ _ Hty Hrun) as Hty'.
  destruct (workers m') as [|w ws] eqn:Hws.
  { by destruct (workers m). }
  assert (started w) as Hw.
  { unfold pool_started in Hst. rewrite Hws in Hst. by inversion Hst. }
  exists w. split_and!; [done| |].
  - apply Forall_cons in Hty' as [Hw' _]. unfold started_twice.
    rewrite Hw'. by destruct b.
  - intros fuel2 n2. unfold run_benchmark, run_benchmark_try.
    rewrite (start_workers_again m' w) by (by rewrite ?Hws).
    unfold stop_workers. rewrite bind_run, gets_run. cbv beta iota.
    by rewrite Hoff.
Qed.

(** ** Where the results come from *)

(** One step of a worker, with the task it produces. *)
Lemma run_tick_cases (m : Master) (tk : tick) :
  (arrived (run_tick m tk) = arrived m ∧ flight (run_tick m tk) = flight m ∧
   queued (run_tick m tk) = queued m) ∨
  (∃ task pre post,
     queued m = task :: queued (run_tick m tk) ∧
     flight m = pre ++ post ∧
     flight (run_tick m tk)
       = pre ++ process_task (t_start tk) (t_end tk) task :: post ∧
     arrived (run_tick m tk) = arrived m) ∨
  (∃ t pre post,
     flight m = pre ++ t :: post ∧ flight (run_tick m tk) = pre ++ post ∧
     arrived (run_tick m tk) = arrived m ++ [t] ∧
     queued (run_tick m tk) = queued m).
Proof.
  unfold run_tick.
  destruct (workers m !! who tk) as [w|] eqn:Hw; [|by left].
  destruct (inflight_insert (workers m) (who tk) w
              (worker_step tk w (task_queue m) (result_queue m)).1.1 Hw)
    as (pre & post & Hpre & Hpost & _).
  destruct (worker_step tk w (task_queue m) (result_queue m))
    as [[w' tq'] rq'] eqn:Hstep.
  unfold flight, queued, arrived. simpl in *.
  rewrite Hpre, Hpost. clear Hpre Hpost.
  unfold worker_step in Hstep.
  destruct w as [wid wty wrun wpc]; simpl in *.
  destruct wpc as [| |t| |]; simpl in *.
  - injection Hstep as <- <- <-. by left.
  - destruct wrun; simpl in *.
    2: { injection Hstep as <- <- <-. by left. }
    unfold get in Hstep.
    destruct (task_queue m) as [j p unf hist]; simpl in *.
    destruct p as [|[e|[task|]] rest]; simpl in *;
      injection Hstep as <- <- <-; simpl.
    + by left.
    + by left.
    + right; left. by exists task, pre, post.
    + by left.
  - assert (tq' = task_queue m ∧ rq' = put t (result_queue m) ∧
            holding w' = []) as (-> & -> & ->).
    { destruct wty; by injection Hstep as <- <- <-. }
    right; right. exists t, pre, post. unfold holding; simpl.
    by split_and!.
  - injection Hstep as <- <- <-. left. split_and!; try done.
    unfold task_done, items. by destruct (unfinished_tasks (task_queue m)).
  - injection Hstep as <- <- <-. by left.
Qed.

Lemma traced_tick (m : Master) (k : nat) (tk : tick) :
  tk ∈ sched k → traced m → traced (run_tick m tk).
Proof.
  intros Htk (Hq & Hf & Ha).
  assert (submitted_tasks (run_tick m tk) = submitted_tasks m) as Hsub.
  { destruct (run_tick_quiet m tk) as (_ & Hh & _).
    unfold submitted_tasks. by rewrite Hh. }
  unfold traced, processed in *. rewrite Hsub.
  destruct (run_tick_cases m tk)
    as [(-> & -> & ->)
       |[(task & pre & post & Hq' & Hf' & -> & ->)
        |(t & pre & post & Hf' & -> & -> & ->)]].
  - done.
  - rewrite Hq' in Hq. rewrite Hf' in Hf.
    apply Forall_cons in Hq as [Htask Hq].
    apply Forall_app in Hf as [Hpre Hpost].
    split_and!; [done| |done].
    apply Forall_app. split; [done|]. apply Forall_cons. split; [|done].
    by exists k, tk, task.
  - rewrite Hf' in Hf. apply Forall_app in Hf as [Hpre Hpost].
    apply Forall_cons in Hpost as [Ht Hpost].
    split_and!; [done| |].
    + apply Forall_app. by split.
    + apply Forall_app. split; [done|]. by apply Forall_singleton.
Qed.

Lemma traced_collect (m : Master) (timeout : option Q) :
  traced m → traced (collect_results timeout m).2.
Proof.
  destruct (collect_keeps timeout m) as (Hw & Htq & Ha & _).
  unfold traced, processed, submitted_tasks, queued, flight.
  by rewrite Hw, Htq, Ha.
Qed.

Lemma traced_put (m : Master) (x : option Task) :
  traced m → traced (set_task_queue m (put x (task_queue m))).
Proof.
  intros (Hq & Hf & Ha).
  destruct (queued_put x (task_queue m)) as [Hq' Hh'].
  assert (∀ task, task ∈ submitted_tasks m →
                  task ∈ submitted_tasks
                           (set_task_queue m (put x (task_queue m))))
    as Hmono.
  { intros task Ht.
    change (task ∈ tasks_of (history (put x (task_queue m)))).
    rewrite Hh'. apply elem_of_app. by left. }
  assert (∀ t, processed m t →
               processed (set_task_queue m (put x (task_queue m))) t) as Hp.
  { intros t (k & tk & task & ? & ? & ?). exists k, tk, task. auto. }
  unfold traced. split_and!.
  - change (Forall (λ task, task ∈ tasks_of
                                     (history (put x (task_queue m))))
              (tasks_of (items (put x (task_queue m))))).
    rewrite Hq', Hh'. apply Forall_app. split.
    + eapply Forall_impl; [exact Hq|]. intros task Ht.
      apply elem_of_app. by left.
    + destruct x as [task|]; simpl; [|done].
      apply Forall_singleton. apply elem_of_app. right. by left.
  - eapply Forall_impl; [exact Hf | exact Hp].
  - eapply Forall_impl; [exact Ha | exact Hp].
Qed.

Lemma traced_start (m : Master) (i : nat) (w : Worker) :
  traced m →
  traced (set_workers m (<[i := set_pc w AwaitTask]> (workers m))).
Proof.
  intros (Hq & Hf & Ha). unfold traced. split_and!; [done| |done].
  change (Forall (processed m)
            (inflight (<[i := set_pc w AwaitTask]> (workers m)))).
  unfold flight in Hf.
  destruct (workers m !! i) as [w0|] eqn:Hw0.
  - destruct (inflight_insert (workers m) i w0 (set_pc w AwaitTask) Hw0)
      as (pre & post & Hpre & -> & _).
    rewrite Hpre in Hf. apply Forall_app in Hf as [Hpre' Hpost].
    apply Forall_app in Hpost as [_ Hpost].
    apply Forall_app. split; [done|]. simpl. done.
  - rewrite list_insert_ge; [done|]. by apply lookup_ge_None.
Qed.

Lemma traced_fresh (m : Master) : fresh m → traced m.
Proof.
  intros (Hws & Htq & _ & _ & Hh & _).
  unfold traced, queued, flight, arrived, items.
  rewrite Htq, Hh. split_and!; [done| |done].
  assert (inflight (workers m) = []) as ->; [|done].
  induction Hws as [|w ws [Hpc _] _ IH]; [done|].
  unfold inflight. rewrite bind_cons. unfold holding at 1. by rewrite Hpc.
Qed.

Lemma generate_random_task_id (rnd : draw) (i : Z) :
  id (generate_random_task rnd i) = i.
Proof. done. Qed.

(** The tasks that [generate_workload] submits: the [k]-th one is
    generated from the draw at the logical time of its submission. *)
Lemma for_each_submit_tasks (l : list Z) (m : Master) :
  submitted_tasks
    (for_each l (λ i, t ← gets now;
                      submit_task (generate_random_task (rng t) (i + 1))) m).2
  = submitted_tasks m
      ++ imap (λ k i, generate_random_task (rng (now m + k)) (i + 1)) l.
Proof.
  revert m. induction l as [|x l IH]; intros m; simpl.
  - by rewrite app_nil_r.
  - rewrite bind_run. cbv beta. rewrite bind_run, gets_run. cbv beta iota.
    rewrite submit_task_eq. cbv beta iota.
    set (m1 := set_tasks_submitted
                 (set_task_queue m
                    (put (Some (generate_random_task (rng (now m)) (x + 1)))
                       (task_queue m)))
                 (tasks_submitted m + 1)).
    rewrite IH.
    destruct (calm_counters _ _ (yield_calm m1)) as (_ & _ & -> & _).
    rewrite yield_now.
    change (now m1) with (now m).
    assert (submitted_tasks m1
            = submitted_tasks m
                ++ [generate_random_task (rng (now m)) (x + 1)]) as ->.
    { change (submitted_tasks m1)
        with (tasks_of
                (history
                   (put (Some (generate_random_task (rng (now m)) (x + 1)))
                      (task_queue m)))).
      by destruct (queued_put
                     (Some (generate_random_task (rng (now m)) (x + 1)))
                     (task_queue m)) as [_ ->]. }
    rewrite <- app_assoc. simpl. rewrite Nat.add_0_r. do 2 f_equal.
    apply imap_ext. intros k y _. simpl. do 2 f_equal. lia.
Qed.

Lemma generate_workload_tasks (n : Z) (m : Master) :
  submitted_tasks (generate_workload n m).2
  = submitted_tasks m
      ++ imap (λ k i, generate_random_task (rng (now m + k)) i) (seqZ 1 n).
Proof.
  unfold generate_workload. rewrite bind_run, modify_run. cbv beta iota.
  rewrite bind_run.
  pose proof (for_each_submit_tasks (seqZ 0 n)
                (set_perf_start m (Some (clock (now m))))) as Hsub.
  destruct (for_each_submit_counts
              (λ t i, generate_random_task (rng t) (i + 1)) (seqZ 0 n)
              (set_perf_start m (Some (clock (now m)))))
    as (m' & Hm' & _).
  rewrite Hm' in Hsub |- *. rewrite gets_run. simpl in Hsub |- *.
  rewrite Hsub. f_equal.
  replace (seqZ 1 n) with (Z.add 1 <$> seqZ 0 n)
    by exact (fmap_add_seqZ 1 0 n).
  rewrite imap_fmap. apply imap_ext. intros k y _. simpl.
  f_equal. lia.
Qed.

(** The results of a run are processed tasks, one for each id. *)
Lemma results_traced (b : backend) (nm : string) (k n : Z)
    (m : Master) (fuel : nat) (results : list Task) (r : BenchmarkResult)
    (m3 : Master) :
  subclass_init b nm k = inr m →
  run_benchmark_try fuel n m = Some (inr (results, r), m3) →
  Forall (processed m3) results ∧ ids results ≡ₚ seqZ 1 n.
Proof.
  intros Hinit Htry.
  pose proof (constructors_fresh _ _ _ _ Hinit) as Hfresh.
  destruct (stop_workers m3) as [out4 m4] eqn:Hstop.
  assert (∃ out, run_benchmark fuel n m = Some (out, m4)) as [out Hrun].
  { unfold run_benchmark. rewrite Htry, Hstop.
    destruct out4 as [e|[]]; by eexists. }
  destruct (run_from_fresh_safe fuel n m out m4 Hfresh Hrun)
    as (results' & r' & m3' & Htry' & _ & _ & Hres & Hf & Hq & _ & Hc & _ &
        Hids & _ & _ & _ & _ & _ & Hsame & _).
  rewrite Htry in Htry'. injection Htry' as <- <- <-.
  assert (traced m4) as (_ & _ & Ha).
  { eapply (run_benchmark_preserves traced); try exact Hrun;
      try (by intros; assumption).
    - apply traced_tick.
    - intros m0 to. apply traced_collect.
    - intros m0. by apply traced_put.
    - intros m0 j i. by apply traced_put.
    - intros m0 i w _. apply traced_start.
    - by apply traced_fresh. }
  unfold conserved in Hc. rewrite Hf, Hq, Hids in Hc. simpl in Hc.
  rewrite app_nil_r in Hc. rewrite <- Hres in Ha, Hc. split; [|done].
  eapply Forall_impl; [exact Ha|].
  intros t (j & tk & task & Htk & Htask & Heq). exists j, tk, task.
  by rewrite <- Hsame.
Qed.

(** X16: where the results of a run come from.  On a new master, under
    any schedule, the tasks on the task queue when [wait_for_completion]
    returns to [run_benchmark] are the [n] tasks of [generate_workload]
    in order, the one with id [i] generated from the random draws at the
    time of its submission.  Every task in the returned list is the
    submitted task with the same id as [process_task] returned it at
    some activation of a worker: same id, type and payload as submitted,
    a dictionary or an error marker as its result, and the span between
    the two clock readings of that activation as its processing time.
    The ids of the list are 1..n, each once. *)
Theorem run_benchmark_results_processed (b : backend) (nm : string) (k n : Z)
    (m : Master) (fuel : nat) (results : list Task) (r : BenchmarkResult)
    (m3 : Master) :
  subclass_init b nm k = inr m →
  run_benchmark_try fuel n m = Some (inr (results, r), m3) →
  ∃ m1,
    start_workers m = (inr tt, m1) ∧
    submitted_tasks m3
      = imap (λ k i, generate_random_task (rng (now m1 + k)) i) (seqZ 1 n) ∧
    ids results ≡ₚ seqZ 1 n ∧
    Forall (λ t, ∃ j tk task,
                   tk ∈ sched j ∧
                   submitted_tasks m3 !! Z.to_nat (id t - 1) = Some task ∧
                   id task = id t ∧
                   t = process_task (t_start tk) (t_end tk) task)
           results.
Proof.
  intros Hinit Htry.
  destruct (results_traced b nm k n m fuel results r m3 Hinit Htry)
    as [Hprocessed Hids].
  pose proof (constructors_fresh _ _ _ _ Hinit) as Hfresh.
  destruct (stop_workers m3) as [out4 m4] eqn:Hstop.
  assert (∃ out, run_benchmark fuel n m = Some (out, m4)) as [out Hrun].
  { unfold run_benchmark. rewrite Htry, Hstop.
    destruct out4 as [e|[]]; by eexists. }
  destruct (run_from_fresh_safe fuel n m out m4 Hfresh Hrun)
    as (results' & r' & m3' & Htry' & _ & _ & _ & _ & _ & _ & _ & _ &
        _ & _ & _ & _ & _ & _ & _ & m1 & Hstart & Hnone & Hsub).
  rewrite Htry in Htry'. injection Htry' as <- <- <-.
  rewrite generate_workload_tasks, Hnone, app_nil_l in Hsub.
  exists m1. split_and!; try done.
  apply Forall_forall. intros t Ht.
  rewrite Forall_forall in Hprocessed.
  destruct (Hprocessed t Ht) as (j & tk & task & Htk & Htask & Heq).
  assert (id task = id t) as Hid by (by rewrite Heq, process_task_id).
  exists j, tk, task. split_and!; try done.
  apply list_elem_of_lookup in Htask as [i Hi].
  rewrite <- Hi. f_equal.
  rewrite Hsub, list_lookup_imap in Hi.
  destruct (seqZ 1 n !! i) as [y|] eqn:Hy; [|done].
  apply lookup_seqZ in Hy as [-> _]. injection Hi as <-.
  rewrite <- Hid, generate_random_task_id. lia.
Qed.

(** ** The signs of the statistics *)

Lemma run_tick_now (m : Master) (tk : tick) : now (run_tick m tk) = now m.
Proof.
  unfold run_tick. destruct (workers m !! who tk) as [w|]; [|done].
  by destruct (worker_step tk w (task_queue m) (result_queue m)) as [[? ?] ?].
Qed.

Lemma later_kept (t0 : nat) (n : Z) (fuel : nat) (interval : Q)
    (m1 : Master) (out : exn + list Task) (m3 : Master) :
  wait_for_completion fuel interval None (generate_workload n m1).2
    = Some (out, m3) →
  (t0 ≤ now m1)%nat → (t0 ≤ now m3)%nat.
Proof.
  intros Hwait Hm1.
  assert (∀ a c, preserves (λ m, (t0 ≤ now m)%nat) a c → (t0 ≤ now a)%nat →
                 (t0 ≤ now c)%nat) as Huse by (unfold preserves; auto).
  eapply Huse; [|eapply Huse; [apply (generate_workload_preserves
                                        (λ m, (t0 ≤ now m)%nat))|exact Hm1]].
  - eapply (wait_for_completion_preserves (λ m, (t0 ≤ now m)%nat));
      try exact Hwait; try (by intros; simpl in *; lia).
    + intros m k tk _. by rewrite run_tick_now.
    + intros m to. by destruct (collect_keeps to m) as (_ & _ & _ & -> & _).
  - intros m k tk _. by rewrite run_tick_now.
  - intros m Hm. simpl. lia.
  - done.
  - done.
  - done.
Qed.

Lemma py_sum_nonneg (l : list Q) (a : Q) :
  (0 <= a)%Q → Forall (λ x, (0 <= x)%Q) l → (0 <= foldl Qplus a l)%Q.
Proof.
  intros Ha Hl. revert a Ha. induction Hl as [|x l Hx _ IH]; intros a Ha;
    simpl; [done|].
  apply IH. replace 0%Q with (0 + 0)%Q by done. by apply Qplus_le_compat.
Qed.

Lemma mean_nonneg (l : list Q) :
  Forall (λ x, (0 <= x)%Q) l →
  (0 <= py_sum l / inject_Z (Z.of_nat (length l)))%Q.
Proof.
  intros Hl. destruct l as [|x l].
  - by vm_compute.
  - apply Qle_shift_div_l.
    + unfold Qlt. simpl. lia.
    + rewrite Qmult_0_l. by apply py_sum_nonneg.
Qed.

Lemma group_add_Forall (P : Q → Prop) (k : string) (v : Q)
    (g : list (string * list Q)) :
  P v → Forall (λ kv, Forall P kv.2) g →
  Forall (λ kv, Forall P kv.2) (group_add k v g).
Proof.
  intros Hv. induction 1 as [|[k' vs] g Hvs Hg IH]; simpl.
  - by repeat constructor.
  - destruct (String.eqb k k'); constructor; try done.
    simpl in *. apply Forall_app. split; [done|]. by apply Forall_singleton.
Qed.

Lemma groups_Forall (P : Q → Prop) (results : list Task)
    (g : list (string * list Q)) :
  Forall (λ t, P (processing_time t)) results →
  Forall (λ kv, Forall P kv.2) g →
  Forall (λ kv, Forall P kv.2)
    (foldl (λ g task, group_add (task_type task) (processing_time task) g)
       g results).
Proof.
  intros Hres. revert g. induction Hres as [|t results Ht _ IH]; intros g Hg;
    simpl; [done|].
  by apply IH, group_add_Forall.
Qed.

Lemma averages_nonneg (g : list (string * list Q)) (l : list (string * Q)) :
  Forall (λ kv, Forall (λ x, (0 <= x)%Q) kv.2) g →
  averages g = inr l → Forall (λ kv, (0 <= kv.2)%Q) l.
Proof.
  intros Hg. revert l. induction Hg as [|[k ts] g Hts _ IH]; intros l; simpl.
  - by intros [= <-].
  - unfold py_div. destruct (Qeq_bool _ 0); [done|].
    destruct (averages g) as [e|l']; [done|]. intros [= <-].
    constructor; [|by apply IH]. simpl. by apply mean_nonneg.
Qed.

(** X17: the statistics are not negative.  When the two clock readings of
    every activation of a worker are in order, no task of a run has a
    negative processing time, so neither the average task time nor any
    average by type is negative; and when the clock of the master never
    goes back, the total time is not negative.  The throughput is not
    negative for a task count that is not, whatever the clock does. *)
Theorem statistics_nonnegative (b : backend) (nm : string) (k n : Z)
    (m : Master) (fuel : nat) (results : list Task) (r : BenchmarkResult)
    (m3 : Master) :
  (∀ j tk, tk ∈ sched j → (t_start tk <= t_end tk)%Q) →
  subclass_init b nm k = inr m →
  run_benchmark_try fuel n m = Some (inr (results, r), m3) →
  Forall (λ t, (0 <= processing_time t)%Q) results ∧
  (0 <= avg_task_time r)%Q ∧
  Forall (λ kv, (0 <= kv.2)%Q) (avg_by_type r) ∧
  (0 ≤ n → (0 <= tasks_per_second r)%Q) ∧
  ((∀ i j, (i ≤ j)%nat → (clock i <= clock j)%Q) → (0 <= total_time r)%Q).
Proof.
  intros Hticks Hinit Htry.
  assert (Forall (λ t, (0 <= processing_time t)%Q) results) as Htimes.
  { eapply Forall_impl;
      [exact (proj1 (results_traced _ _ _ _ _ _ _ _ _ Hinit Htry))|].
    intros t (j & tk & task & Htk & _ & Heq).
    destruct (process_task_fields (t_start tk) (t_end tk) task)
      as (_ & _ & _ & Hpt).
    rewrite <- Heq in Hpt. rewrite Hpt.
    apply (proj1 (Qle_minus_iff _ _)). by apply (Hticks j). }
  unfold run_benchmark_try in Htry.
  destruct (start_workers m) as [[e|[]] m1] eqn:Hstart; [done|].
  destruct (generate_workload n m1) as [[e|submitted] m2] eqn:Hgen; [done|].
  destruct (wait_for_completion fuel (1 # 2) None m2) as [[[e|rs] m3']|]
    eqn:Hwait; [done| |done].
  destruct (benchmark_statistics _ _ _ _ _ _ _) as [e|r'] eqn:Hstats; [done|].
  injection Htry as <- <- <-.
  unfold benchmark_statistics in Hstats.
  destruct (if Qlt_le_dec 0 (clock (now m3') - clock (now m1))
            then py_div (inject_Z n) (clock (now m3') - clock (now m1))
            else inr 0%Q) as [e|tps] eqn:Htps; [done|].
  destruct (match processing_time <$> rs with
            | [] => inr 0%Q
            | _ => py_div (py_sum (processing_time <$> rs))
                     (inject_Z (Z.of_nat (length (processing_time <$> rs))))
            end) as [e|avg] eqn:Havg; [done|].
  destruct (averages _) as [e|byt] eqn:Hbyt; [done|].
  injection Hstats as <-. simpl.
  split_and!.
  - exact Htimes.
  - destruct (processing_time <$> rs) as [|x times] eqn:Hpt.
    + by injection Havg as <-.
    + unfold py_div in Havg. destruct (Qeq_bool _ 0); [done|].
      injection Havg as <-. apply mean_nonneg.
      rewrite <- Hpt. by apply Forall_fmap.
  - eapply averages_nonneg; [|exact Hbyt].
    by apply groups_Forall.
  - intros Hn. destruct (Qlt_le_dec 0 (clock (now m3') - clock (now m1)))
      as [Hpos|Hneg].
    + unfold py_div in Htps. destruct (Qeq_bool _ 0); [done|].
      injection Htps as <-. apply Qle_shift_div_l; [done|].
      rewrite Qmult_0_l. unfold Qle. simpl. lia.
    + by injection Htps as <-.
  - intros Hmono. apply (proj1 (Qle_minus_iff _ _)). apply Hmono.
    apply (later_kept (now m1) n fuel (1 # 2)%Q m1 (inr rs) m3'); [|done].
    by rewrite Hgen.
Qed.


(** ** The rate of a run *)

(** C3: in the record returned by [run_benchmark n], [total_time] is the
    difference of two readings of the clock, the first taken when
    [start_workers] has returned and the second, later in the run, when
    [wait_for_completion] has returned; [tasks_per_second] is
    [n / total_time] when [total_time] is positive and 0 otherwise,
    whatever [n] is.  For [n = 0] the rate is 0.  A run with [n ≥ 0] on
    a master whose counters are consistent that completed no task had
    [n = 0].  The statistics never raise: no division by zero. *)
Theorem tasks_per_second_spec (fuel : nat) (n : Z) (m : Master)
    (r : BenchmarkResult) (m' : Master) :
  run_benchmark fuel n m = Some (inr r, m') →
  num_tasks r = n ∧
  (∃ results m1 m3,
     start_workers m = (inr tt, m1) ∧
     run_benchmark_try fuel n m = Some (inr (results, r), m3) ∧
     (now m1 ≤ now m3)%nat ∧
     total_time r = (clock (now m3) - clock (now m1))%Q) ∧
  tasks_per_second r
    = (if Qlt_le_dec 0 (total_time r)
       then inject_Z n / total_time r else 0)%Q ∧
  (n = 0 → (tasks_per_second r == 0)%Q) ∧
  (0 ≤ n → tasks_completed m ≤ tasks_submitted m →
   tasks_completed m' = tasks_completed m → n = 0) ∧
  (∀ name num_workers k start_time end_time mem results,
     ∃ r0, benchmark_statistics name num_workers k start_time end_time mem
             results = inr r0).
Proof.
  intros Hrun. unfold run_benchmark in Hrun.
  destruct (run_benchmark_try fuel n m) as [[[e|[results r1]] m3]|] eqn:Htry;
    [|..|done].
  { by destruct (stop_workers m3) as [[?|[]] ?]. }
  pose proof (run_benchmark_try_counts _ _ _ _ _ _ Htry)
    as (Hsub & Hdone & _).
  pose proof (stop_workers_frames same_counters) as Hs.
  specialize (Hs ltac:(frame_side) ltac:(frame_side) ltac:(frame_side)
                 ltac:(frame_side) ltac:(frame_side) ltac:(frame_side)
                 ltac:(frame_side) m3).
  destruct (stop_workers m3) as [[e|[]] m4]; [done|].
  simpl in Hrun, Hs. injection Hrun as <- <-.
  assert (∃ m1, start_workers m = (inr tt, m1) ∧ (now m1 ≤ now m3)%nat ∧
                ∃ avg byt,
                  r1 = mkBenchmarkResult (name m3) (num_workers m3) n
                         (clock (now m3) - clock (now m1))%Q
                         (if Qlt_le_dec 0 (clock (now m3) - clock (now m1))
                          then (inject_Z n
                                / (clock (now m3) - clock (now m1)))%Q
                          else 0%Q)
                         avg byt (memory (now m3)))
    as (m1 & Hstart & Hlater & avg & byt & Hr).
  { unfold run_benchmark_try in Htry.
    destruct (start_workers m) as [[e|[]] m1] eqn:Hstart; [done|].
    destruct (generate_workload n m1) as [[e|submitted] m2] eqn:Hgen; [done|].
    destruct (wait_for_completion fuel (1 # 2) None m2) as [[[e|rs] m3']|]
      eqn:Hwait; [done| |done].
    destruct (benchmark_statistics_defined (name m3') (num_workers m3') n
                (clock (now m1)) (clock (now m3')) (memory (now m3')) rs)
      as (avg & byt & Hstats).
    rewrite Hstats in Htry. injection Htry as <- <- <-.
    exists m1. split; [done|]. split; [|by exists avg, byt].
    apply (later_kept (now m1) n fuel (1 # 2)%Q m1 (inr rs) m3'); [|done].
    by rewrite Hgen. }
  subst r1. cbn [num_tasks total_time tasks_per_second].
  split_and!.
  - done.
  - eexists results, m1, m3. by split_and!.
  - done.
  - intros ->. destruct (Qlt_le_dec _ _); [|reflexivity].
    unfold Qdiv. apply Qmult_0_l.
  - intros Hn Hm Hsame. unfold same_counters in Hs. lia.
  - intros nm nw k s e mem0 res.
    destruct (benchmark_statistics_defined nm nw k s e mem0 res)
      as (? & ? & ->).
    by eexists.
Qed.
End Environment.

(** ** Dispatch and task processing *)

Lemma get_task_function_unknown (task_type : string) :
  task_type ≠ "io" → task_type ≠ "cpu" → task_type ≠ "mixed" →
  get_task_function task_type = cpu_task.
Proof.
  intros Hio Hcpu Hmixed. unfold get_task_function, task_functions.
  rewrite !lookup_insert_ne by congruence. by rewrite lookup_empty.
Qed.

(** C7: [get_task_function] returns the io, cpu and mixed workload for the
    tags 'io', 'cpu' and 'mixed', and [cpu_task] for every other tag; a
    task with an unknown type is processed with the CPU workload: its
    result is what [cpu_task] gives on its payload. *)
Theorem get_task_function_dispatch :
  get_task_function "io" = io_task ∧
  get_task_function "cpu" = cpu_task ∧
  get_task_function "mixed" = mixed_task ∧
  (∀ task_type : string,
     task_type ≠ "io" → task_type ≠ "cpu" → task_type ≠ "mixed" →
     get_task_function task_type = cpu_task) ∧
  (∀ (t0 t1 : Q) (task : Task),
     task_type task ≠ "io" → task_type task ≠ "cpu" →
     task_type task ≠ "mixed" →
     result (process_task t0 t1 task) =
       match cpu_task (payload task) with
       | Returns d => Some (PDict d)
       | Raises e => Some (PStr ("Error: " +:+ exn_msg e))
       end).
Proof.
  split_and!.
  - unfold get_task_function, task_functions. by rewrite lookup_insert_eq.
  - unfold get_task_function, task_functions.
    rewrite lookup_insert_ne by done. by rewrite lookup_insert_eq.
  - unfold get_task_function, task_functions.
    rewrite !lookup_insert_ne by done. by rewrite lookup_insert_eq.
  - apply get_task_function_unknown.
  - intros t0 t1 task Hio Hcpu Hmixed.
    unfold process_task, process_task_try.
    rewrite get_task_function_unknown by done.
    by destruct (cpu_task (payload task)).
Qed.

(** C2: a worker at the head of its loop that dequeues a task processes
    it whether the workload returns or raises: the task keeps its id, type
    and payload, its result is the returned dictionary or the error
    marker, never [None], and its processing time is the second clock
    reading of the activation minus the first, recorded in both cases:
    it is not negative exactly when the clock did not go back between
    the two readings.  The worker's next step puts that task on the
    result queue, and the worker is back in its loop, not stopped.
    [process_task] is a total function: nothing propagates. *)
Theorem process_task_completes (tk tk2 tk3 : tick) (w : Worker) (task : Task)
    (rest : list (exn + option Task))
    (tq : Queue (option Task)) (rq : Queue Task) :
  pc w = AwaitTask → wk_running w = true →
  pending tq = inr (Some task) :: rest →
  let done := process_task (t_start tk) (t_end tk) task in
  id done = id task ∧ task_type done = task_type task ∧
  payload done = payload task ∧
  match get_task_function (task_type task) (payload task) with
  | Returns d => result done = Some (PDict d)
  | Raises e => result done = Some (PStr ("Error: " +:+ exn_msg e))
  end ∧
  result done ≠ None ∧
  processing_time done = (t_end tk - t_start tk)%Q ∧
  ((0 <= processing_time done)%Q ↔ (t_start tk <= t_end tk)%Q) ∧
  ∃ w1 tq1 w2,
    worker_step tk w tq rq = (w1, tq1, rq) ∧
    pc w1 = Processed done ∧ pending tq1 = rest ∧
    worker_step tk2 w1 tq1 rq = (w2, tq1, put done rq) ∧
    pending (put done rq) = pending rq ++ [inr done] ∧
    history (put done rq) = history rq ++ [done] ∧
    wk_running w2 = true ∧
    match worker_type w with
    | ThreadW =>
        pc w2 = PutDone ∧
        pc (worker_step tk3 w2 tq1 (put done rq)).1.1 = AwaitTask
    | ProcessW => pc w2 = AwaitTask
    end.
Proof.
  intros Hpc Hrun Hpending done.
  destruct (process_task_fields (t_start tk) (t_end tk) task)
    as (Hid & Hty & Hpl & Htime).
  pose proof (process_task_result (t_start tk) (t_end tk) task) as Hres.
  split_and!; try done.
  - subst done.
    destruct (get_task_function (task_type task) (payload task));
      rewrite Hres; discriminate.
  - subst done. rewrite Htime. symmetry. apply Qle_minus_iff.
  - destruct w as [wid wty wrun wpc]; simpl in *; subst wrun wpc.
    destruct wty; eexists _, _, _; unfold worker_step, get; simpl;
      rewrite Hpending; simpl; split_and!; reflexivity.
Qed.

(** ** Construction *)

(** C4 (as amended): construction validates nothing.  For every integer
    [num_workers] each of the three backends constructs a master, not
    running, with both counters at zero and two empty queues (nothing
    pending, nothing ever put, no unfinished task); the threaded and
    multiprocess masters keep the requested count and their pools have
    [max(num_workers, 0)] members (none for a non-positive count), the
    sequential master has the count 1 and a pool of one.  Only the
    abstract base class fails at construction, with the
    [NotImplementedError] of [create_queues]. *)
Theorem construction_never_fails (n : Z) :
  (∃ m, SingleProcessMaster n = inr m ∧ num_workers m = 1 ∧
        length (workers m) = 1%nat ∧
        empty_queue (task_queue m) ∧ empty_queue (result_queue m) ∧
        running m = false ∧ tasks_submitted m = 0 ∧ tasks_completed m = 0) ∧
  (∃ m, ThreadedMaster n = inr m ∧ num_workers m = n ∧
        length (workers m) = Z.to_nat (Z.max n 0) ∧
        (n ≤ 0 → workers m = []) ∧
        empty_queue (task_queue m) ∧ empty_queue (result_queue m) ∧
        running m = false ∧ tasks_submitted m = 0 ∧ tasks_completed m = 0) ∧
  (∃ m, MultiprocessMaster n = inr m ∧ num_workers m = n ∧
        length (workers m) = Z.to_nat (Z.max n 0) ∧
        (n ≤ 0 → workers m = []) ∧
        empty_queue (task_queue m) ∧ empty_queue (result_queue m) ∧
        running m = false ∧ tasks_submitted m = 0 ∧ tasks_completed m = 0) ∧
  (∀ nm, Master_init Base nm n
         = inl (NotImplementedError "Subclasses must implement create_queues")) ∧
  (∀ nm, subclass_init Base nm n
         = inl (NotImplementedError "Subclasses must implement create_queues")).
Proof.
  split_and!.
  - eexists. by split_and!.
  - eexists. split_and!; try done.
    + simpl. rewrite length_fmap, length_seqZ. lia.
    + intros Hn. simpl. by rewrite seqZ_nil.
  - eexists. split_and!; try done.
    + simpl. rewrite length_fmap, length_seqZ. lia.
    + intros Hn. simpl. by rewrite seqZ_nil.
  - done.
  - done.
Qed.
(** ** [Worker.stop] *)


End Workloads.

(** ** The model on examples *)

Lemma round_robin_fair (pool : nat) : fair (round_robin pool) pool.
Proof.
  intros i Hi k. exists k. split; [done|].
  unfold round_robin. rewrite <- list_fmap_compose.
  apply list_elem_of_fmap. exists i. split; [done|].
  apply elem_of_seq. lia.
Qed.

(** [demo_started] is the state in which [start_workers] leaves a new
    threaded master with two workers. *)
Example demo_started_reachable :
  ∃ m, ThreadedMaster 2 = inr m ∧
       start_workers demo_io_task demo_cpu_task demo_mixed_task
         (round_robin 2) m = (inr tt, demo_started).
Proof. eexists. split; reflexivity. Qed.

(** The first task generated for [demo_started] is a mixed one; its
    workload fails and a worker completes it with an error marker. *)
Example demo_failing_task :
  get_task_function demo_io_task demo_cpu_task demo_mixed_task
    (task_type (generate_random_task (demo_rng (now demo_started)) 1))
    = demo_mixed_task ∧
  result (process_task demo_io_task demo_cpu_task demo_mixed_task 10 11
            (generate_random_task (demo_rng (now demo_started)) 1))
    = Some (PStr "Error: No space left on device").
Proof. split; reflexivity. Qed.

(** A run of three tasks on two threads, round robin: it returns with
    fuel 20; the three tasks arrive in order, the first with an error
    marker; two sentinels follow the tasks on the task queue and both
    workers have stopped. *)
Example demo_run :
  match ThreadedMaster 2 with
  | inr m =>
      match run_benchmark demo_io_task demo_cpu_task demo_mixed_task
              (round_robin 2) demo_clock demo_rng demo_memory 20 3 m with
      | Some (inr r, m') =>
          (num_tasks r, tasks_submitted m', tasks_completed m') = (3, 3, 3) ∧
          ids (arrived m') = [1; 2; 3] ∧
          result <$> arrived m' !! 0%nat
            = Some (Some (PStr "Error: No space left on device")) ∧
          length (history (task_queue m')) = 5%nat ∧
          pc <$> workers m' = [Stopped; Stopped]
      | _ => False
      end
  | inl _ => False
  end.
Proof. vm_compute. by split_and!. Qed.

(** Witness of C7: the tag 'gpu' is served by the CPU workload. *)
Lemma get_task_function_dispatch_witness :
  get_task_function demo_io_task demo_cpu_task demo_mixed_task "gpu"
    = demo_cpu_task.
Proof.
  destruct (get_task_function_dispatch demo_io_task demo_cpu_task
              demo_mixed_task) as (_ & _ & _ & Hunknown & _).
  apply Hunknown; discriminate.
Defined.

(** Witness of C2: a thread worker dequeues the failing mixed task. *)
Lemma process_task_completes_witness :
  result (process_task demo_io_task demo_cpu_task demo_mixed_task 10 11
            demo_task)
    = Some (PStr "Error: No space left on device") ∧
  processing_time
    (process_task demo_io_task demo_cpu_task demo_mixed_task 10 11 demo_task)
    = (11 - 10)%Q ∧
  ∃ w1 tq1,
    worker_step demo_io_task demo_cpu_task demo_mixed_task (mkTick 0 10 11)
      (mkWorker 1 ThreadW true AwaitTask)
      (mkQueue true [inr (Some demo_task)] 1 [Some demo_task])
      (new_queue true)
    = (w1, tq1, new_queue true) ∧
    pc w1 = Processed (process_task demo_io_task demo_cpu_task
                         demo_mixed_task 10 11 demo_task).
Proof.
  destruct (process_task_completes demo_io_task demo_cpu_task demo_mixed_task
              (mkTick 0 10 11) (mkTick 0 11 12) (mkTick 0 12 13)
              (mkWorker 1 ThreadW true AwaitTask) demo_task []
              (mkQueue true [inr (Some demo_task)] 1 [Some demo_task])
              (new_queue true) eq_refl eq_refl eq_refl)
    as (_ & _ & _ & Hres & _ & Htime & _ & w1 & tq1 & w2 & Hstep & Hpc & _).
  split; [exact Hres|]. split; [exact Htime|].
  exists w1, tq1. split; [exact Hstep | exact Hpc].
Defined.

(** Witness of C3: two tasks on the sequential backend, round robin. *)
Lemma tasks_per_second_spec_witness :
  ∃ m fuel r m',
    SingleProcessMaster 1 = inr m ∧
    run_benchmark demo_io_task demo_cpu_task demo_mixed_task (round_robin 1)
      demo_clock demo_rng demo_memory fuel 2 m = Some (inr r, m') ∧
    num_tasks r = 2 ∧
    tasks_per_second r
      = (if Qlt_le_dec 0 (total_time r)
         then inject_Z 2 / total_time r else 0)%Q.
Proof.
  destruct (run_from_fresh demo_io_task demo_cpu_task demo_mixed_task
              (round_robin 1) demo_clock demo_rng demo_memory 2
              (mkMaster "single_process" 1 [ThreadWorker 1] (new_queue true)
                 (new_queue true) None None false 0 0 0%nat))
    as (fuel & results & r & m3 & m4 & _ & Hrun & _).
  { by apply (constructors_fresh SingleProcess "single_process" 1). }
  { done. }
  { apply round_robin_fair. }
  eexists _, fuel, r, m4. split; [reflexivity|]. split; [exact Hrun|].
  destruct (tasks_per_second_spec demo_io_task demo_cpu_task demo_mixed_task
              (round_robin 1) demo_clock demo_rng demo_memory fuel 2
              (mkMaster "single_process" 1 [ThreadWorker 1] (new_queue true)
                 (new_queue true) None None false 0 0 0%nat) r m4 Hrun)
    as (Hn & _ & Hrate & _).
  split; [exact Hn | exact Hrate].
Defined.

(** Witness of C5: stopping a started pool of two, under the round
    robin and with no worker activated. *)
Lemma stop_workers_idempotent_witness :
  (∃ m',
     stop_workers demo_io_task demo_cpu_task demo_mixed_task (round_robin 2)
       demo_started = (inr tt, m') ∧
     running m' = false ∧
     history (task_queue m') = [None; None] ∧
     (sentinels (task_queue m') + stopped_workers (workers m') = 2)%nat ∧
     stop_workers demo_io_task demo_cpu_task demo_mixed_task (round_robin 2)
       m' = (inr tt, m')) ∧
  (∃ m',
     stop_workers demo_io_task demo_cpu_task demo_mixed_task (λ _, [])
       demo_started = (inr tt, m') ∧
     pending (task_queue m') = [inr None; inr None] ∧
     unfinished_tasks (task_queue m') = 2%nat).
Proof.
  split.
  - destruct (stop_workers_idempotent demo_io_task demo_cpu_task
                demo_mixed_task (round_robin 2) demo_started)
      as [_ Hrunning].
    { intros _. by repeat constructor. }
    destruct (Hrunning eq_refl)
      as (m' & Hstop & Hoff & Hh & Hsent & _ & Hagain & _).
    exists m'.
    split_and!; [exact Hstop | exact Hoff | exact Hh | | exact Hagain].
    apply Hsent. by repeat constructor.
  - destruct (stop_workers_idempotent demo_io_task demo_cpu_task
                demo_mixed_task (λ _, []) demo_started)
      as [_ Hrunning].
    { intros _. by repeat constructor. }
    destruct (Hrunning eq_refl)
      as (m' & Hstop & _ & _ & _ & _ & _ & _ & Hquiet).
    destruct (Hquiet (λ _, eq_refl)) as (Hpending & Hunfinished & _).
    exists m'. split_and!; [exact Hstop | exact Hpending | exact Hunfinished].
Defined.

(** Witness of C1: three tasks on two threads, round robin. *)
Lemma run_benchmark_completes_witness :
  ∃ m,
    ThreadedMaster 2 = inr m ∧ workers m ≠ [] ∧
    fair (round_robin 2) (length (workers m)) ∧
    ∃ fuel results r m3 m4,
      run_benchmark_try demo_io_task demo_cpu_task demo_mixed_task
        (round_robin 2) demo_clock demo_rng demo_memory fuel 3 m
        = Some (inr (results, r), m3) ∧
      run_benchmark demo_io_task demo_cpu_task demo_mixed_task
        (round_robin 2) demo_clock demo_rng demo_memory fuel 3 m
        = Some (inr r, m4) ∧
      ids results ≡ₚ seqZ 1 3 ∧ NoDup (ids results) ∧
      length results = Z.to_nat 3 ∧
      tasks_completed m4 = Z.max 0 3 ∧ tasks_submitted m4 = Z.max 0 3.
Proof.
  eexists. split; [reflexivity|]. split; [done|].
  split; [apply round_robin_fair|].
  destruct (run_benchmark_completes demo_io_task demo_cpu_task
              demo_mixed_task (round_robin 2) demo_clock demo_rng demo_memory
              Threaded "threaded" 2 3
              (mkMaster "threaded" 2 [ThreadWorker 1; ThreadWorker 2]
                 (new_queue true) (new_queue true) None None false 0 0 0%nat)
              eq_refl) as (_ & Hcompletes & _).
  apply Hcompletes; [done | apply round_robin_fair].
Defined.

(** Witness of C6: five tasks on the sequential backend, four workers
    requested. *)
Lemma sequential_preserves_order_witness :
  ∃ m,
    SingleProcessMaster 4 = inr m ∧ fair (round_robin 1) 1 ∧
    ∃ fuel results r m3 m4,
      run_benchmark_try demo_io_task demo_cpu_task demo_mixed_task
        (round_robin 1) demo_clock demo_rng demo_memory fuel 5 m
        = Some (inr (results, r), m3) ∧
      run_benchmark demo_io_task demo_cpu_task demo_mixed_task
        (round_robin 1) demo_clock demo_rng demo_memory fuel 5 m
        = Some (inr r, m4) ∧
      ids (arrived m4) = ids (submitted_tasks m4) ∧
      ids (submitted_tasks m4) = seqZ 1 5 ∧
      ids results = seqZ 1 5.
Proof.
  eexists. split; [reflexivity|]. split; [apply round_robin_fair|].
  apply (sequential_preserves_order demo_io_task demo_cpu_task
           demo_mixed_task (round_robin 1) demo_clock demo_rng demo_memory
           4 5);
    [reflexivity | apply round_robin_fair].
Defined.

(** ** Where the code departs from the specification *)

(** Counterexample to C4: a worker count of 0 or -3 is accepted; the
    constructors return a master with an empty pool. *)
Lemma construction_accepts_nonpositive :
  (∃ m, ThreadedMaster 0 = inr m ∧ num_workers m = 0 ∧ workers m = []) ∧
  (∃ m, MultiprocessMaster (-3) = inr m ∧ num_workers m = -3 ∧
        workers m = []) ∧
  (∃ m, SingleProcessMaster (-3) = inr m).
Proof. split_and!; eexists; split_and?; reflexivity. Qed.

(** Counterexample to C1: [ThreadedMaster(0)] constructs, and on it
    [run_benchmark(1)] never returns, whatever the workloads, the
    schedule and the clock: no amount of fuel yields a result. *)
Lemma empty_pool_never_completes :
  ∃ m,
    ThreadedMaster 0 = inr m ∧
    ∀ io_task cpu_task mixed_task sched clock rng memory fuel,
      run_benchmark io_task cpu_task mixed_task sched clock rng memory
        fuel 1 m = None.
Proof.
  eexists. split; [reflexivity|].
  intros io_task cpu_task mixed_task sched clock rng memory fuel.
  apply empty_pool_hangs; [|done|done].
  by apply (constructors_fresh Threaded "threaded" 0).
Qed.

(** Counterexample to C2: the activation reads the clock at 11 and then,
    the clock having been set back, at 10.  The worker completes the
    task with a processing time of -1. *)
Lemma process_task_negative_time :
  match worker_step demo_io_task demo_cpu_task demo_mixed_task
          (mkTick 0 11 10) (mkWorker 1 ThreadW true AwaitTask)
          (mkQueue true [inr (Some demo_task)] 1 [Some demo_task])
          (new_queue true) with
  | (w1, _, _) =>
      match pc w1 with
      | Processed done =>
          id done = 3 ∧
          result done = Some (PStr "Error: No space left on device") ∧
          (processing_time done == -1)%Q ∧ (processing_time done < 0)%Q
      | _ => False
      end
  end.
Proof. vm_compute. by split_and!. Qed.

(** Counterexample to C3: two tasks on the sequential backend while the
    clock goes back.  [total_time] is negative and the rate reported is
    0, not [n / total_time]; both tasks were completed.  And on the
    statistics alone: with [n = -2], no result and four seconds between
    the readings, the rate is -1/2, not 0. *)
Lemma tasks_per_second_clock_steps_back :
  match SingleProcessMaster 1 with
  | inr m =>
      match run_benchmark demo_io_task demo_cpu_task demo_mixed_task
              (round_robin 1) falling_clock demo_rng demo_memory 20 2 m with
      | Some (inr r, m') =>
          num_tasks r = 2 ∧ tasks_completed m' = 2 ∧
          (total_time r < 0)%Q ∧ tasks_per_second r = 0%Q ∧
          ¬ (tasks_per_second r == inject_Z 2 / total_time r)%Q
      | _ => False
      end
  | inl _ => False
  end ∧
  match benchmark_statistics "single_process" 1 (-2) 0 4 42 [] with
  | inr r =>
      num_tasks r = -2 ∧ (total_time r == 4)%Q ∧
      (tasks_per_second r == -(1 # 2))%Q ∧ ¬ (tasks_per_second r == 0)%Q
  | inl _ => False
  end.
Proof. vm_compute. split_and!; try done. Qed.


(** ** The CPU workload *)

Lemma cpu_term_zero (c : Z) : Workload.cpu_term 0 c = 0.
Proof. unfold Workload.cpu_term. simpl. apply Z.mod_1_r. Qed.

Lemma cpu_term_parity (i c : Z) :
  0 < i → 0 ≤ c →
  Workload.cpu_term i c = if Z.even c then 1 else i.
Proof.
  intros Hi Hc. unfold Workload.cpu_term.
  replace (0 <? i) with true by (symmetry; by apply Z.ltb_lt).
  revert c Hc. apply natlike_ind.
  - simpl. apply Z.mod_small. lia.
  - intros c Hc IH. rewrite Z.pow_succ_r by done.
    rewrite Z.even_succ, <- Z.negb_even.
    rewrite <- Z.mul_mod_idemp_r by lia. rewrite IH.
    destruct (Z.even c); simpl.
    + rewrite Z.mul_1_r. apply Z.mod_small. lia.
    + replace (i * i) with (1 + (i - 1) * (i + 1)) by lia.
      rewrite Z_mod_plus_full. apply Z.mod_small. lia.
Qed.

Lemma cpu_sum (c : Z) (k : nat) :
  0 ≤ c →
  foldl (λ result i, result + Workload.cpu_term i c) 0
        (seqZ 0 (Z.of_nat (S k)))
  = if Z.even c then Z.of_nat k else (Z.of_nat (S k) * Z.of_nat k) `div` 2.
Proof.
  intros Hc. induction k as [|k IH].
  - simpl. rewrite cpu_term_zero. by destruct (Z.even c).
  - replace (Z.of_nat (S (S k))) with (Z.of_nat (S k) + 1) by lia.
    rewrite seqZ_app by lia. rewrite foldl_app, IH.
    change (seqZ (0 + Z.of_nat (S k)) 1) with [0 + Z.of_nat (S k)].
    simpl foldl. rewrite cpu_term_parity by lia.
    destruct (Z.even c); [lia|].
    replace ((Z.of_nat (S k) + 1) * Z.of_nat (S k))
      with (Z.of_nat (S k) * Z.of_nat k + Z.of_nat (S k) * 2) by lia.
    rewrite Z.div_add by lia. lia.
Qed.

(** What [cpu_task] computes when it returns. *)
Lemma cpu_task_value (payload : dict) (n c : Z) :
  Workload.dict_get payload "iterations" (PInt 1000000) = PInt n →
  Workload.dict_get payload "complexity" (PInt 1) = PInt c →
  n ≤ 0 ∨ 0 ≤ c →
  Workload.cpu_task payload =
    Returns [("iterations_completed", PInt n);
             ("result",
              PInt (if n <=? 0 then 0
                    else if Z.even c then n - 1
                         else (n * (n - 1)) `div` 2))].
Proof.
  intros Hn Hc Hcase. unfold Workload.cpu_task. rewrite Hn, Hc.
  destruct (Z.leb_spec n 0) as [Hle|Hpos]; [done|].
  replace (c <? 0) with false by (symmetry; apply Z.ltb_ge; lia).
  destruct (Z.to_nat n) as [|k] eqn:Hk; [lia|].
  replace n with (Z.of_nat (S k)) by lia.
  rewrite cpu_sum by lia.
  by replace (Z.of_nat (S k) - 1) with (Z.of_nat k) by lia.
Qed.

(** X1: with a positive integer iteration count [n] and an integer
    complexity [c >= 0], [cpu_task] returns; the "result" it computes
    depends on [c] only through its parity: [n - 1] for an even [c],
    [n (n - 1) / 2] for an odd one. *)
Theorem cpu_task_closed_form (payload : dict) (n c : Z) :
  Workload.dict_get payload "iterations" (PInt 1000000) = PInt n →
  Workload.dict_get payload "complexity" (PInt 1) = PInt c →
  0 < n → 0 ≤ c →
  Workload.cpu_task payload =
    Returns [("iterations_completed", PInt n);
             ("result",
              PInt (if Z.even c then n - 1 else (n * (n - 1)) `div` 2))].
Proof.
  intros Hn Hc Hpos Hnneg.
  rewrite (cpu_task_value payload n c Hn Hc) by (right; lia).
  by replace (n <=? 0) with false by (symmetry; apply Z.leb_gt; lia).
Qed.

(** Witness of X1: the defaults of an empty payload, a million iterations
    of complexity 1. *)
Lemma cpu_task_closed_form_witness :
  Workload.cpu_task [] =
    Returns [("iterations_completed", PInt 1000000);
             ("result", PInt 499999500000)].
Proof.
  rewrite (cpu_task_closed_form [] 1000000 1); [reflexivity|reflexivity..|lia|lia].
Defined.

(** X2: the edge cases of [cpu_task].  With an iteration count [n <= 0]
    the loop does not run: the call returns result 0 and reports [n]
    iterations, whatever the complexity is, even one of the wrong type.
    With [n > 0], a negative integer complexity raises
    [ZeroDivisionError] (at [i = 0]), and a complexity that is a string
    or a dictionary raises the [TypeError] of [**].  An iteration count
    that is a string or a dictionary raises the [TypeError] of
    [range]. *)
Theorem cpu_task_edge_cases (payload : dict) :
  (∀ n, Workload.dict_get payload "iterations" (PInt 1000000) = PInt n →
        n ≤ 0 →
        Workload.cpu_task payload =
          Returns [("iterations_completed", PInt n); ("result", PInt 0)]) ∧
  (∀ n c, Workload.dict_get payload "iterations" (PInt 1000000) = PInt n →
          Workload.dict_get payload "complexity" (PInt 1) = PInt c →
          0 < n → c < 0 →
          ∃ e, Workload.cpu_task payload = Raises e ∧
               exn_class e = "ZeroDivisionError") ∧
  (∀ n s, Workload.dict_get payload "iterations" (PInt 1000000) = PInt n →
          Workload.dict_get payload "complexity" (PInt 1) = PStr s →
          0 < n →
          Workload.cpu_task payload
            = Raises (TypeError "unsupported operand type(s) for ** or pow(): 'int' and 'str'")) ∧
  (∀ n d, Workload.dict_get payload "iterations" (PInt 1000000) = PInt n →
          Workload.dict_get payload "complexity" (PInt 1) = PDict d →
          0 < n →
          Workload.cpu_task payload
            = Raises (TypeError "unsupported operand type(s) for ** or pow(): 'int' and 'dict'")) ∧
  (∀ s, Workload.dict_get payload "iterations" (PInt 1000000) = PStr s →
        Workload.cpu_task payload
          = Raises (TypeError "'str' object cannot be interpreted as an integer")) ∧
  (∀ d, Workload.dict_get payload "iterations" (PInt 1000000) = PDict d →
        Workload.cpu_task payload
          = Raises (TypeError "'dict' object cannot be interpreted as an integer")).
Proof.
  unfold Workload.cpu_task. split_and!.
  - intros n -> Hn.
    by replace (n <=? 0) with true by (symmetry; apply Z.leb_le; lia).
  - intros n c -> -> Hn Hc.
    replace (n <=? 0) with false by (symmetry; apply Z.leb_gt; lia).
    replace (c <? 0) with true by (symmetry; apply Z.ltb_lt; lia).
    by eexists.
  - intros n s -> -> Hn.
    by replace (n <=? 0) with false by (symmetry; apply Z.leb_gt; lia).
  - intros n d -> -> Hn.
    by replace (n <=? 0) with false by (symmetry; apply Z.leb_gt; lia).
  - by intros s ->.
  - by intros d ->.
Qed.

(** Witness of X2: zero iterations with a complexity of the wrong type,
    one iteration with complexity -1, and one with a string. *)
Lemma cpu_task_edge_cases_witness :
  Workload.cpu_task [("iterations", PInt 0); ("complexity", PStr "high")]
    = Returns [("iterations_completed", PInt 0); ("result", PInt 0)] ∧
  (∃ e, Workload.cpu_task [("iterations", PInt 1); ("complexity", PInt (-1))]
          = Raises e ∧ exn_class e = "ZeroDivisionError") ∧
  Workload.cpu_task [("iterations", PInt 1); ("complexity", PStr "high")]
    = Raises (TypeError "unsupported operand type(s) for ** or pow(): 'int' and 'str'").
Proof.
  split_and!.
  - destruct (cpu_task_edge_cases
                [("iterations", PInt 0); ("complexity", PStr "high")])
      as (Hzero & _).
    apply Hzero; [reflexivity|lia].
  - destruct (cpu_task_edge_cases
                [("iterations", PInt 1); ("complexity", PInt (-1))])
      as (_ & Hneg & _).
    apply (Hneg 1 (-1)); [reflexivity|reflexivity|lia|lia].
  - destruct (cpu_task_edge_cases
                [("iterations", PInt 1); ("complexity", PStr "high")])
      as (_ & _ & Hstr & _).
    apply (Hstr 1 "high"); [reflexivity|reflexivity|lia].
Defined.

(** ** Generated tasks *)

(** X3: [generate_random_task] gives a pending task with the requested id
    and one of the three types; its payload has the keys of that type with
    values in the ranges drawn: an io task a size in 512..2048, a cpu task
    100000..1000000 iterations of complexity 1 or 2, a mixed task
    50000..500000 iterations of complexity 1 or 2 and a size in 256..1024.
    On the payload of a generated cpu task [cpu_task] returns. *)
Theorem generate_random_task_wellformed (rnd : draw) (task_id : Z) :
  let task := generate_random_task rnd task_id in
  id task = task_id ∧ result task = None ∧
  ((task_type task = "io" ∧
    ∃ size, payload task =
              [("filename", PStr ("file_" +:+ pretty task_id +:+ ".txt"));
               ("content", PStr ("Content for task " +:+ pretty task_id));
               ("size", PInt size)] ∧
            512 ≤ size ≤ 2048) ∨
   (task_type task = "cpu" ∧
    ∃ n c, payload task = [("iterations", PInt n); ("complexity", PInt c)] ∧
           100000 ≤ n ≤ 1000000 ∧ (c = 1 ∨ c = 2) ∧
           ∃ d, Workload.cpu_task (payload task) = Returns d) ∨
   (task_type task = "mixed" ∧
    ∃ n c size,
      payload task =
        [("filename", PStr ("mixed_" +:+ pretty task_id +:+ ".txt"));
         ("iterations", PInt n); ("complexity", PInt c);
         ("size", PInt size)] ∧
      50000 ≤ n ≤ 500000 ∧ (c = 1 ∨ c = 2) ∧ 256 ≤ size ≤ 1024)).
Proof.
  assert (∀ r a b, a ≤ b → a ≤ randint r a b ≤ b) as Hrand.
  { intros r a b Hab. unfold randint.
    pose proof (Z.mod_pos_bound r (b - a + 1)). lia. }
  assert (∀ r, randint r 1 2 = 1 ∨ randint r 1 2 = 2) as Hcx.
  { intros r. pose proof (Hrand r 1 2). lia. }
  unfold generate_random_task, choice. simpl length.
  pose proof (Nat.mod_upper_bound (pick rnd) 3) as Hpick.
  destruct (pick rnd `mod` 3)%nat as [|[|[|k]]]; simpl; [| | |lia].
  - split_and!; try done. left. split; [done|].
    eexists. split; [reflexivity|]. apply Hrand. lia.
  - split_and!; try done. right; left. split; [done|].
    eexists _, _. split; [reflexivity|]. split; [apply Hrand; lia|].
    split; [apply Hcx|].
    eexists. apply (cpu_task_value _ (randint (r1 rnd) 100000 1000000)
                      (randint (r2 rnd) 1 2)); try reflexivity.
    right. destruct (Hcx (r2 rnd)); lia.
  - split_and!; try done. right; right. split; [done|].
    eexists _, _, _. split; [reflexivity|].
    split; [apply Hrand; lia|]. split; [apply Hcx|]. apply Hrand. lia.
Qed.

(** ** The mixed workload *)

(** The dictionary of [cpu_task] holds an integer under "result": the
    content that [mixed_task] hands to the I/O stage is always "Result: "
    followed by a number. *)
Lemma cpu_task_result_int (payload d : dict) :
  Workload.cpu_task payload = Returns d →
  ∃ v z, d = [("iterations_completed", v); ("result", PInt z)].
Proof.
  unfold Workload.cpu_task.
  destruct (Workload.dict_get payload "iterations" (PInt 1000000))
    as [n| |]; [|done..].
  destruct (n <=? 0); [intros [= <-]; by eexists _, _|].
  destruct (Workload.dict_get payload "complexity" (PInt 1)) as [c| |];
    [|done..].
  destruct (c <? 0); [done|]. intros [= <-]. by eexists _, _.
Qed.


Lemma mixed_task_value (io_task : dict → outcome) (r : Z) (payload : dict)
    (n c : Z) :
  Workload.dict_get payload "iterations" (PInt 500000) = PInt n →
  Workload.dict_get payload "complexity" (PInt 1) = PInt c →
  n ≤ 0 ∨ 0 ≤ c →
  Workload.mixed_task io_task r payload =
    match io_task
            [("filename",
              Workload.dict_get payload "filename"
                (PStr ("mixed_" +:+ pretty (randint r 1000 9999)
                       +:+ ".txt")));
             ("content",
              PStr ("Result: "
                    +:+ pretty (if n <=? 0 then 0
                                else if Z.even c then n - 1
                                     else (n * (n - 1)) `div` 2)));
             ("size", Workload.dict_get payload "size" (PInt 512))] with
    | Raises e => Raises e
    | Returns io_result =>
        Returns [("cpu_result",
                  PDict [("iterations_completed", PInt n);
                         ("result",
                          PInt (if n <=? 0 then 0
                                else if Z.even c then n - 1
                                     else (n * (n - 1)) `div` 2))]);
                 ("io_result", PDict io_result)]
    end.
Proof.
  intros Hn Hc Hcase. unfold Workload.mixed_task. rewrite Hn, Hc.
  by rewrite (cpu_task_value
                [("iterations", PInt n); ("complexity", PInt c)] n c
                eq_refl eq_refl Hcase).
Qed.

(** X18: [mixed_task] is the CPU workload followed by the I/O workload.
    When the CPU stage raises (a positive iteration count with a negative
    complexity) the call raises that error and the I/O stage has no part
    in the outcome.  Otherwise the I/O workload is called with the file
    name and size of the payload (or the defaults) and the content
    "Result: z", [z] being the closed form of the CPU result; its error
    is the error of the call, and its dictionary is returned next to that
    of the CPU stage. *)
Theorem mixed_task_composition (io_task : dict → outcome) (r : Z)
    (payload : dict) (n c : Z) :
  Workload.dict_get payload "iterations" (PInt 500000) = PInt n →
  Workload.dict_get payload "complexity" (PInt 1) = PInt c →
  (0 < n → c < 0 →
   ∃ e, Workload.mixed_task io_task r payload = Raises e ∧
        exn_class e = "ZeroDivisionError") ∧
  (n ≤ 0 ∨ 0 ≤ c →
   let z := if n <=? 0 then 0
            else if Z.even c then n - 1 else (n * (n - 1)) `div` 2 in
   Workload.mixed_task io_task r payload =
     match io_task
             [("filename",
               Workload.dict_get payload "filename"
                 (PStr ("mixed_" +:+ pretty (randint r 1000 9999)
                        +:+ ".txt")));
              ("content", PStr ("Result: " +:+ pretty z));
              ("size", Workload.dict_get payload "size" (PInt 512))] with
     | Raises e => Raises e
     | Returns io_result =>
         Returns [("cpu_result",
                   PDict [("iterations_completed", PInt n);
                          ("result", PInt z)]);
                  ("io_result", PDict io_result)]
     end).
Proof.
  intros Hn Hc. split.
  - intros Hpos Hneg. unfold Workload.mixed_task. rewrite Hn, Hc.
    unfold Workload.cpu_task. simpl.
    replace (n <=? 0) with false by (symmetry; apply Z.leb_gt; lia).
    replace (c <? 0) with true by (symmetry; apply Z.ltb_lt; lia).
    by eexists.
  - intros Hcase. cbv zeta. by apply mixed_task_value.
Qed.

(** Witness of X18: the payload of a generated mixed task. *)
Lemma mixed_task_composition_witness :
  Workload.mixed_task demo_io_task 7
    [("filename", PStr "mixed_3.txt"); ("iterations", PInt 50000);
     ("complexity", PInt 2); ("size", PInt 256)]
  = Returns [("cpu_result",
              PDict [("iterations_completed", PInt 50000);
                     ("result", PInt 49999)]);
             ("io_result",
              PDict [("filepath", PStr "temp_files/file.txt");
                     ("size", PInt 1032)])].
Proof.
  destruct (mixed_task_composition demo_io_task 7
              [("filename", PStr "mixed_3.txt"); ("iterations", PInt 50000);
               ("complexity", PInt 2); ("size", PInt 256)] 50000 2
              eq_refl eq_refl) as [_ Hreturns].
  rewrite Hreturns by (right; lia). reflexivity.
Defined.

Lemma get_task_function_known (io_task cpu_task mixed_task : dict → outcome) :
  get_task_function io_task cpu_task mixed_task "io" = io_task ∧
  get_task_function io_task cpu_task mixed_task "cpu" = cpu_task ∧
  get_task_function io_task cpu_task mixed_task "mixed" = mixed_task.
Proof.
  unfold get_task_function, task_functions. split_and!.
  - by rewrite lookup_insert_eq.
  - rewrite lookup_insert_ne by done. by rewrite lookup_insert_eq.
  - rewrite !lookup_insert_ne by done. by rewrite lookup_insert_eq.
Qed.

Lemma generated_cases (rnd : draw) (task_id : Z) :
  task_type (generate_random_task rnd task_id) = "io" ∨
  (task_type (generate_random_task rnd task_id) = "cpu" ∧
   ∃ n c, payload (generate_random_task rnd task_id)
            = [("iterations", PInt n); ("complexity", PInt c)] ∧
          0 < n ∧ 0 ≤ c) ∨
  (task_type (generate_random_task rnd task_id) = "mixed" ∧
   ∃ f n c size,
     payload (generate_random_task rnd task_id)
       = [("filename", f); ("iterations", PInt n); ("complexity", PInt c);
          ("size", size)] ∧
     0 < n ∧ 0 ≤ c).
Proof.
  assert (∀ r a b, a ≤ b → a ≤ randint r a b ≤ b) as Hrand.
  { intros r a b Hab. unfold randint.
    pose proof (Z.mod_pos_bound r (b - a + 1)). lia. }
  unfold generate_random_task, choice. simpl length.
  pose proof (Nat.mod_upper_bound (pick rnd) 3) as Hpick.
  destruct (pick rnd `mod` 3)%nat as [|[|[|k]]]; simpl; [| | |lia].
  - by left.
  - right; left. split; [done|]. eexists _, _. split; [reflexivity|].
    pose proof (Hrand (r1 rnd) 100000 1000000).
    pose proof (Hrand (r2 rnd) 1 2). lia.
  - right; right. split; [done|]. eexists _, _, _, _. split; [reflexivity|].
    pose proof (Hrand (r1 rnd) 50000 500000).
    pose proof (Hrand (r2 rnd) 1 2). lia.
Qed.

(** X19: in a run, errors come from the I/O workload only.  Whatever the
    random draws, a generated task processed with [cpu_task] and
    [mixed_task] as they are ends with a dictionary as its result, or
    with the marker "Error: ..." of an exception that [io_task] raised;
    for a generated cpu task it is always the dictionary. *)
Theorem generated_task_errors_come_from_io (io_task : dict → outcome)
    (r : Z) (rnd : draw) (task_id : Z) (t0 t1 : Q) :
  let task := generate_random_task rnd task_id in
  let t := process_task io_task Workload.cpu_task
             (Workload.mixed_task io_task r) t0 t1 task in
  ((∃ d, result t = Some (PDict d)) ∨
   (∃ p e, io_task p = Raises e ∧
           result t = Some (PStr ("Error: " +:+ exn_msg e)))) ∧
  (task_type task = "cpu" → ∃ d, result t = Some (PDict d)).
Proof.
  cbv zeta.
  pose proof (process_task_result io_task Workload.cpu_task
                (Workload.mixed_task io_task r) t0 t1
                (generate_random_task rnd task_id)) as Hres.
  destruct (get_task_function_known io_task Workload.cpu_task
              (Workload.mixed_task io_task r)) as (Hio & Hcpu & Hmixed).
  destruct (generated_cases rnd task_id)
    as [Hty|[(Hty & n & c & Hpay & Hn & Hc)
            |(Hty & f & n & c & size & Hpay & Hn & Hc)]];
    rewrite Hty in Hres |- *.
  - rewrite Hio in Hres.
    destruct (io_task (payload (generate_random_task rnd task_id)))
      as [d|e] eqn:Hcall.
    + split; [left; by exists d|by intros].
    + split; [right; by eexists _, e|by intros].
  - rewrite Hcpu, Hpay in Hres.
    rewrite (cpu_task_value [("iterations", PInt n); ("complexity", PInt c)]
               n c eq_refl eq_refl) in Hres by (right; lia).
    split; [left|intros _]; by eexists.
  - rewrite Hmixed, Hpay in Hres.
    rewrite (mixed_task_value io_task r
               [("filename", f); ("iterations", PInt n);
                ("complexity", PInt c); ("size", size)] n c eq_refl eq_refl)
      in Hres by (right; lia).
    split; [|by intros].
    destruct (io_task _) as [d|e] eqn:Hcall.
    + left. by eexists.
    + right. by eexists _, e.
Qed.

(** ** The statistics by task type *)

Lemma group_add_keys (k : string) (v : Q) (g : list (string * list Q)) :
  (group_add k v g).*1 = if decide (k ∈ g.*1) then g.*1 else g.*1 ++ [k].
Proof.
  induction g as [|[k' vs] g IH]; [done|]. cbn [group_add].
  destruct (String.eqb_spec k k') as [->|Hne]; rewrite !fmap_cons; cbn [fst].
  - rewrite decide_True by left. done.
  - rewrite IH. destruct (decide (k ∈ g.*1)) as [Hin|Hin].
    + rewrite decide_True by (by right). done.
    + rewrite decide_False; [done|].
      intros [?|?]%elem_of_cons; done.
Qed.

Lemma group_add_NoDup (k : string) (v : Q) (g : list (string * list Q)) :
  NoDup g.*1 → NoDup (group_add k v g).*1.
Proof.
  intros Hg. rewrite group_add_keys. destruct (decide (k ∈ g.*1)); [done|].
  apply NoDup_app. split; [done|]. split; [|apply NoDup_singleton].
  intros x Hx ->%list_elem_of_singleton. done.
Qed.

Lemma group_add_map (k : string) (v : Q) (g : list (string * list Q)) :
  (list_to_map (group_add k v g) : gmap string (list Q))
    = <[k := default [] ((list_to_map g : gmap string (list Q)) !! k) ++ [v]]>
        (list_to_map g).
Proof.
  induction g as [|[k' vs] g IH]; [done|]. cbn [group_add].
  destruct (String.eqb_spec k k') as [->|Hne]; rewrite !list_to_map_cons.
  - by rewrite lookup_insert_eq, insert_insert_eq.
  - rewrite IH, lookup_insert_ne by done. by apply insert_insert_ne.
Qed.

Lemma groups_spec (results : list Task) :
  let g := foldl (λ g task,
                    group_add (task_type task) (processing_time task) g)
             [] results in
  NoDup g.*1 ∧
  ∀ ty, (list_to_map g : gmap string (list Q)) !! ty
        = match processing_time <$> filter (λ t, task_type t = ty) results with
          | [] => None
          | ts => Some ts
          end.
Proof.
  induction results as [|t results IH] using rev_ind; simpl.
  - split; [constructor|]. intros ty. done.
  - rewrite foldl_app. simpl. destruct IH as [Hnd Hmap].
    split; [by apply group_add_NoDup|].
    intros ty. rewrite group_add_map, filter_app, fmap_app.
    destruct (decide (ty = task_type t)) as [->|Hne].
    + rewrite lookup_insert_eq, Hmap.
      rewrite (filter_cons_True _ t) by done. rewrite filter_nil. simpl.
      destruct (processing_time <$> filter _ results); by simpl.
    + rewrite lookup_insert_ne by done. rewrite Hmap.
      rewrite (filter_cons_False _ t) by done.
      rewrite filter_nil. simpl. by rewrite app_nil_r.
Qed.

Lemma averages_map (g : list (string * list Q)) (l : list (string * Q)) :
  averages g = inr l →
  l.*1 = g.*1 ∧
  (list_to_map l : gmap string Q)
    = (λ ts, (py_sum ts / inject_Z (Z.of_nat (length ts)))%Q)
        <$> (list_to_map g : gmap string (list Q)).
Proof.
  revert l. induction g as [|[k ts] g IH]; intros l; cbn [averages].
  - intros [= <-]. split; [done|]. cbn [list_to_map foldr]. by rewrite fmap_empty.
  - unfold py_div. destruct (Qeq_bool _ 0); [done|].
    destruct (averages g) as [e|l']; [done|]. intros [= <-].
    destruct (IH l' eq_refl) as [Hk Hm].
    rewrite !fmap_cons, !list_to_map_cons, fmap_insert. cbn [fst].
    by rewrite Hk, Hm.
Qed.

(** X11: the statistics by task type.  [run_benchmark]'s [avg_by_type]
    has one entry for each task type that occurs among the results and no
    other; the entry is the sum of the processing times of the results of
    that type, in their order, divided by their number.  [avg_task_time]
    is the mean over all results, 0 when there are none.  The statistics
    never raise. *)
Theorem avg_by_type_spec (name : string) (num_workers n : Z)
    (start_time end_time mem : Q) (results : list Task) :
  ∃ r,
    benchmark_statistics name num_workers n start_time end_time mem results
      = inr r ∧
    NoDup (avg_by_type r).*1 ∧
    (∀ ty, ty ∈ (avg_by_type r).*1 ↔ ty ∈ task_type <$> results) ∧
    (∀ ty,
       (list_to_map (avg_by_type r) : gmap string Q) !! ty
       = match processing_time <$> filter (λ t, task_type t = ty) results with
         | [] => None
         | ts => Some (py_sum ts / inject_Z (Z.of_nat (length ts)))%Q
         end) ∧
    avg_task_time r
      = match results with
        | [] => 0%Q
        | _ => (py_sum (processing_time <$> results)
                / inject_Z (Z.of_nat (length results)))%Q
        end.
Proof.
  destruct (benchmark_statistics_defined name num_workers n start_time
              end_time mem results) as (avg & byt & Hstats).
  eexists. split; [exact Hstats|].
  unfold benchmark_statistics in Hstats.
  destruct (if Qlt_le_dec 0 (end_time - start_time)
            then py_div (inject_Z n) (end_time - start_time) else inr 0%Q)
    as [e|tps]; [done|].
  destruct (match processing_time <$> results with
            | [] => inr 0%Q
            | _ => py_div (py_sum (processing_time <$> results))
                     (inject_Z (Z.of_nat (length (processing_time <$> results))))
            end) as [e|avg'] eqn:Havg; [done|].
  destruct (averages _) as [e|byt'] eqn:Hbyt; [done|].
  injection Hstats as _ -> ->. simpl.
  destruct (averages_map _ _ Hbyt) as [Hkeys Hmap].
  destruct (groups_spec results) as [Hnd Hg]. simpl in Hnd, Hg.
  assert (∀ ty,
    (list_to_map byt : gmap string Q) !! ty
    = match processing_time <$> filter (λ t, task_type t = ty) results with
      | [] => None
      | ts => Some (py_sum ts / inject_Z (Z.of_nat (length ts)))%Q
      end) as Hlook.
  { intros ty. rewrite Hmap, lookup_fmap, Hg.
    by destruct (processing_time <$> filter _ results). }
  split_and!.
  - by rewrite Hkeys.
  - intros ty. split.
    + intros Hin.
      destruct ((list_to_map byt : gmap string Q) !! ty) as [a|] eqn:Ha.
      2:{ by apply not_elem_of_list_to_map in Ha. }
      rewrite Hlook in Ha.
      destruct (filter (λ t, task_type t = ty) results) as [|t ts] eqn:Hf;
        [done|].
      assert (t ∈ filter (λ t, task_type t = ty) results) as Ht
        by (rewrite Hf; left).
      apply list_elem_of_filter in Ht as [<- Ht].
      by apply list_elem_of_fmap_2.
    + intros (t & -> & Ht)%list_elem_of_fmap.
      destruct (decide (task_type t ∈ byt.*1)) as [|Hnot]; [done|exfalso].
      apply not_elem_of_list_to_map in Hnot. rewrite Hlook in Hnot.
      assert (t ∈ filter (λ t0, task_type t0 = task_type t) results) as Hin
        by (by apply list_elem_of_filter).
      destruct (filter _ results); [by apply elem_of_nil in Hin|done].
  - exact Hlook.
  - destruct results as [|t results]; [by injection Havg|].
    rewrite length_fmap in Havg. cbn [fmap list_fmap] in Havg.
    change (length (t :: results)) with (S (length results)) in Havg |- *.
    rewrite py_div_count in Havg. by injection Havg.
Qed.

(** ** The theorems above on examples *)

(** Witness of X5: one task and nobody to serve it; with a timeout of
    three seconds the wait returns, empty-handed, within five rounds. *)
Lemma wait_for_completion_times_out_witness :
  ∃ results m',
    wait_for_completion demo_io_task demo_cpu_task demo_mixed_task
      (round_robin 0) demo_clock 5 (1 # 2) (Some 3%Q)
      (mkMaster "threaded" 0 [] (put (Some demo_task) (new_queue true))
         (new_queue true) (Some 0%Q) None true 1 0 0%nat)
      = Some (inr results, m') ∧
    tasks_submitted m' = 1.
Proof.
  destruct (wait_for_completion_times_out demo_io_task demo_cpu_task
              demo_mixed_task (round_robin 0) demo_clock 3%Q (1 # 2)%Q 4
              (mkMaster "threaded" 0 [] (put (Some demo_task) (new_queue true))
                 (new_queue true) (Some 0%Q) None true 1 0 0%nat))
    as (results & m' & Hwait & Hsub & _).
  { unfold Qle. simpl. lia. }
  { vm_compute. reflexivity. }
  { by eexists. }
  exists results, m'. split; [exact Hwait | exact Hsub].
Defined.

(** Witness of X6: waiting on a new master. *)
Lemma wait_for_completion_needs_workload_witness :
  ∃ e m',
    wait_for_completion demo_io_task demo_cpu_task demo_mixed_task
      (round_robin 1) demo_clock 1 (1 # 2) None
      (mkMaster "threaded" 1 [ThreadWorker 1] (new_queue true)
         (new_queue true) None None false 0 0 0%nat)
      = Some (inl e, m') ∧
    exn_class e = "TypeError".
Proof.
  destruct (wait_for_completion demo_io_task demo_cpu_task demo_mixed_task
              (round_robin 1) demo_clock 1 (1 # 2) None
              (mkMaster "threaded" 1 [ThreadWorker 1] (new_queue true)
                 (new_queue true) None None false 0 0 0%nat))
    as [[out m']|] eqn:Hwait; [|vm_compute in Hwait; discriminate].
  destruct (wait_for_completion_needs_workload demo_io_task demo_cpu_task
              demo_mixed_task (round_robin 1) demo_clock demo_rng demo_memory
              1 (1 # 2)%Q None
              (mkMaster "threaded" 1 [ThreadWorker 1] (new_queue true)
                 (new_queue true) None None false 0 0 0%nat)
              out m' eq_refl Hwait)
    as (e & -> & He & _).
  exists e, m'. split; [reflexivity|]. apply He. unfold Qle. simpl. lia.
Defined.

(** Witness of X7: two results wait on the result queue. *)
Lemma collect_results_drains_witness :
  ∃ m',
    collect_results None
      (mkMaster "threaded" 2 [] (new_queue true)
         (put demo_task (put demo_task (new_queue true)))
         None None true 2 0 0%nat)
      = (inr [demo_task; demo_task], m') ∧
    pending (result_queue m') = [] ∧ tasks_completed m' = 2.
Proof.
  destruct (collect_results_drains None
              (mkMaster "threaded" 2 [] (new_queue true)
                 (put demo_task (put demo_task (new_queue true)))
                 None None true 2 0 0%nat) [demo_task; demo_task])
    as (m' & Hrun & Hpending & Hcount & _).
  { reflexivity. }
  { intros _. simpl. lia. }
  exists m'. split; [exact Hrun|]. split; [exact Hpending|].
  rewrite Hcount. reflexivity.
Defined.

(** Witness of X8: three tasks on two threads. *)
Lemma run_benchmark_safe_witness :
  ∃ fuel r m',
    run_benchmark demo_io_task demo_cpu_task demo_mixed_task (round_robin 2)
      demo_clock demo_rng demo_memory fuel 3
      (mkMaster "threaded" 2 [ThreadWorker 1; ThreadWorker 2] (new_queue true)
         (new_queue true) None None false 0 0 0%nat)
      = Some (inr r, m') ∧
    ids (arrived m') ≡ₚ seqZ 1 3 ∧ running m' = false.
Proof.
  destruct (run_from_fresh demo_io_task demo_cpu_task demo_mixed_task
              (round_robin 2) demo_clock demo_rng demo_memory 3
              (mkMaster "threaded" 2 [ThreadWorker 1; ThreadWorker 2]
                 (new_queue true) (new_queue true) None None false 0 0 0%nat))
    as (fuel & results & r & m3 & m4 & _ & Hrun & _).
  { by apply (constructors_fresh Threaded "threaded" 2). }
  { done. }
  { apply round_robin_fair. }
  destruct (run_benchmark_safe demo_io_task demo_cpu_task demo_mixed_task
              (round_robin 2) demo_clock demo_rng demo_memory
              Threaded "threaded" 2 3
              (mkMaster "threaded" 2 [ThreadWorker 1; ThreadWorker 2]
                 (new_queue true) (new_queue true) None None false 0 0 0%nat)
              fuel (inr r) m4 eq_refl Hrun)
    as (r' & _ & _ & Hperm & _ & _ & _ & _ & _ & _ & Hoff).
  exists fuel, r, m4. split; [exact Hrun|]. split; [exact Hperm | exact Hoff].
Defined.

(** Witness of X9: a second run on a pool of two processes. *)
Lemma run_benchmark_only_once_witness :
  ∃ fuel r m',
    run_benchmark demo_io_task demo_cpu_task demo_mixed_task (round_robin 2)
      demo_clock demo_rng demo_memory fuel 3
      (mkMaster "multiprocess" 2 [ProcessWorker 1; ProcessWorker 2]
         (new_queue false) (new_queue false) None None false 0 0 0%nat)
      = Some (inr r, m') ∧
    run_benchmark demo_io_task demo_cpu_task demo_mixed_task (round_robin 2)
      demo_clock demo_rng demo_memory 20 3 m'
      = Some (inl (AssertionError "cannot start a process twice"), m').
Proof.
  destruct (run_from_fresh demo_io_task demo_cpu_task demo_mixed_task
              (round_robin 2) demo_clock demo_rng demo_memory 3
              (mkMaster "multiprocess" 2 [ProcessWorker 1; ProcessWorker 2]
                 (new_queue false) (new_queue false) None None false 0 0
                 0%nat))
    as (fuel & results & r & m3 & m4 & _ & Hrun & _).
  { by apply (constructors_fresh Multiprocess "multiprocess" 2). }
  { done. }
  { apply round_robin_fair. }
  destruct (run_benchmark_only_once demo_io_task demo_cpu_task demo_mixed_task
              (round_robin 2) demo_clock demo_rng demo_memory
              Multiprocess "multiprocess" 2 3
              (mkMaster "multiprocess" 2 [ProcessWorker 1; ProcessWorker 2]
                 (new_queue false) (new_queue false) None None false 0 0
                 0%nat)
              fuel (inr r) m4 eq_refl ltac:(done) Hrun)
    as (w & _ & Hexn & Hagain).
  exists fuel, r, m4. split; [exact Hrun|].
  rewrite <- Hexn. exact (Hagain 20%nat 3).
Defined.


(** Witness of X12: the default configurations on a host with one CPU. *)
Lemma comprehensive_benchmark_hangs_witness :
  default_worker_counts (Some 1) = [1; 0; 1; 2] ∧
  ∀ io_task cpu_task mixed_task sched clock rng memory save_results fuel t,
    run_comprehensive_benchmark io_task cpu_task mixed_task sched clock rng
      memory save_results fuel (Some 1) None None t = None.
Proof.
  split; [reflexivity|].
  intros io_task cpu_task mixed_task sched clock rng memory save_results
    fuel t.
  apply (comprehensive_benchmark_hangs io_task cpu_task mixed_task sched
           clock rng memory save_results fuel (Some 1) None None t
           10 [50; 100] 0).
  - reflexivity.
  - lia.
  - change (0 ∈ [1; 0; 1; 2]). right. left.
  - lia.
Defined.

(** Witness of X13: two task counts and two worker counts, and a disk
    that is full when the results are written. *)
Lemma comprehensive_benchmark_shape_witness :
  ∃ fuel results t',
    run_comprehensive_benchmark demo_io_task demo_cpu_task demo_mixed_task
      (round_robin 2) demo_clock demo_rng demo_memory
      (λ _, Some (Exn "OSError" "No space left on device")) fuel None
      (Some [2; 3]) (Some [1; 2]) 0
      = Some (inl (Exn "OSError" "No space left on device"), t') ∧
    label <$> threaded results
      = [("threaded", 1, 2); ("threaded", 2, 2);
         ("threaded", 1, 3); ("threaded", 2, 3)].
Proof.
  destruct (task_count_loop_returns demo_io_task demo_cpu_task demo_mixed_task
              (round_robin 2) demo_clock demo_rng demo_memory [2; 3] [1; 2])
    with (results := mkResults [] [] []) (t := 0%nat)
    as (fuel & results & t' & Hloop).
  { apply (fair_le _ 1 2); [lia | apply round_robin_fair]. }
  { intros c Hc.
    assert (0 < c ∧ (Z.to_nat c ≤ 2)%nat) as [Hpos Hle].
    { repeat (apply elem_of_cons in Hc as [->|Hc]; [split; lia|]).
      by apply elem_of_nil in Hc. }
    split; [exact Hpos|].
    apply (fair_le _ _ 2); [exact Hle | apply round_robin_fair]. }
  assert (run_comprehensive_benchmark demo_io_task demo_cpu_task
            demo_mixed_task (round_robin 2) demo_clock demo_rng demo_memory
            (λ _, Some (Exn "OSError" "No space left on device")) fuel None
            (Some [2; 3]) (Some [1; 2]) 0
          = Some (inl (Exn "OSError" "No space left on device"), t'))
    as Hrun.
  { unfold run_comprehensive_benchmark.
    cbn [default from_option Datatypes.id]. by rewrite Hloop. }
  destruct (comprehensive_benchmark_shape demo_io_task demo_cpu_task
              demo_mixed_task (round_robin 2) demo_clock demo_rng demo_memory
              (λ _, Some (Exn "OSError" "No space left on device"))
              fuel None (Some [2; 3]) (Some [1; 2]) 0%nat _ t' Hrun)
    as (results' & _ & _ & Hthreaded & _).
  exists fuel, results', t'. split; [exact Hrun | exact Hthreaded].
Defined.

(** Witness of X14: the default configurations on a host that reports
    no CPU count (4 is assumed), under a round robin over eight, the
    results file being written without error. *)
Lemma comprehensive_benchmark_returns_witness :
  default_worker_counts None = [1; 2; 4; 8] ∧
  ∃ fuel results t',
    run_comprehensive_benchmark demo_io_task demo_cpu_task demo_mixed_task
      (round_robin 8) demo_clock demo_rng demo_memory (λ _, None) fuel
      None None None 0
      = Some (inr results, t').
Proof.
  split; [reflexivity|].
  apply (comprehensive_benchmark_returns demo_io_task demo_cpu_task
           demo_mixed_task (round_robin 8) demo_clock demo_rng demo_memory
           (λ _, None) None None None 0%nat).
  - apply (fair_le _ 1 8); [lia | apply round_robin_fair].
  - intros c Hc. change (c ∈ [1; 2; 4; 8]) in Hc.
    assert (0 < c ∧ (Z.to_nat c ≤ 8)%nat) as [Hpos Hle].
    { repeat (apply elem_of_cons in Hc as [->|Hc]; [split; lia|]).
      by apply elem_of_nil in Hc. }
    split; [exact Hpos|].
    apply (fair_le _ _ 8); [exact Hle | apply round_robin_fair].
Defined.

(** Witness of X15: [main] on a host with one CPU, the file written and
    the plots drawn without error. *)
Lemma benchmark_main_returns_witness :
  ∃ fuel results t',
    benchmark_main demo_io_task demo_cpu_task demo_mixed_task (round_robin 2)
      demo_clock demo_rng demo_memory (λ _, None) (λ _, None) fuel (Some 1) 0
      = Some (inr tt, t') ∧
    length (threaded results) = 12%nat.
Proof.
  destruct (benchmark_main_returns demo_io_task demo_cpu_task demo_mixed_task
              (round_robin 2) demo_clock demo_rng demo_memory
              (λ _, None) (λ _, None) (Some 1) 0%nat)
    as (fuel & results & t' & Hrun & _ & Hthreaded & _).
  { intros c [= <-]. lia. }
  { exact (round_robin_fair 2). }
  exists fuel, results, t'. split; [exact Hrun | exact Hthreaded].
Defined.

(** Witness of X16: three tasks on two threads. *)
Lemma run_benchmark_results_processed_witness :
  ∃ fuel results r m3,
    run_benchmark_try demo_io_task demo_cpu_task demo_mixed_task
      (round_robin 2) demo_clock demo_rng demo_memory fuel 3
      (mkMaster "threaded" 2 [ThreadWorker 1; ThreadWorker 2] (new_queue true)
         (new_queue true) None None false 0 0 0%nat)
      = Some (inr (results, r), m3) ∧
    ids results ≡ₚ seqZ 1 3 ∧
    Forall (λ t, ∃ j tk task,
                   tk ∈ round_robin 2 j ∧
                   submitted_tasks m3 !! Z.to_nat (id t - 1) = Some task ∧
                   id task = id t ∧
                   t = process_task demo_io_task demo_cpu_task demo_mixed_task
                         (t_start tk) (t_end tk) task)
           results.
Proof.
  destruct (run_from_fresh demo_io_task demo_cpu_task demo_mixed_task
              (round_robin 2) demo_clock demo_rng demo_memory 3
              (mkMaster "threaded" 2 [ThreadWorker 1; ThreadWorker 2]
                 (new_queue true) (new_queue true) None None false 0 0 0%nat))
    as (fuel & results & r & m3 & m4 & Htry & _).
  { by apply (constructors_fresh Threaded "threaded" 2). }
  { done. }
  { apply round_robin_fair. }
  exists fuel, results, r, m3. split; [exact Htry|].
  destruct (run_benchmark_results_processed demo_io_task demo_cpu_task
              demo_mixed_task (round_robin 2) demo_clock demo_rng demo_memory
              Threaded "threaded" 2 3
              (mkMaster "threaded" 2 [ThreadWorker 1; ThreadWorker 2]
                 (new_queue true) (new_queue true) None None false 0 0 0%nat)
              fuel results r m3 eq_refl Htry)
    as (m1 & _ & _ & Hids & Hall).
  split; [exact Hids | exact Hall].
Defined.

(** Witness of X17: the round robin reads the clock in order, and the
    clock of the examples never goes back. *)
Lemma statistics_nonnegative_witness :
  ∃ fuel results r m3,
    run_benchmark_try demo_io_task demo_cpu_task demo_mixed_task
      (round_robin 2) demo_clock demo_rng demo_memory fuel 3
      (mkMaster "threaded" 2 [ThreadWorker 1; ThreadWorker 2] (new_queue true)
         (new_queue true) None None false 0 0 0%nat)
      = Some (inr (results, r), m3) ∧
    (0 <= avg_task_time r)%Q ∧ (0 <= tasks_per_second r)%Q ∧
    (0 <= total_time r)%Q.
Proof.
  destruct (run_from_fresh demo_io_task demo_cpu_task demo_mixed_task
              (round_robin 2) demo_clock demo_rng demo_memory 3
              (mkMaster "threaded" 2 [ThreadWorker 1; ThreadWorker 2]
                 (new_queue true) (new_queue true) None None false 0 0 0%nat))
    as (fuel & results & r & m3 & m4 & Htry & _).
  { by apply (constructors_fresh Threaded "threaded" 2). }
  { done. }
  { apply round_robin_fair. }
  destruct (statistics_nonnegative demo_io_task demo_cpu_task demo_mixed_task
              (round_robin 2) demo_clock demo_rng demo_memory
              Threaded "threaded" 2 3
              (mkMaster "threaded" 2 [ThreadWorker 1; ThreadWorker 2]
                 (new_queue true) (new_queue true) None None false 0 0 0%nat)
              fuel results r m3)
    as (_ & Havg & _ & Htps & Htotal).
  { intros j tk Htk. unfold round_robin in Htk.
    apply list_elem_of_fmap in Htk as (i & -> & _). simpl.
    unfold Qle. simpl. lia. }
  { reflexivity. }
  { exact Htry. }
  exists fuel, results, r, m3. split; [exact Htry|].
  split; [exact Havg|]. split; [apply Htps; lia|].
  apply Htotal. intros i j Hij. unfold demo_clock.
  rewrite <- Zle_Qle. lia.
Defined.
